(** * sharecode / st_jj_v1.py: quote acquisition layer and signal engine

    A shallow embedding of the parts of [st_jj_v1.py] that serve quotes
    ([MyQuantClient]) and detect technical signals ([SignalEngine]), and of
    the state they work with: the settings tree ([Config]), the stock pool
    ([StockPool]), the trade recorder ([TradingRecorder]), positions and
    orders.

    Conventions of the embedding:
    - Python floats are exact rationals ([Q]); a NaN is [None] in an
      [option Q]; [round(x, 2)] is exact round-half-even at two decimals.
    - wall-clock instants ([datetime.now()]) are integers, in microseconds;
      durations of vendor calls are integers, in milliseconds.
    - a Python [dict] keyed by strings is a [gmap string _]; a statement that
      raises is [None] in the option monad where a caller can observe it.
    - symbols and codes are ASCII strings. *)

From Stdlib Require Import ZArith QArith Qabs Qround List String Ascii Bool Lia Lqa DecimalString.
From stdpp Require Import base option list strings gmap fin_maps.

Local Open Scope string_scope.
Local Open Scope list_scope.
Local Open Scope Z_scope.

(** ** Python string helpers used by the client *)
Module Py.

(** [s.split(".")[0]]: the part of [s] before its first dot. *)
Fixpoint split_dot_head (s : string) : string :=
  match s with
  | EmptyString => EmptyString
  | String c rest =>
      if Ascii.eqb c "."%char then EmptyString
      else String c (split_dot_head rest)
  end.

(** ["." in s]. *)
Fixpoint has_dot (s : string) : bool :=
  match s with
  | EmptyString => false
  | String c rest => Ascii.eqb c "."%char || has_dot rest
  end.

Definition is_digit_char (c : ascii) : bool :=
  let n := nat_of_ascii c in (48 <=? n)%nat && (n <=? 57)%nat.

Fixpoint all_digits (s : string) : bool :=
  match s with
  | EmptyString => true
  | String c rest => is_digit_char c && all_digits rest
  end.

(** [s.isdigit()]: non-empty and made of decimal digits. *)
Definition isdigit (s : string) : bool :=
  match s with
  | EmptyString => false
  | _ => all_digits s
  end.

(** [s.startswith(p)]. *)
Definition startswith (s p : string) : bool := String.prefix p s.

(** [s.startswith((p1, ..., pn))]. *)
Definition startswith_any (s : string) (ps : list string) : bool :=
  existsb (startswith s) ps.

(** [l[-1]] and [l[-2]]; [None] is Python's [IndexError]. *)
Definition neg1 {A} (l : list A) : option A := last l.
Definition neg2 {A} (l : list A) : option A :=
  match rev l with
  | _ :: x :: _ => Some x
  | _ => None
  end.

End Py.

(** ** The bounded task runner: [test_api_call] (nested in [connect]) *)
Module Runner.

(** What a vendor call does when run on its worker thread: it returns a value
    or raises after [elapsed] milliseconds, or it never finishes. *)
Inductive api_behaviour (A : Type) : Type :=
| Returns (v : A) (elapsed : Z)
| Raises (e : string) (elapsed : Z)
| Hangs.
Arguments Returns {A} v elapsed.
Arguments Raises {A} e elapsed.
Arguments Hangs {A}.

(** The one-slot lists [result], [error] and the event [completed] that
    [api_worker] shares with its caller. *)
Record cells (A : Type) : Type := mk_cells {
  result0 : option A;
  error0 : option string;
  completed : bool
}.
Arguments mk_cells {A} _ _ _.
Arguments result0 {A} _.
Arguments error0 {A} _.
Arguments completed {A} _.

Definition fresh_cells {A} : cells A := mk_cells None None false.

(** [api_worker]: the cells once the worker has run to its end, and when. *)
Definition api_worker {A} (api_func : api_behaviour A) (c : cells A)
  : option (cells A * Z) :=
  match api_func with
  | Returns v d => Some (mk_cells (Some v) (error0 c) true, d)
  | Raises e d => Some (mk_cells (result0 c) (Some e) true, d)
  | Hangs => None
  end.

(** [thread.start(); completed.wait(timeout)]: the cells as the caller finds
    them when [wait] returns, and how long it waited. A worker that needs
    more than [timeout] has written nothing yet. *)
Definition start_and_wait {A} (api_func : api_behaviour A) (timeout : Z)
  : cells A * Z :=
  match api_worker api_func fresh_cells with
  | Some (c, d) => if d <=? timeout then (c, d) else (fresh_cells, timeout)
  | None => (fresh_cells, timeout)
  end.

(** The second component of the returned pair: [None], the exception, or the
    call's result. *)
Inductive payload (A : Type) : Type :=
| PNone
| PError (e : string)
| PResult (v : A).
Arguments PNone {A}.
Arguments PError {A} e.
Arguments PResult {A} v.

(** [test_api_call(api_func, timeout)] with the time it took. *)
Definition test_api_call_timed {A} (api_func : api_behaviour A) (timeout : Z)
  : (bool * payload A) * Z :=
  let '(c, waited) := start_and_wait api_func timeout in
  if negb (completed c) then ((false, PNone), waited)
  else
    match error0 c with
    | Some e => ((false, PError e), waited)
    | None =>
        ((true, match result0 c with Some v => PResult v | None => PNone end),
         waited)
    end.

Definition test_api_call {A} (api_func : api_behaviour A) (timeout : Z)
  : bool * payload A :=
  fst (test_api_call_timed api_func timeout).

(** The operation finished (returned or raised) within [timeout]. *)
Definition finishes_within {A} (op : api_behaviour A) (timeout : Z) : Prop :=
  match op with
  | Returns _ d | Raises _ d => d <= timeout
  | Hangs => False
  end.

(** The contract of section 4.1 as the specification words it:
    [run(operation, timeout)] gives [(completed, result, error)]. *)
Definition run_contract {A} (op : api_behaviour A) (timeout : Z)
  : bool * option A * option string :=
  match op with
  | Returns v d => if d <=? timeout then (true, Some v, None) else (false, None, None)
  | Raises e d => if d <=? timeout then (true, None, Some e) else (false, None, None)
  | Hangs => (false, None, None)
  end.

(** The pair [test_api_call] returns, read as the contract's triple: its flag,
    then the payload as a result or as an error. *)
Definition as_triple {A} (r : bool * payload A) : bool * option A * option string :=
  match r with
  | (flag, PNone) => (flag, None, None)
  | (flag, PError e) => (flag, None, Some e)
  | (flag, PResult v) => (flag, Some v, None)
  end.

End Runner.

(** ** Rational arithmetic standing for Python floats *)
Module Num.

Definition Qltb (x y : Q) : bool := negb (Qle_bool y x).

(** Nearest integer, ties to the even one. *)
Definition round_half_even (x : Q) : Z :=
  let f := Qfloor x in
  match Qcompare (x - inject_Z f) (1 # 2) with
  | Lt => f
  | Gt => f + 1
  | Eq => if Z.even f then f else f + 1
  end.

(** [round(x, 2)]. *)
Definition round2 (x : Q) : Q := (inject_Z (round_half_even (x * 100)) / 100)%Q.

End Num.

(** ** [MyQuantClient]: the state of the client object *)
Module Client.

(** The tag written under the quote's source key by [get_realtime_data]. *)
Inductive data_source : Type :=
| AKShare
| MyQuant.

(** One quote: the dict a provider builds for a code (price, change
    percent, turnover rate, time of day in seconds, the primary's
    source-type note) and the source tag added at write-back. *)
Record quote : Type := mk_quote {
  price : Q;
  change_pct : Q;
  turnover_rate : Q;
  time_hms : Z;
  source_type : option string;
  source_tag : option data_source
}.

(** The attributes [__init__] creates. [cache_time] holds instants in
    microseconds, [cache_expiry] is in seconds. *)
Record MyQuantClient : Type := mk_client {
  connected : bool;
  account_id : option string;
  token : option string;
  data_cache : gmap string quote;
  cache_time : gmap string Z;
  cache_expiry : Z
}.

Definition init : MyQuantClient := mk_client false None None ∅ ∅ 5.

End Client.

(** ** Gateway connection: [MyQuantClient.connect] and [is_connected] *)
Module Gateway.
Import Runner Client.

(** Values the vendor SDK hands back to the probes. [len] of [PyUnsized]
    raises [TypeError]. *)
Inductive pyobj : Type :=
| PyNone
| PySized (len : nat)
| PyUnsized.

(** The vendor module [gm], as far as [connect] calls it. *)
Record gm_module : Type := {
  set_token : string -> api_behaviour pyobj;
  set_account_id : string -> api_behaviour pyobj;
  current : list string -> api_behaviour pyobj;
  get_cash : api_behaviour pyobj
}.

(** [Config.get("myquant.token")] and [Config.get("myquant.account_id")]. *)
Record Config : Type := {
  myquant_token : option string;
  myquant_account_id : option string
}.

Definition default_token : string := "85db8b06e888f0e16b7041da679079ecd529e117".
Definition default_account_id : string := "41702793-80bf-11f0-8b8b-00163e022aa6".

(** Python truthiness of an optional string. *)
Definition truthy (o : option string) : bool :=
  match o with
  | Some s => negb (String.eqb s "")
  | None => false
  end.

Definition or_default (o : option string) (d : string) : string :=
  if truthy o then default d o else d.

(** [success and data is not None and len(data) > 0]; [None] when [len]
    raises. *)
Definition quote_probe_ok (r : bool * payload pyobj) : option bool :=
  match r with
  | (false, _) => Some false
  | (true, PResult (PySized n)) => Some (0 <? n)%nat
  | (true, PResult PyUnsized) => None
  | (true, _) => Some false
  end.

(** How [connect_worker] ended: when it set [connection_success], if it did,
    and when the thread finished (milliseconds after its start). *)
Record worker_run : Type := {
  success_at : option Z;
  finished_at : Z
}.

Definition connect_worker (gm : gm_module) (tok acct : string) : worker_run :=
  let '((success, _), d1) := test_api_call_timed (set_token gm tok) 1000 in
  if negb success then {| success_at := None; finished_at := d1 |}
  else
    let d2 :=
      if negb (String.eqb acct "")
      then snd (test_api_call_timed (set_account_id gm acct) 1000)
      else 0 in
    let '(r3, d3) := test_api_call_timed (current gm ["SZSE.000001"]) 3000 in
    let t3 := d1 + d2 + d3 in
    match quote_probe_ok r3 with
    | None => {| success_at := None; finished_at := t3 |}
    | Some true => {| success_at := Some t3; finished_at := t3 |}
    | Some false =>
        let '((success, _), d4) := test_api_call_timed (get_cash gm) 2000 in
        let t4 := t3 + d4 in
        if success then {| success_at := Some t4; finished_at := t4 |}
        else {| success_at := None; finished_at := t4 |}
    end.

(** The message [connect] logs before it returns. *)
Inductive report : Type :=
| SdkUnavailable
| ConnectedOk
| TimedOut
| ProbeFailed.

(** [connect_thread.join(timeout=5.0)] returns when the worker has finished,
    or after five seconds. *)
Definition join_returns_at (run : worker_run) : Z := Z.min (finished_at run) 5000.

(** [connection_success.is_set()] after the join. *)
Definition connection_success_is_set (run : worker_run) : bool :=
  match success_at run with
  | Some t => t <=? join_returns_at run
  | None => false
  end.

(** [timeout_occurred.is_set()]: the four-second timer fired before
    [timer.cancel()]. *)
Definition timeout_occurred_is_set (run : worker_run) : bool :=
  4000 <=? join_returns_at run.

(** The assignments to [self.token], [self.account_id], [self.connected]. *)
Definition set_connection (self : MyQuantClient) (c : bool) (acct tok : string)
  : MyQuantClient :=
  mk_client c (Some acct) (Some tok)
    (data_cache self) (cache_time self) (cache_expiry self).

Definition connect (MYQUANT_AVAILABLE : bool) (gm : gm_module) (config : Config)
  (self : MyQuantClient) : bool * MyQuantClient * report :=
  if negb MYQUANT_AVAILABLE then (false, self, SdkUnavailable)
  else
    let tok := or_default (myquant_token config) default_token in
    let acct := or_default (myquant_account_id config) default_account_id in
    let run := connect_worker gm tok acct in
    if connection_success_is_set run
    then (true, set_connection self true acct tok, ConnectedOk)
    else if timeout_occurred_is_set run
    then (false, set_connection self false acct tok, TimedOut)
    else (false, set_connection self false acct tok, ProbeFailed).

Definition is_connected (MYQUANT_AVAILABLE : bool) (self : MyQuantClient) : bool :=
  connected self && MYQUANT_AVAILABLE.

(** Step 3 (canary quote) gave the explicit success signal. *)
Definition quote_step_succeeds (gm : gm_module) : Prop :=
  quote_probe_ok (test_api_call (current gm ["SZSE.000001"]) 3000) = Some true.

(** Step 4 (cash balance) gave the explicit success signal. *)
Definition cash_step_succeeds (gm : gm_module) : Prop :=
  fst (test_api_call (get_cash gm) 2000) = true.


(** A terminal that is not running, seen three ways: every call hangs; every
    call raises at once; or the token and account setters return at once and
    the two probes hang. *)
Definition gm_all_hang : gm_module :=
  {| set_token := fun _ => Hangs;
     set_account_id := fun _ => Hangs;
     current := fun _ => Hangs;
     get_cash := Hangs |}.


Definition gm_probes_hang : gm_module :=
  {| set_token := fun _ => Returns PyNone 0;
     set_account_id := fun _ => Returns PyNone 0;
     current := fun _ => Hangs;
     get_cash := Hangs |}.

Definition empty_config : Config :=
  {| myquant_token := None; myquant_account_id := None |}.

End Gateway.

(** ** Quote service: cache, provider chain, fallback *)
Module Quotes.
Import Py Num Client.

(** *** The primary provider (AKShare) *)

(** A row of the market snapshot. A field is [None] when [float(...)] raises
    on it. *)
Record ak_row : Type := {
  ak_code : string;
  ak_latest_price : option Q;
  ak_change_pct : option Q;
  ak_turnover_rate : option Q
}.

(** A snapshot call raises, or returns a table ([[]] for [None] or an empty
    frame). *)
Inductive ak_outcome : Type :=
| AkRaises
| AkTable (rows : list ak_row).

Record ak_module : Type := {
  stock_zh_a_spot_em : ak_outcome;
  stock_zh_a_spot_gs : ak_outcome
}.

(** *** The vendor SDK as the fallback calls it *)

Inductive outcome (A : Type) : Type :=
| Ok (a : A)
| Raise.
Arguments Ok {A} a.
Arguments Raise {A}.

(** A row of [gm.current]; a field is [None] when its key is absent. *)
Record tick : Type := {
  tk_symbol : option string;
  tk_price : option Q;
  tk_cum_volume : option Q
}.

Record bar : Type := { bar_close : option Q }.

(** [history] is the dated query, keyed by the symbol and the day number of
    the queried date; [history_n] the query for the last [count] sessions. *)
Record gm_api : Type := {
  current : list string -> outcome (list tick);
  history : string -> Z -> outcome (list bar);
  history_n : string -> nat -> outcome (list bar)
}.

(** Everything outside the client a call depends on: the two availability
    flags set at import, the two data sources, and the wall clock as the
    providers read it (microseconds). *)
Record world : Type := {
  AKSHARE_AVAILABLE : bool;
  MYQUANT_AVAILABLE : bool;
  ak : ak_module;
  gm : gm_api;
  clock : Z
}.

Definition is_connected (w : world) (self : MyQuantClient) : bool :=
  connected self && MYQUANT_AVAILABLE w.

Definition day_us : Z := 86400000000.

(** [strftime("%H:%M:%S")] of an instant, as seconds since midnight. *)
Definition hms (now : Z) : Z := (now / 1000000) mod 86400.

(** The date of [datetime.now() - timedelta(days=1)], as a day number. *)
Definition yesterday (now : Z) : Z := (now - day_us) / day_us.

(** [if not fetched_data]. *)
Definition is_empty {A} (m : gmap string A) : bool := (size m =? 0)%nat.

(** **** [_get_realtime_data_from_akshare] *)

Definition ak_frame (a : ak_module) : option (list ak_row) :=
  match stock_zh_a_spot_em a with
  | AkTable [] => None
  | AkTable df => Some df
  | AkRaises =>
      match stock_zh_a_spot_gs a with
      | AkTable [] => None
      | AkTable df => Some df
      | AkRaises => None
      end
  end.

(** The body of the loop over the requested symbols. *)
Definition ak_lookup (df : list ak_row) (now : Z)
  (result : gmap string quote) (symbol : string) : gmap string quote :=
  let clean_code := split_dot_head symbol in
  if negb (String.length clean_code =? 6)%nat || negb (isdigit clean_code)
  then result
  else
    match find (fun r => String.eqb (ak_code r) clean_code) df with
    | Some row =>
        match ak_latest_price row, ak_change_pct row, ak_turnover_rate row with
        | Some latest_price, Some chg, Some turnover =>
            <[clean_code :=
                mk_quote latest_price chg turnover (hms now)
                  (Some "AKShare direct") None]> result
        | _, _, _ => result
        end
    | None => result
    end.

Definition _get_realtime_data_from_akshare (w : world) (symbols : list string)
  : gmap string quote :=
  match ak_frame (ak w) with
  | None => ∅
  | Some df => fold_left (ak_lookup df (clock w)) symbols ∅
  end.

(** **** [_get_realtime_data_from_myquant] *)

Definition sh_prefixes : list string := ["60"; "68"; "11"; "12"; "13"].
Definition sz_prefixes : list string := ["00"; "30"; "12"; "15"; "16"; "18"].

(** The exchange-qualified symbol of a clean code; [None] where the loop
    adds nothing for it. *)
Definition gm_symbol_of (clean_code : string) : option string :=
  if (String.length clean_code =? 6)%nat && isdigit clean_code then
    if startswith_any clean_code sh_prefixes
    then Some (String.append "SHSE." clean_code)
    else if startswith_any clean_code sz_prefixes
    then Some (String.append "SZSE." clean_code)
    else None
  else None.

(** The first loop: [gm_symbols] and [code_map]. *)
Definition convert_step (acc : list string * gmap string string) (symbol : string)
  : list string * gmap string string :=
  let clean_code := split_dot_head symbol in
  match gm_symbol_of clean_code with
  | Some gm_symbol => ((acc.1 ++ [gm_symbol])%list, <[gm_symbol := clean_code]> (acc.2))
  | None => acc
  end.

Definition convert_symbols (symbols : list string)
  : list string * gmap string string :=
  fold_left convert_step symbols ([], ∅).

(** [round((current_price - pre_close) / pre_close * 100, 2)]. *)
Definition pct_change (current_price pre_close : Q) : Q :=
  round2 ((current_price - pre_close) / pre_close * 100)%Q.

(** The guarded assignment to [change_pct] for a baseline row. *)
Definition pct_from_bar (current_price : Q) (b : bar) : Q :=
  let pre_close := default 0%Q (bar_close b) in
  if Qltb 0 pre_close && Qltb 0 current_price
  then pct_change current_price pre_close
  else 0%Q.

(** The [try] block that derives [change_pct] from history. *)
Definition change_pct_of (g : gm_api) (now : Z) (symbol : string)
  (current_price : Q) : Q :=
  match history g symbol (yesterday now) with
  | Raise => 0%Q
  | Ok hist_data =>
      match neg1 hist_data with
      | Some b => pct_from_bar current_price b
      | None =>
          match history_n g symbol 3 with
          | Raise => 0%Q
          | Ok hist_data_n =>
              if (2 <=? length hist_data_n)%nat then
                match neg2 hist_data_n with
                | Some b => pct_from_bar current_price b
                | None => 0%Q
                end
              else 0%Q
          end
      end
  end.

Definition turnover_of (volume : Q) : Q :=
  if Qltb 0 volume then round2 (volume / 10000000)%Q else 0%Q.

(** The body of the loop over the rows of [gm.current]. *)
Definition process_tick (g : gm_api) (now : Z) (code_map : gmap string string)
  (result : gmap string quote) (data : tick) : gmap string quote :=
  let symbol := default "" (tk_symbol data) in
  match code_map !! symbol with
  | None => result
  | Some code =>
      if String.eqb code "" then result
      else
        let current_price := default 0%Q (tk_price data) in
        let volume := default 0%Q (tk_cum_volume data) in
        <[code :=
            mk_quote current_price (change_pct_of g now symbol current_price)
              (turnover_of volume) (hms now) None None]> result
  end.

Definition _get_realtime_data_from_myquant (w : world) (self : MyQuantClient)
  (symbols : list string) : gmap string quote :=
  if negb (is_connected w self) then ∅
  else
    match symbols with
    | [] => ∅
    | _ =>
        let '(gm_symbols, code_map) := convert_symbols symbols in
        match gm_symbols with
        | [] => ∅
        | _ =>
            match current (gm w) gm_symbols with
            | Raise => ∅
            | Ok current_data =>
                fold_left (process_tick (gm w) (clock w) code_map) current_data ∅
            end
        end
    end.

(** *** [get_realtime_data] *)

(** A provider invocation made by one call, with the batch it received. *)
Inductive provider_call : Type :=
| CallAKShare (batch : list string)
| CallMyQuant (batch : list string).

(** The cached quote of a code, if the entry exists and is younger than
    [cache_expiry] seconds at [now]. *)
Definition cache_hit (self : MyQuantClient) (now : Z) (clean_code : string)
  : option quote :=
  match data_cache self !! clean_code, cache_time self !! clean_code with
  | Some q, Some t =>
      if now - t <? cache_expiry self * 1000000 then Some q else None
  | _, _ => None
  end.

(** The body of the first loop: cache hit or needs-fetch. *)
Definition scan_step (self : MyQuantClient) (now : Z) (force_refresh : bool)
  (acc : gmap string quote * list string) (symbol : string)
  : gmap string quote * list string :=
  let clean_code := if has_dot symbol then split_dot_head symbol else symbol in
  if force_refresh then (acc.1, (acc.2 ++ [symbol])%list)
  else
    match cache_hit self now clean_code with
    | Some q => (<[clean_code := q]> (acc.1), acc.2)
    | None => (acc.1, (acc.2 ++ [symbol])%list)
    end.

Definition scan_cache (self : MyQuantClient) (now : Z) (force_refresh : bool)
  (symbols : list string) : gmap string quote * list string :=
  fold_left (scan_step self now force_refresh) symbols (∅, []).

(** The primary stage: [fetched_data], [akshare_success] and the call made. *)
Definition primary_stage (w : world) (need_fetch : list string)
  : gmap string quote * bool * list provider_call :=
  if AKSHARE_AVAILABLE w then
    let fetched_data := _get_realtime_data_from_akshare w need_fetch in
    (fetched_data, negb (is_empty fetched_data), [CallAKShare need_fetch])
  else (∅, false, []).

(** The fallback stage. *)
Definition fallback_stage (w : world) (self : MyQuantClient)
  (need_fetch : list string) (fetched_data : gmap string quote)
  (akshare_success : bool) : gmap string quote * list provider_call :=
  if negb akshare_success && is_empty fetched_data && is_connected w self
  then (_get_realtime_data_from_myquant w self need_fetch, [CallMyQuant need_fetch])
  else (fetched_data, []).

(** The provider chain of one call: the primary, then the fallback when the
    primary gave nothing. It yields [fetched_data], [akshare_success] and the
    provider calls made, in order. *)
Definition provider_chain (w : world) (self : MyQuantClient)
  (need_fetch : list string) : gmap string quote * bool * list provider_call :=
  let '(fetched_data, akshare_success, calls1) := primary_stage w need_fetch in
  let '(fetched_data, calls2) :=
    fallback_stage w self need_fetch fetched_data akshare_success in
  (fetched_data, akshare_success, (calls1 ++ calls2)%list).

Definition source_of (akshare_success : bool) : data_source :=
  if akshare_success then AKShare else MyQuant.

Definition set_source (src : data_source) (data : quote) : quote :=
  mk_quote (price data) (change_pct data) (turnover_rate data) (time_hms data)
    (source_type data) (Some src).

(** The body of the write-back loop over [fetched_data.items()]. *)
Definition write_back (src : data_source) (current_time : Z)
  (code : string) (data : quote) (acc : MyQuantClient * gmap string quote)
  : MyQuantClient * gmap string quote :=
  let data := set_source src data in
  (mk_client (connected acc.1) (account_id acc.1) (token acc.1)
     (<[code := data]> (data_cache acc.1))
     (<[code := current_time]> (cache_time acc.1))
     (cache_expiry acc.1),
   <[code := data]> (acc.2)).

(** [get_realtime_data(symbols, force_refresh)] run at instant
    [current_time]: the returned dict, the client afterwards, and the
    provider calls made, in order. The two helpers catch every exception
    themselves, so the handlers around their calls never run. *)
Definition get_realtime_data (w : world) (self : MyQuantClient)
  (current_time : Z) (symbols : list string) (force_refresh : bool)
  : gmap string quote * MyQuantClient * list provider_call :=
  match symbols with
  | [] => (∅, self, [])
  | _ =>
      let '(result, need_fetch) := scan_cache self current_time force_refresh symbols in
      match need_fetch with
      | [] => (result, self, [])
      | _ =>
          let '(fetched_data, akshare_success, calls) :=
            provider_chain w self need_fetch in
          let '(self', result') :=
            map_fold (write_back (source_of akshare_success) current_time)
              (self, result) fetched_data in
          (result', self', calls)
      end
  end.

(** What one call fetches for its needs-fetch batch: nothing, by no provider
    call, when the batch is empty. *)
Definition fetch_needed (w : world) (self : MyQuantClient)
  (need_fetch : list string) : gmap string quote * bool * list provider_call :=
  match need_fetch with
  | [] => (∅, false, [])
  | _ => provider_chain w self need_fetch
  end.

(** The batch a provider call received. *)
Definition batch_of (c : provider_call) : list string :=
  match c with
  | CallAKShare b | CallMyQuant b => b
  end.

(** The baseline close of a symbol: the close of the last row of the dated
    query when that query has rows; otherwise the close of the
    second-most-recent row of the three-session query. *)
Inductive baseline (g : gm_api) (now : Z) (symbol : string) : Q -> Prop :=
| baseline_dated hist_data b :
    history g symbol (yesterday now) = Ok hist_data ->
    neg1 hist_data = Some b ->
    baseline g now symbol (default 0%Q (bar_close b))
| baseline_widened hist_data_n b :
    history g symbol (yesterday now) = Ok [] ->
    history_n g symbol 3 = Ok hist_data_n ->
    neg2 hist_data_n = Some b ->
    baseline g now symbol (default 0%Q (bar_close b)).

(** [clear_cache()]. *)
Definition clear_cache (self : MyQuantClient) : MyQuantClient :=
  mk_client (connected self) (account_id self) (token self) ∅ ∅ (cache_expiry self).

(** The two cache dicts hold the same codes. *)
Definition cache_consistent (self : MyQuantClient) : Prop :=
  forall code, is_Some (data_cache self !! code) <-> is_Some (cache_time self !! code).

(** Every cached quote carries its source tag. *)
Definition cache_tagged (self : MyQuantClient) : Prop :=
  forall code q, data_cache self !! code = Some q -> is_Some (source_tag q).

(** A code is requested when it is the clean code of a requested symbol. *)
Definition requested (symbols : list string) (code : string) : Prop :=
  exists symbol, In symbol symbols /\ split_dot_head symbol = code.

(** The quote the primary builds for a clean code from a snapshot table: the
    code must be six digits and the first row carrying it must convert. *)
Definition ak_quote (df : list ak_row) (now : Z) (clean_code : string) : option quote :=
  if negb (String.length clean_code =? 6)%nat || negb (isdigit clean_code) then None
  else
    match find (fun r => String.eqb (ak_code r) clean_code) df with
    | Some row =>
        match ak_latest_price row, ak_change_pct row, ak_turnover_rate row with
        | Some latest_price, Some chg, Some turnover =>
            Some (mk_quote latest_price chg turnover (hms now) (Some "AKShare direct") None)
        | _, _, _ => None
        end
    | None => None
    end.

End Quotes.

(** ** Signal engine: [SignalEngine] *)
Module Signals.
Import Py Num.

(** A pandas Series of floats; [None] is NaN. *)
Abbreviation series := (list (option Q)).

(** A DataFrame, or a dict of Series, by column name. *)
Abbreviation frame := (gmap string series).

(** One entry of [self.results]: [(symbol, name, idx, score)]. *)
Definition signal : Type := string * string * Z * Q.

Definition signal_name (s : signal) : string := s.1.1.2.
Definition signal_idx (s : signal) : Z := s.1.2.

Record SignalEngine : Type := {
  amplitude_threshold : Q;
  high_low_diff_threshold : Q
}.

(** [SignalEngine()] with the default thresholds. *)
Definition default_engine : SignalEngine :=
  {| amplitude_threshold := 0.005%Q; high_low_diff_threshold := 1%Q |}.

(** [self.label_map]: key, display label (in English here), score. *)
Definition label_map : list (string * (string * Q)) :=
  [ ("ma5_bottom_turn", ("MA5 bottom turn", 0.6%Q));
    ("ma10_bottom_turn", ("MA10 bottom turn", 0.7%Q));
    ("ma20_bottom_turn", ("MA20 bottom turn", 0.8%Q));
    ("ma60_bottom_turn", ("MA60 bottom turn", 0.9%Q));
    ("ma5_top_turn", ("MA5 top turn", 0.6%Q));
    ("ma10_top_turn", ("MA10 top turn", 0.7%Q));
    ("ma20_top_turn", ("MA20 top turn", 0.8%Q));
    ("ma60_top_turn", ("MA60 top turn", 0.9%Q));
    ("ma_multi_bull", ("MA bullish alignment", 1%Q));
    ("ma_multi_bear", ("MA bearish alignment", 1%Q));
    ("macd_golden_cross", ("MACD golden cross", 0.8%Q));
    ("macd_death_cross", ("MACD death cross", 0.8%Q));
    ("macd_divergence_bull", ("MACD bullish divergence", 0.9%Q));
    ("macd_divergence_bear", ("MACD bearish divergence", 0.9%Q));
    ("rsi_oversold", ("RSI oversold", 0.7%Q));
    ("rsi_overbought", ("RSI overbought", 0.7%Q));
    ("rsi_divergence_bull", ("RSI bullish divergence", 0.8%Q));
    ("rsi_divergence_bear", ("RSI bearish divergence", 0.8%Q));
    ("volume_surge", ("volume surge", 0.6%Q));
    ("volume_shrink", ("volume shrink", 0.5%Q));
    ("support_bounce", ("support bounce", 0.7%Q));
    ("resistance_break", ("resistance break", 0.8%Q)) ].

(** [self.label_map.get(name, (name, 0))[1]]. *)
Definition score_of (name : string) : Q :=
  match find (fun kv => String.eqb kv.1 name) label_map with
  | Some kv => kv.2.2
  | None => 0%Q
  end.

(** Float comparisons and subtraction; a comparison with NaN is false. *)
Definition fgt (x y : option Q) : bool :=
  match x, y with
  | Some a, Some b => Qltb b a
  | _, _ => false
  end.
Definition flt (x y : option Q) : bool := fgt y x.
Definition fle (x y : option Q) : bool :=
  match x, y with
  | Some a, Some b => Qle_bool a b
  | _, _ => false
  end.
Definition fge (x y : option Q) : bool := fle y x.
Definition fsub (x y : option Q) : option Q :=
  match x, y with
  | Some a, Some b => Some (a - b)%Q
  | _, _ => None
  end.

(** [s.dropna().values]. *)
Definition dropna (s : series) : list Q := omap id s.

(** [l[-n:]]. *)
Definition lastn {A} (n : nat) (l : list A) : list A := drop (length l - n) l.

(** [numpy.gradient] on unit spacing: one-sided differences at the two ends,
    central differences inside. *)
Fixpoint central (f : list Q) : list Q :=
  match f with
  | a :: ((_ :: c :: _) as tl) => ((c - a) / 2)%Q :: central tl
  | _ => []
  end.

Definition np_gradient (f : list Q) : list Q :=
  match f, rev f with
  | f0 :: f1 :: _, l1 :: l2 :: _ =>
      ((f1 - f0)%Q :: central f ++ [(l1 - l2)%Q])%list
  | _, _ => []
  end.

(** [l[-1]] and [l[-2]] of an array known to be long enough. *)
Definition at1 (l : list Q) : Q := default 0%Q (neg1 l).
Definition at2 (l : list Q) : Q := default 0%Q (neg2 l).

(** [abs((last - prev) / prev) if prev != 0 else 0]. *)
Definition amplitude_of (prev last : Q) : Q :=
  if negb (Qeq_bool prev 0) then Qabs ((last - prev) / prev) else 0%Q.

Definition detect_ma_turning_point (self : SignalEngine) (ma_values : list Q)
  (direction : string) : bool * Z :=
  if (length ma_values <? 3)%nat then (false, -1)
  else
    let recent := lastn 3 ma_values in
    let grads := np_gradient recent in
    let amplitude := amplitude_of (at2 recent) (at1 recent) in
    if Qle_bool amplitude (amplitude_threshold self) then (false, -1)
    else if String.eqb direction "bottom" && Qltb (at2 grads) 0 && Qltb 0 (at1 grads)
    then (true, Z.of_nat (length ma_values) - 1)
    else if String.eqb direction "top" && Qltb 0 (at2 grads) && Qltb (at1 grads) 0
    then (true, Z.of_nat (length ma_values) - 1)
    else (false, -1).

(** [f"MA{period}"] and [f"ma{period}_{direction}_turn"]. *)
Definition show_nat (n : nat) : string := NilZero.string_of_uint (Nat.to_uint n).
Definition ma_col (period : nat) : string := String.append "MA" (show_nat period).
Definition turn_name (period : nat) (direction : string) : string :=
  String.append "ma"
    (String.append (show_nat period)
       (String.append "_" (String.append direction "_turn"))).

(** [(direction == "bottom" and main_trend_bull) or
    (direction == "top" and main_trend_bear)]. *)
Definition gate (direction : string) (main_trend_bull main_trend_bear : bool) : bool :=
  (String.eqb direction "bottom" && main_trend_bull)
  || (String.eqb direction "top" && main_trend_bear).

(** The body of the loop over the two directions. *)
Definition ma_direction_signals (self : SignalEngine) (ma_values : list Q)
  (main_trend_bull main_trend_bear : bool) (symbol : string) (period : nat)
  (direction : string) : list signal :=
  if gate direction main_trend_bull main_trend_bear
  then
    let name := turn_name period direction in
    let '(is_signal, idx) := detect_ma_turning_point self ma_values direction in
    if is_signal then [(symbol, name, idx, score_of name)] else []
  else [].

(** The body of the loop over the periods. *)
Definition ma_period_signals (self : SignalEngine) (indicators : frame)
  (main_trend_bull main_trend_bear : bool) (symbol : string) (period : nat)
  : list signal :=
  match indicators !! ma_col period with
  | Some col =>
      let ma_values := dropna col in
      if (6 <=? length ma_values)%nat
      then
        flat_map
          (ma_direction_signals self ma_values main_trend_bull main_trend_bear
             symbol period)
          ["bottom"; "top"]
      else []
  | None => []
  end.

Definition ma_periods : list nat := [5; 10; 20; 60]%nat.

(** What [_detect_ma_signals] appends to [self.results], in order. *)
Definition _detect_ma_signals (self : SignalEngine) (indicators : frame)
  (main_trend_bull main_trend_bear : bool) (symbol : string) : list signal :=
  flat_map (ma_period_signals self indicators main_trend_bull main_trend_bear symbol)
    ma_periods.

(** What [_detect_macd_signals] appends; [None] when an [iloc] raises. *)
Definition _detect_macd_signals (self : SignalEngine) (indicators : frame)
  (symbol : string) : option (list signal) :=
  match indicators !! "MACD", indicators !! "MACD_Signal" with
  | Some macd, Some sig =>
      if (length macd <? 3)%nat then Some []
      else
        m1 ← neg1 macd; s1 ← neg1 sig;
        m2 ← neg2 macd; s2 ← neg2 sig;
        let current_cross := fsub m1 s1 in
        let prev_cross := fsub m2 s2 in
        let idx := Z.of_nat (length macd) - 1 in
        if fle prev_cross (Some 0%Q) && fgt current_cross (Some 0%Q)
        then Some [(symbol, "macd_golden_cross", idx, score_of "macd_golden_cross")]
        else if fge prev_cross (Some 0%Q) && flt current_cross (Some 0%Q)
        then Some [(symbol, "macd_death_cross", idx, score_of "macd_death_cross")]
        else Some []
  | _, _ => Some []
  end.

(** What [_detect_rsi_signals] appends. *)
Definition _detect_rsi_signals (self : SignalEngine) (indicators : frame)
  (symbol : string) : option (list signal) :=
  match indicators !! "RSI" with
  | Some rsi =>
      if (length rsi <? 3)%nat then Some []
      else
        current_rsi ← neg1 rsi;
        let idx := Z.of_nat (length rsi) - 1 in
        if fgt current_rsi (Some 70%Q)
        then Some [(symbol, "rsi_overbought", idx, score_of "rsi_overbought")]
        else if flt current_rsi (Some 30%Q)
        then Some [(symbol, "rsi_oversold", idx, score_of "rsi_oversold")]
        else Some []
  | None => Some []
  end.

(** [close.iloc[-1] > ma60.iloc[-1] if ma60 is not None else False], and its
    mirror. *)
Definition main_trend (cmp : option Q -> option Q -> bool) (close : series)
  (ma60 : option series) : option bool :=
  match ma60 with
  | Some m => c ← neg1 close; x ← neg1 m; Some (cmp c x)
  | None => Some false
  end.

(** [run_all_strategies(data, indicators, symbol)]: [self.results] when the
    call returns, [None] when it raises. *)
Definition run_all_strategies (self : SignalEngine) (data indicators : frame)
  (symbol : string) : option (list signal) :=
  match data !! "Close" with
  | None => Some []
  | Some close =>
      let ma60 := indicators !! "MA60" in
      main_trend_bull ← main_trend fgt close ma60;
      main_trend_bear ← main_trend flt close ma60;
      let r1 := _detect_ma_signals self indicators main_trend_bull main_trend_bear symbol in
      r2 ← _detect_macd_signals self indicators symbol;
      r3 ← _detect_rsi_signals self indicators symbol;
      Some (r1 ++ r2 ++ r3)%list
  end.

(** The chained comparison [x.iloc[-1] > y.iloc[-1] > z.iloc[-1]] (or its
    mirror) once the first two operands are known: the third is read only if
    the first comparison holds. *)
Definition chained (cmp : option Q -> option Q -> bool) (a b : option Q)
  (ma20 : series) : option bool :=
  if cmp a b then c ← neg1 ma20; Some (cmp b c) else Some false.

(** [detect_ma_alignment(indicators)]; [None] when an [iloc] raises. *)
Definition detect_ma_alignment (self : SignalEngine) (indicators : frame)
  : option (bool * string * Z) :=
  match indicators !! "MA5", indicators !! "MA10", indicators !! "MA20" with
  | Some ma5, Some ma10, Some ma20 =>
      if (length ma5 <? 1)%nat then Some (false, "", -1)
      else
        a ← neg1 ma5; b ← neg1 ma10;
        bull ← chained fgt a b ma20;
        if bull : bool then Some (true, "ma_multi_bull", Z.of_nat (length ma5) - 1)
        else
          bear ← chained flt a b ma20;
          if bear : bool then Some (true, "ma_multi_bear", Z.of_nat (length ma5) - 1)
          else Some (false, "", -1)
  | _, _, _ => Some (false, "", -1)
  end.

(** How often a signal of a given name occurs in a result list. *)
Definition count_name (name : string) (results : list signal) : nat :=
  length (filter (fun s => signal_name s = name) results).

(** The condition under which a turning-point signal of a window fires:
    the window's series has at least six defined values, the last three of
    them being [a], [b], [c]; the amplitude of the last step exceeds the
    threshold; and, for a bottom, the last close is above the last MA60
    while the gradient [(c - a) / 2] at [b] is negative and the gradient
    [c - b] at [c] is positive; for a top, the mirror. *)
Definition turn_condition (self : SignalEngine) (data indicators : frame)
  (period : nat) (direction : string) : Prop :=
  exists close ma60 cl m60 col older a b c,
    data !! "Close" = Some close /\ indicators !! "MA60" = Some ma60
    /\ neg1 close = Some (Some cl) /\ neg1 ma60 = Some (Some m60)
    /\ indicators !! ma_col period = Some col
    /\ dropna col = older ++ [a; b; c] /\ (3 <= length older)%nat
    /\ (amplitude_threshold self < amplitude_of b c)%Q
    /\ ((direction = "bottom" /\ (m60 < cl)%Q
         /\ ((c - a) / 2 < 0)%Q /\ (0 < c - b)%Q)
        \/ (direction = "top" /\ (cl < m60)%Q
            /\ (0 < (c - a) / 2)%Q /\ (c - b < 0)%Q)).

(** C5 as the specification words it, for a bottom turn: the first
    differences [b - a] and [c - b] of the last three points are negative
    then positive, the last close is above the last MA60, and
    [|c - b| / b] exceeds the threshold. *)
Definition first_difference_bottom (self : SignalEngine) (cl m60 a b c : Q) : Prop :=
  (b - a < 0)%Q /\ (0 < c - b)%Q /\ (m60 < cl)%Q
  /\ (amplitude_threshold self < Qabs (c - b) / b)%Q.

(** The signal names the evaluation can give. *)
Definition emitted_names : list string :=
  ["ma5_bottom_turn"; "ma5_top_turn"; "ma10_bottom_turn"; "ma10_top_turn";
   "ma20_bottom_turn"; "ma20_top_turn"; "ma60_bottom_turn"; "ma60_top_turn";
   "macd_golden_cross"; "macd_death_cross"; "rsi_overbought"; "rsi_oversold"].

(** The indicator series are as long as the bar series they were computed
    from, which has at least one bar. *)
Definition aligned (data indicators : frame) : Prop :=
  exists close,
    data !! "Close" = Some close /\ close <> []
    /\ map_Forall (fun _ col => length col = length close) indicators.

End Signals.

(** ** Concrete worlds used in the examples *)
Module Fixtures.
Import Client Quotes.

(** The primary provider failing on both snapshot calls. *)
Definition ak_down : ak_module :=
  {| stock_zh_a_spot_em := AkRaises; stock_zh_a_spot_gs := AkRaises |}.

(** A snapshot table with the single code 000001. *)
Definition ak_one_row : ak_module :=
  {| stock_zh_a_spot_em :=
       AkTable [ {| ak_code := "000001"; ak_latest_price := Some 12.5%Q;
                    ak_change_pct := Some 1.2%Q;
                    ak_turnover_rate := Some 0.8%Q |} ];
     stock_zh_a_spot_gs := AkRaises |}.

(** A gateway that quotes every requested symbol at price [p], with a prior
    close of 10 in the dated query. *)
Definition gm_live (p : Q) : gm_api :=
  {| current := fun gm_symbols =>
       Ok (map (fun s => {| tk_symbol := Some s; tk_price := Some p;
                            tk_cum_volume := Some 0%Q |}) gm_symbols);
     history := fun _ _ => Ok [ {| bar_close := Some 10%Q |} ];
     history_n := fun _ _ => Ok [] |}.

(** 09:30:00 on some day, in microseconds. *)
Definition half_past_nine : Z := 34200000000.

Definition world_primary : world :=
  {| AKSHARE_AVAILABLE := true; MYQUANT_AVAILABLE := true;
     ak := ak_one_row; gm := gm_live 11%Q; clock := half_past_nine |}.

Definition world_fallback (p : Q) : world :=
  {| AKSHARE_AVAILABLE := true; MYQUANT_AVAILABLE := true;
     ak := ak_down; gm := gm_live p; clock := half_past_nine |}.

Definition connected_client : MyQuantClient := mk_client true None None ∅ ∅ 5.

(** Bar and indicator frames for the signal engine. *)
Definition bars (close : Signals.series) : Signals.frame := {[ "Close" := close ]}.

Definition macd_frame (macd sig : Signals.series) : Signals.frame :=
  {[ "MACD" := macd; "MACD_Signal" := sig ]}.

Definition ma_frame (period : nat) (ma ma60 : Signals.series) : Signals.frame :=
  {[ Signals.ma_col period := ma; "MA60" := ma60 ]}.

Definition alignment_frame (ma5 ma10 ma20 : Signals.series) : Signals.frame :=
  {[ "MA5" := ma5; "MA10" := ma10; "MA20" := ma20 ]}.

End Fixtures.

(** ** More Python helpers: [str.split], [str.replace], [in], slices *)
Module PyMore.
Import Py.

(** [s.split(".")]: never empty; [split_dot_head] is its first element. *)
Fixpoint split_dot (s : string) : list string :=
  match s with
  | EmptyString => [EmptyString]
  | String c rest =>
      if Ascii.eqb c "."%char then EmptyString :: split_dot rest
      else match split_dot rest with
           | head :: tail => String c head :: tail
           | [] => [String c EmptyString]
           end
  end.

(** [s.replace(old, new)] for a non-empty [old]: the occurrences of [old]
    are found from the left and do not overlap. [skip] counts the characters
    of a found occurrence that are still to be passed over. *)
Fixpoint replace_from (old new : string) (skip : nat) (s : string) : string :=
  match s with
  | EmptyString => EmptyString
  | String c rest =>
      match skip with
      | S n => replace_from old new n rest
      | O =>
          if startswith s old
          then String.append new (replace_from old new (String.length old - 1) rest)
          else String c (replace_from old new 0 rest)
      end
  end.

Definition replace (s old new : string) : string := replace_from old new 0 s.

(** [sub in s] on strings. *)
Fixpoint contains (s sub : string) : bool :=
  startswith s sub
  || match s with
     | EmptyString => false
     | String _ rest => contains rest sub
     end.

(** [l[start:]]. *)
Definition slice_from {A} (l : list A) (start : Z) : list A :=
  let n := Z.of_nat (length l) in
  let lo := if start <? 0 then Z.max 0 (n + start) else Z.min start n in
  drop (Z.to_nat lo) l.

End PyMore.

(** ** [Config.get] and [Config.set] *)
Module Settings.
Import PyMore.

(** A value of the settings tree, as [json.load] gives it. *)
#[local] Unset Elimination Schemes.
Inductive json : Type :=
| JNull
| JBool (b : bool)
| JNum (q : Q)
| JStr (s : string)
| JList (l : list json)
| JDict (d : gmap string json).
#[local] Set Elimination Schemes.

Definition is_dict (v : json) : bool :=
  match v with JDict _ => true | _ => false end.

(** The loop of [get]: [None] is the early [return default]. *)
Fixpoint get_path (keys : list string) (value : json) : option json :=
  match keys with
  | [] => Some value
  | k :: keys' =>
      match value with
      | JDict d =>
          match d !! k with
          | Some v => get_path keys' v
          | None => None
          end
      | _ => None
      end
  end.

Definition get (data : json) (key : string) (default : json) : json :=
  match get_path (split_dot key) data with
  | Some v => v
  | None => default
  end.

(** The loop of [set] over [keys[:-1]] and the final assignment to
    [keys[-1]]. The dicts are updated in place, so the outcome is the tree
    as the call leaves it, with [true] when the call raised: membership
    test, indexing or item assignment on a value that is not a dict raises
    [TypeError]. *)
Fixpoint set_path (keys : list string) (last_key : string) (value : json)
  (data : json) : json * bool :=
  match keys with
  | [] =>
      match data with
      | JDict d => (JDict (<[last_key := value]> d), false)
      | _ => (data, true)
      end
  | k :: keys' =>
      match data with
      | JDict d =>
          let d1 := match d !! k with
                    | Some _ => d
                    | None => <[k := JDict ∅]> d
                    end in
          match d1 !! k with
          | Some child =>
              let '(child', raised) := set_path keys' last_key value child in
              (JDict (<[k := child']> d1), raised)
          | None => (JDict d1, true)
          end
      | _ => (data, true)
      end
  end.

Definition set (data : json) (key : string) (value : json) : json * bool :=
  let keys := split_dot key in
  set_path (removelast keys) (List.last keys EmptyString) value data.

End Settings.

(** ** [TradingRecorder]: the in-memory list of records *)
Module Recorder.
Import PyMore.

(** One record; [rec_time] is the instant of the call, cut to the second
    as [strftime] does; [rec_kind] is the value under the last key. *)
Record trade_record : Type := mk_record {
  rec_time : Z;
  rec_code : string;
  rec_name : string;
  rec_action : string;
  rec_price : Q;
  rec_quantity : Z;
  rec_amount : Q;
  rec_kind : string
}.

Definition add_record (records : list trade_record) (now : Z)
  (code name action : string) (price : Q) (quantity : Z) (amount : Q)
  (is_simulation : bool) : list trade_record :=
  records ++ [mk_record (now / 1000000) code name action price quantity amount
                (if is_simulation then "模拟" else "实盘")].

(** [self.records[-limit:] if self.records else []]. *)
Definition get_records (records : list trade_record) (limit : Z) : list trade_record :=
  match records with
  | [] => []
  | _ => slice_from records (- limit)
  end.

End Recorder.

(** ** [StockPool]: the in-memory pool *)
Module Pool.

(** [stocks] is the dict in its insertion order, one pair per code;
    [positions] is the set of held codes. *)
Record StockPool : Type := mk_pool {
  stocks : list (string * string);
  positions : gset string
}.

(** [code in self.stocks]. *)
Definition has_code (stocks : list (string * string)) (code : string) : bool :=
  existsb (fun kv => String.eqb kv.1 code) stocks.

(** [self.stocks.get(code)]. *)
Definition name_of (stocks : list (string * string)) (code : string) : option string :=
  snd <$> List.find (fun kv => String.eqb kv.1 code) stocks.

(** The two keys [add_position_stocks] reads of a position dict. *)
Record pos_dict : Type := mk_pos {
  pos_code : option string;
  pos_name : option string
}.

(** The loop body of [add_position_stocks]. *)
Definition add_position (self : StockPool) (pos : pos_dict) : StockPool :=
  let code := default EmptyString (pos_code pos) in
  let name := default code (pos_name pos) in
  let stocks' :=
    if negb (String.eqb code EmptyString) && negb (has_code (stocks self) code)
    then stocks self ++ [(code, name)]
    else stocks self in
  mk_pool stocks' ({[code]} ∪ positions self).

Definition add_position_stocks (self : StockPool) (positions : list pos_dict) : StockPool :=
  fold_left add_position positions self.

Definition get_sorted_stocks (self : StockPool) : list (string * string) :=
  filter (fun kv => kv.1 ∈ positions self) (stocks self)
  ++ filter (fun kv => kv.1 ∉ positions self) (stocks self).

Definition is_position_stock (self : StockPool) (code : string) : bool :=
  bool_decide (code ∈ positions self).

(** [add_stock] and [remove_stock]: the returned flag and the pool after
    the call; the write of the pool file is not part of the state. *)
Definition add_stock (self : StockPool) (code name : string) : bool * StockPool :=
  if has_code (stocks self) code then (false, self)
  else (true, mk_pool (stocks self ++ [(code, name)]) (positions self)).

Definition remove_stock (self : StockPool) (code : string) : bool * StockPool :=
  if negb (has_code (stocks self) code) then (false, self)
  else (true, mk_pool (filter (fun kv => kv.1 <> code) (stocks self))
                      (positions self ∖ {[code]})).

(** What the operations keep: one pair per code, and every held code other
    than the empty one is in the pool. *)
Definition pool_ok (self : StockPool) : Prop :=
  NoDup (stocks self).*1
  /\ forall code, code ∈ positions self -> code <> EmptyString ->
       has_code (stocks self) code = true.

End Pool.

(** ** Positions and orders of [MyQuantClient] *)
Module Orders.
Import Py PyMore Client.

(** A field of a vendor dict: absent, present with [None], or a value. *)
Inductive cell (A : Type) : Type :=
| Absent
| IsNone
| Val (a : A).
Arguments Absent {A}.
Arguments IsNone {A}.
Arguments Val {A} a.

(** [pos.get(key, pos.get(other, fallback))]; [None] is Python's [None]. *)
Definition get2 {A} (key other : cell A) (fallback : A) : option A :=
  match key with
  | Val a => Some a
  | IsNone => None
  | Absent =>
      match other with
      | Val a => Some a
      | IsNone => None
      | Absent => Some fallback
      end
  end.

Definition get1 {A} (key : cell A) (fallback : A) : option A :=
  match key with
  | Val a => Some a
  | IsNone => None
  | Absent => Some fallback
  end.

(** An element of the list [gm.get_position()] returns. *)
Record position_dict : Type := {
  f_symbol : cell string;
  f_code : cell string;
  f_volume : cell Q;
  f_position : cell Q;
  f_vwap : cell Q;
  f_avg_price : cell Q;
  f_price : cell Q;
  f_last_price : cell Q;
  f_market_value : cell Q;
  f_pnl : cell Q
}.

Inductive pos_row : Type :=
| RowDict (d : position_dict)
| RowOther.

(** What [gm.get_position()] does: raise, return a list, or return
    something else (nothing, or a value that is not a list). *)
Inductive positions_reply : Type :=
| ReplyRaises
| ReplyList (rows : list pos_row)
| ReplyOther.

(** An entry of the result of [get_positions]. *)
Record position : Type := mk_position {
  p_code : string;
  p_name : string;
  p_quantity : Q;
  p_cost : option Q;
  p_price : option Q;
  p_market_value : option Q;
  p_pnl : option Q
}.

(** [symbol.replace("SHSE.", "").replace("SZSE.", "")]. *)
Definition clean_symbol (symbol : string) : string :=
  replace (replace symbol "SHSE." EmptyString) "SZSE." EmptyString.

(** The body of the loop over the rows; [None] where the row adds nothing:
    no positive volume, no symbol, or an exception, which is caught. *)
Definition position_of (pos : pos_row) : option position :=
  match pos with
  | RowOther => None
  | RowDict d =>
      match get2 (f_volume d) (f_position d) 0%Q with
      | None => None
      | Some volume =>
          if Num.Qltb 0 volume then
            match get2 (f_symbol d) (f_code d) EmptyString with
            | None | Some EmptyString => None
            | Some symbol =>
                let clean_code := clean_symbol symbol in
                Some (mk_position clean_code clean_code volume
                        (get2 (f_vwap d) (f_avg_price d) 0%Q)
                        (get2 (f_price d) (f_last_price d) 0%Q)
                        (get1 (f_market_value d) 0%Q)
                        (get1 (f_pnl d) 0%Q))
            end
          else None
      end
  end.

Definition get_positions (avail : bool) (self : MyQuantClient)
  (get_position : positions_reply) : list position :=
  if negb (Gateway.is_connected avail self) then []
  else match get_position with
       | ReplyList rows => omap position_of rows
       | _ => []
       end.

(** The two keys of a returned position that the pool reads. *)
Definition as_pos_dict (p : position) : Pool.pos_dict :=
  Pool.mk_pos (Some (p_code p)) (Some (p_name p)).

(** The exchange-qualified symbol [place_order] and [get_historical_data]
    build. *)
Definition exchange_symbol (symbol : string) : string :=
  if startswith symbol "6" then String.append "SHSE." symbol
  else String.append "SZSE." symbol.

Inductive order_side : Type := OrderSide_Buy | OrderSide_Sell.
Inductive position_effect : Type := PositionEffect_Open | PositionEffect_Close.
Inductive order_type : Type :=
| OrderType_Limit
| OrderType_Market
| OrderType_BOC
| OrderType_BOP
| OrderType_FAK.

(** The keyword arguments of a [gm.order_volume] call. *)
Record order_request : Type := mk_request {
  rq_symbol : string;
  rq_volume : Z;
  rq_side : order_side;
  rq_order_type : order_type;
  rq_position_effect : position_effect;
  rq_price : option Q;
  rq_account : option string
}.

(** An order of the vendor's reply, with the fields [place_order] reads. *)
Record order_ack : Type := {
  ack_cl_ord_id : option string;
  ack_status : option Z;
  ack_filled_volume : option Z;
  ack_filled_vwap : option Q
}.

Record order_info : Type := mk_info {
  oi_cl_ord_id : string;
  oi_symbol : string;
  oi_volume : Z;
  oi_price : Q;
  oi_status : Z;
  oi_filled_volume : Z;
  oi_filled_vwap : Q
}.

(** The returned dict: [Accepted] has [success] true, the others false. *)
Inductive order_result : Type :=
| Accepted (info : order_info)
| NotConnected
| NoOrderReturned
| OrderRaised.

Definition request_of (self : MyQuantClient) (symbol action : string)
  (quantity : Z) (price : Q) (trade_type : string) : order_request :=
  let gm_symbol := exchange_symbol symbol in
  let '(side, effect) :=
    if String.eqb action "buy" then (OrderSide_Buy, PositionEffect_Open)
    else (OrderSide_Sell, PositionEffect_Close) in
  let '(type, order_price) :=
    if contains trade_type "市价" then (OrderType_Market, None)
    else if contains trade_type "对手价" then (OrderType_BOC, Some price)
    else if contains trade_type "本方价" then (OrderType_BOP, Some price)
    else if contains trade_type "最优五档" then (OrderType_FAK, Some price)
    else (OrderType_Limit, Some price) in
  mk_request gm_symbol quantity side type effect order_price (account_id self).

(** [place_order]: the returned dict and the vendor calls made. *)
Definition place_order (avail : bool) (self : MyQuantClient)
  (order_volume : order_request -> Quotes.outcome (list order_ack))
  (symbol action : string) (quantity : Z) (price : Q) (trade_type : string)
  : order_result * list order_request :=
  if negb (Gateway.is_connected avail self) then (NotConnected, [])
  else
    let request := request_of self symbol action quantity price trade_type in
    (match order_volume request with
     | Quotes.Raise => OrderRaised
     | Quotes.Ok [] => NoOrderReturned
     | Quotes.Ok (order :: _) =>
         Accepted (mk_info (default EmptyString (ack_cl_ord_id order))
                     (rq_symbol request) quantity price
                     (default 0 (ack_status order))
                     (default 0 (ack_filled_volume order))
                     (default 0%Q (ack_filled_vwap order)))
     end, [request]).

(** [period_map.get(period, "1d")]. *)
Definition period_map (period : string) : string :=
  if String.eqb period "1m" then "60s"
  else if String.eqb period "5m" then "300s"
  else if String.eqb period "15m" then "900s"
  else if String.eqb period "60m" then "3600s"
  else "1d".

(** The [gm.history_n] call [get_historical_data] makes, if any: symbol,
    frequency and count. What it does with the reply is not modelled. *)
Definition get_historical_data_request (avail : bool) (self : MyQuantClient)
  (symbol period : string) (count : Z) : option (string * string * Z) :=
  if negb (Gateway.is_connected avail self) then None
  else Some (exchange_symbol symbol, period_map period, count).

End Orders.

(** ** Concrete inputs used in the later examples *)
Module Examples.
Import Client.

(** The frames of a bullish evaluation: MA5 ends 12, 8, 11 under a close of
    12 above MA60 = 9, and the RSI ends at 75. *)
Definition demo_data : Signals.frame :=
  Fixtures.bars [Some 12%Q; Some 12%Q; Some 12%Q; Some 12%Q; Some 12%Q; Some 12%Q].

Definition demo_indicators : Signals.frame :=
  <[ "RSI" := [Some 50%Q; Some 50%Q; Some 50%Q; Some 60%Q; Some 70%Q; Some 75%Q] ]>
    (Fixtures.ma_frame 5
       [Some 10%Q; Some 10%Q; Some 10%Q; Some 12%Q; Some 8%Q; Some 11%Q]
       [None; None; None; None; None; Some 9%Q]).

(** The [myquant] part of the default configuration. *)
Definition demo_config : Settings.json :=
  Settings.JDict
    {[ "myquant" :=
         Settings.JDict {[ "token" := Settings.JStr EmptyString;
                           "account_id" := Settings.JStr EmptyString ]} ]}.

Definition demo_record (code : string) (quantity : Z) : Recorder.trade_record :=
  Recorder.mk_record 0 code code "buy" 10%Q quantity (10 * inject_Z quantity)%Q "实盘".

Definition demo_records : list Recorder.trade_record :=
  [demo_record "000001" 100; demo_record "600000" 200; demo_record "300750" 300].

(** A pool of two stocks, the second one held. *)
Definition demo_pool : Pool.StockPool :=
  Pool.mk_pool [("000001", "PAB"); ("600000", "SPDB")] {[ "600000" ]}.

(** A vendor row: 100 shares under [symbol]. *)
Definition demo_row (symbol : string) : Orders.pos_row :=
  Orders.RowDict
    {| Orders.f_symbol := Orders.Val symbol; Orders.f_code := Orders.Absent;
       Orders.f_volume := Orders.Val 100%Q; Orders.f_position := Orders.Absent;
       Orders.f_vwap := Orders.Val 9.5%Q; Orders.f_avg_price := Orders.Absent;
       Orders.f_price := Orders.Val 10%Q; Orders.f_last_price := Orders.Absent;
       Orders.f_market_value := Orders.Val 1000%Q; Orders.f_pnl := Orders.Val 50%Q |}.

(** A vendor that accepts no order. *)
Definition no_orders (request : Orders.order_request)
  : Quotes.outcome (list Orders.order_ack) := Quotes.Ok [].

End Examples.

(** * Properties *)

(** ** Bounded task runner *)
Section RunnerFacts.
Import Runner.
Context {A : Type}.

Lemma test_api_call_returns (v : A) (d timeout : Z) :
  d <= timeout -> test_api_call (Returns v d) timeout = (true, PResult v).
Proof.
  intros Hd. unfold test_api_call, test_api_call_timed, start_and_wait. simpl.
  destruct (Z.leb_spec d timeout); [reflexivity | lia].
Qed.

Lemma test_api_call_raises (e : string) (d timeout : Z) :
  d <= timeout -> test_api_call (Raises e d : api_behaviour A) timeout = (false, PError e).
Proof.
  intros Hd. unfold test_api_call, test_api_call_timed, start_and_wait. simpl.
  destruct (Z.leb_spec d timeout); [reflexivity | lia].
Qed.

Lemma test_api_call_unfinished (op : api_behaviour A) (timeout : Z) :
  ~ finishes_within op timeout -> test_api_call op timeout = (false, PNone).
Proof.
  intros Hn. unfold test_api_call, test_api_call_timed, start_and_wait.
  destruct op as [v d | e d | ]; simpl in *; try reflexivity;
    destruct (Z.leb_spec d timeout); try reflexivity; lia.
Qed.

(** The caller waits no longer than the timeout it gave. *)
Lemma test_api_call_bounded_wait (op : api_behaviour A) (timeout : Z) :
  snd (test_api_call_timed op timeout) <= timeout.
Proof.
  unfold test_api_call_timed, start_and_wait.
  destruct op as [v d | e d | ]; simpl; try lia;
    destruct (Z.leb_spec d timeout); simpl; lia.
Qed.

End RunnerFacts.

(** C3, as stated, fails: an operation that raises within its timeout makes
    [test_api_call] return the flag [False] with the exception, where the
    contract [(true, nil, error)] has the flag true. *)
Lemma test_api_call_raise_is_not_completed :
  Runner.test_api_call (Runner.Raises "ConnectionError" 10 : Runner.api_behaviour nat) 2000
    = (false, Runner.PError "ConnectionError")
  /\ Runner.as_triple
       (Runner.test_api_call (Runner.Raises "ConnectionError" 10 : Runner.api_behaviour nat) 2000)
     <> Runner.run_contract (Runner.Raises "ConnectionError" 10) 2000.
Proof. split; [reflexivity | discriminate]. Qed.

(** C3, amended: [test_api_call] returns a pair. It is [(True, result)] when
    the operation returns within the timeout, [(False, error)] when it raises
    within the timeout, and [(False, None)] when it does not finish within
    the timeout. *)
Theorem test_api_call_outcomes (A : Type) (op : Runner.api_behaviour A) (timeout : Z) :
  (forall v d, op = Runner.Returns v d -> d <= timeout ->
     Runner.test_api_call op timeout = (true, Runner.PResult v)) /\
  (forall e d, op = Runner.Raises e d -> d <= timeout ->
     Runner.test_api_call op timeout = (false, Runner.PError e)) /\
  (~ Runner.finishes_within op timeout ->
     Runner.test_api_call op timeout = (false, Runner.PNone)).
Proof.
  repeat split.
  - intros v d -> Hd. now apply test_api_call_returns.
  - intros e d -> Hd. now apply test_api_call_raises.
  - apply test_api_call_unfinished.
Qed.

(** The three cases of [test_api_call_outcomes] on concrete operations with a
    two-second timeout: one returning 7 after 10 ms, one raising after 10 ms,
    one that hangs. *)
Lemma test_api_call_outcomes_witness :
  Runner.test_api_call (Runner.Returns 7%nat 10) 2000 = (true, Runner.PResult 7%nat)
  /\ Runner.test_api_call (Runner.Raises "boom" 10 : Runner.api_behaviour nat) 2000
     = (false, Runner.PError "boom")
  /\ Runner.test_api_call (Runner.Hangs : Runner.api_behaviour nat) 2000
     = (false, Runner.PNone).
Proof.
  split; [| split].
  - apply (proj1 (test_api_call_outcomes nat (Runner.Returns 7%nat 10) 2000) 7%nat 10);
      [reflexivity | lia].
  - apply (proj1 (proj2 (test_api_call_outcomes nat (Runner.Raises "boom" 10) 2000)) "boom" 10);
      [reflexivity | lia].
  - apply (proj2 (proj2 (test_api_call_outcomes nat Runner.Hangs 2000))).
    simpl. tauto.
Defined.

(** ** Gateway connection *)
Section GatewayFacts.
Import Runner Client Gateway.

Lemma test_api_call_fst {A} (op : api_behaviour A) (timeout : Z) :
  fst (test_api_call_timed op timeout) = test_api_call op timeout.
Proof. reflexivity. Qed.

(** Without a success signal from the quote step or the cash step the worker
    never sets [connection_success]. *)
Lemma worker_sets_no_success (gm : gm_module) (tok acct : string) :
  ~ quote_step_succeeds gm -> ~ cash_step_succeeds gm ->
  success_at (connect_worker gm tok acct) = None.
Proof.
  unfold quote_step_succeeds, cash_step_succeeds, connect_worker.
  intros Hq Hc.
  destruct (test_api_call_timed (set_token gm tok) 1000) as [[s1 p1] d1].
  destruct s1; simpl; [| reflexivity].
  rewrite <- (test_api_call_fst (current gm ["SZSE.000001"]) 3000) in Hq.
  destruct (test_api_call_timed (current gm ["SZSE.000001"]) 3000) as [r3 d3].
  simpl in Hq.
  destruct (quote_probe_ok r3) as [[|]|]; simpl; try reflexivity.
  - congruence.
  - rewrite <- test_api_call_fst in Hc.
    destruct (test_api_call_timed (get_cash gm) 2000) as [[s4 p4] d4].
    simpl in Hc. destruct s4; simpl; [congruence | reflexivity].
Qed.

End GatewayFacts.




(** Both failure reports occur: with the setters answering and both probes
    hanging, the worker is still running when the timer fires. *)
Example connect_reports_timeout :
  Gateway.connect true Gateway.gm_probes_hang Gateway.empty_config Client.init
  = (false,
     Gateway.set_connection Client.init false Gateway.default_account_id
       Gateway.default_token,
     Gateway.TimedOut).
Proof. reflexivity. Qed.

Example connect_reports_probe_failure :
  Gateway.connect true Gateway.gm_all_hang Gateway.empty_config Client.init
  = (false,
     Gateway.set_connection Client.init false Gateway.default_account_id
       Gateway.default_token,
     Gateway.ProbeFailed).
Proof. reflexivity. Qed.

(** ** Generic facts: folds, rationals *)
Section Generic.

Lemma fold_left_preserves {A B} (f : A -> B -> A) (P : A -> Prop) (l : list B) :
  forall a, P a -> (forall a b, In b l -> P a -> P (f a b)) -> P (fold_left f l a).
Proof.
  induction l as [| b l IH]; intros a Ha Hstep; simpl; [exact Ha |].
  apply IH.
  - apply Hstep; [now left | exact Ha].
  - intros a' b' Hin. apply Hstep. now right.
Qed.

Lemma Qltb_true (x y : Q) : Num.Qltb x y = true <-> (x < y)%Q.
Proof.
  unfold Num.Qltb. rewrite negb_true_iff. split.
  - intros H. apply Qnot_le_lt. intros Hle.
    apply Qle_bool_iff in Hle. congruence.
  - intros H. destruct (Qle_bool y x) eqn:E; [| reflexivity].
    apply Qle_bool_iff in E. exfalso. exact (Qlt_not_le _ _ H E).
Qed.


End Generic.

(** ** The MyQuant fallback *)
Section FallbackFacts.
Import Py Num Client Quotes.

Lemma gm_symbol_of_Some (c g : string) :
  gm_symbol_of c = Some g ->
  String.length c = 6%nat /\ isdigit c = true /\
  ((g = String.append "SHSE." c /\ startswith_any c sh_prefixes = true) \/
   (g = String.append "SZSE." c /\ startswith_any c sh_prefixes = false
    /\ startswith_any c sz_prefixes = true)).
Proof.
  unfold gm_symbol_of.
  destruct (String.length c =? 6)%nat eqn:Hlen; cbn [andb]; [| discriminate].
  destruct (isdigit c) eqn:Hd; [| discriminate].
  apply Nat.eqb_eq in Hlen.
  destruct (startswith_any c sh_prefixes) eqn:Hsh.
  - intros H. injection H as H. subst g. auto.
  - destruct (startswith_any c sz_prefixes) eqn:Hsz; [| discriminate].
    intros H. injection H as H. subst g. auto 6.
Qed.

(** The clean code is read back from the qualified symbol. *)
Lemma gm_symbol_of_inj (c c' g : string) :
  gm_symbol_of c = Some g -> gm_symbol_of c' = Some g -> c = c'.
Proof.
  intros H H'.
  apply gm_symbol_of_Some in H as (_ & _ & [[-> _] | [-> _]]);
    apply gm_symbol_of_Some in H' as (_ & _ & [[E _] | [E _]]);
    cbv in E; congruence.
Qed.

(** Every entry of [code_map] maps the qualified symbol of a requested clean
    code back to that code. *)
Lemma convert_symbols_code_map (symbols : list string) (g c : string) :
  (convert_symbols symbols).2 !! g = Some c ->
  gm_symbol_of c = Some g /\ exists symbol, In symbol symbols /\ split_dot_head symbol = c.
Proof.
  unfold convert_symbols. revert g c.
  apply (fold_left_preserves convert_step
           (fun acc => forall g c, acc.2 !! g = Some c ->
              gm_symbol_of c = Some g /\
              exists symbol, In symbol symbols /\ split_dot_head symbol = c)).
  - intros g c H. simpl in H. rewrite lookup_empty in H. discriminate.
  - intros acc symbol Hin IH g c. unfold convert_step.
    destruct (gm_symbol_of (split_dot_head symbol)) as [g0|] eqn:Hg; [| apply IH].
    simpl. rewrite lookup_insert. case_decide as Heq.
    + intros [= <-]. subst g0. split; [exact Hg | eauto].
    + apply IH.
Qed.

(** A requested symbol with a qualified symbol is sent to [gm.current] and is
    recorded in [code_map]. *)
Lemma convert_symbols_member (symbols : list string) (symbol g : string) :
  In symbol symbols -> gm_symbol_of (split_dot_head symbol) = Some g ->
  In g (convert_symbols symbols).1
  /\ (convert_symbols symbols).2 !! g = Some (split_dot_head symbol).
Proof.
  unfold convert_symbols. intros Hin0 Hg.
  assert (Hgen : forall l acc,
    (forall g' c', acc.2 !! g' = Some c' -> gm_symbol_of c' = Some g') ->
    (In symbol l \/ (In g acc.1 /\ acc.2 !! g = Some (split_dot_head symbol))) ->
    In g (fold_left convert_step l acc).1
    /\ (fold_left convert_step l acc).2 !! g = Some (split_dot_head symbol)).
  { intros l. induction l as [| s l IH]; intros acc Hmap H0.
    - simpl. destruct H0 as [[] | H0]; exact H0.
    - simpl. apply IH.
      + intros g' c'. unfold convert_step.
        destruct (gm_symbol_of (split_dot_head s)) as [g0|] eqn:E; [| apply Hmap].
        simpl. rewrite lookup_insert. case_decide; [| apply Hmap].
        intros [= <-]. now subst.
      + unfold convert_step.
        destruct H0 as [[-> | Hin] | [Hin Hlook]].
        * right. rewrite Hg. simpl. split.
          -- apply in_or_app. right. now left.
          -- apply lookup_insert_eq.
        * now left.
        * right.
          destruct (gm_symbol_of (split_dot_head s)) as [g0|] eqn:E; [| now split].
          simpl. split; [apply in_or_app; now left |].
          rewrite lookup_insert. case_decide as Heq; [| exact Hlook].
          subst g0. f_equal. exact (gm_symbol_of_inj _ _ _ E Hg). }
  apply Hgen; auto.
  intros g' c' H. simpl in H. rewrite lookup_empty in H. discriminate.
Qed.

(** Only qualified symbols of requested codes are sent to [gm.current]. *)
Lemma convert_symbols_sent (symbols : list string) (g : string) :
  In g (convert_symbols symbols).1 ->
  exists symbol, In symbol symbols /\ gm_symbol_of (split_dot_head symbol) = Some g.
Proof.
  unfold convert_symbols. revert g.
  apply (fold_left_preserves convert_step
           (fun acc => forall g, In g acc.1 ->
              exists symbol, In symbol symbols
                /\ gm_symbol_of (split_dot_head symbol) = Some g)).
  - intros g [].
  - intros acc symbol Hin IH g. unfold convert_step.
    destruct (gm_symbol_of (split_dot_head symbol)) as [g0|] eqn:Hg; [| apply IH].
    simpl. intros H. apply in_app_or in H as [H | [<- | []]]; eauto.
Qed.

(** Every quote of the fallback's result was built from a row of
    [gm.current] whose symbol [code_map] knows. *)
Lemma process_tick_fold (g : gm_api) (now : Z) (code_map : gmap string string)
  (current_data : list tick) (code : string) (q : quote) :
  fold_left (process_tick g now code_map) current_data ∅ !! code = Some q ->
  exists data symbol,
    In data current_data /\ default "" (tk_symbol data) = symbol
    /\ code_map !! symbol = Some code
    /\ q = mk_quote (default 0%Q (tk_price data))
             (change_pct_of g now symbol (default 0%Q (tk_price data)))
             (turnover_of (default 0%Q (tk_cum_volume data))) (hms now) None None.
Proof.
  revert code q.
  apply (fold_left_preserves (process_tick g now code_map)
    (fun result => forall code q, result !! code = Some q ->
       exists data symbol,
         In data current_data /\ default "" (tk_symbol data) = symbol
         /\ code_map !! symbol = Some code
         /\ q = mk_quote (default 0%Q (tk_price data))
                  (change_pct_of g now symbol (default 0%Q (tk_price data)))
                  (turnover_of (default 0%Q (tk_cum_volume data))) (hms now) None None)).
  - intros code q H. rewrite lookup_empty in H. discriminate.
  - intros result data Hin IH code q. unfold process_tick.
    destruct (code_map !! default "" (tk_symbol data)) as [c|] eqn:Hc; [| apply IH].
    destruct (String.eqb c ""); [apply IH |].
    rewrite lookup_insert. case_decide as Heq; [| apply IH].
    intros [= <-]. subst c. exists data, (default "" (tk_symbol data)). auto.
Qed.

(** The result of the fallback, read row by row. *)
Lemma myquant_result_inv (w : world) (self : MyQuantClient) (symbols : list string)
  (code : string) (q : quote) :
  _get_realtime_data_from_myquant w self symbols !! code = Some q ->
  exists data symbol,
    gm_symbol_of code = Some symbol
    /\ (exists s, In s symbols /\ split_dot_head s = code)
    /\ default "" (tk_symbol data) = symbol
    /\ q = mk_quote (default 0%Q (tk_price data))
             (change_pct_of (gm w) (clock w) symbol (default 0%Q (tk_price data)))
             (turnover_of (default 0%Q (tk_cum_volume data))) (hms (clock w)) None None.
Proof.
  unfold _get_realtime_data_from_myquant.
  destruct (negb (is_connected w self)); [rewrite lookup_empty; discriminate |].
  destruct symbols as [| s0 symbols]; [rewrite lookup_empty; discriminate |].
  destruct (convert_symbols (s0 :: symbols)) as [gm_symbols code_map] eqn:Hconv.
  destruct gm_symbols as [| g0 gs]; [rewrite lookup_empty; discriminate |].
  destruct (current (gm w) (g0 :: gs)) as [current_data |];
    [| rewrite lookup_empty; discriminate].
  intros H. apply process_tick_fold in H as (data & symbol & _ & Hsym & Hmap & ->).
  exists data, symbol.
  pose proof (convert_symbols_code_map (s0 :: symbols) symbol code) as Hcm.
  rewrite Hconv in Hcm. destruct (Hcm Hmap) as [Hg Hs]. auto.
Qed.

End FallbackFacts.

Section SymbolRouting.
Import Py Num Client Quotes.

Lemma append_prefix_inj (p a b : string) :
  String.append p a = String.append p b -> a = b.
Proof.
  induction p as [| ch p IH]; [trivial |].
  intros H. apply IH. unfold String.append in H; fold String.append in H.
  now injection H.
Qed.

Lemma shse_is_not_szse (a b : string) :
  String.append "SHSE." a <> String.append "SZSE." b.
Proof. intros H. cbv in H. congruence. Qed.

Lemma startswith_12_shanghai (c : string) :
  startswith c "12" = true -> startswith_any c sh_prefixes = true.
Proof.
  intros H. unfold startswith_any. apply existsb_exists.
  exists "12". split; [| exact H]. unfold sh_prefixes. simpl. tauto.
Qed.

Lemma gm_symbol_of_12 (c : string) :
  String.length c = 6%nat -> isdigit c = true -> startswith c "12" = true ->
  gm_symbol_of c = Some (String.append "SHSE." c).
Proof.
  intros Hlen Hd H12. unfold gm_symbol_of.
  rewrite Hlen, Hd, (startswith_12_shanghai c H12). reflexivity.
Qed.

Lemma gm_symbol_of_unlisted (c : string) :
  startswith_any c sh_prefixes = false -> startswith_any c sz_prefixes = false ->
  gm_symbol_of c = None.
Proof.
  intros Hsh Hsz. unfold gm_symbol_of. rewrite Hsh, Hsz.
  now destruct ((String.length c =? 6)%nat && isdigit c).
Qed.

End SymbolRouting.

(** C10: in the fallback's symbol normalization a 6-digit numeric code that
    starts with 12 gets the Shanghai prefix: its SHSE symbol is what is sent
    to [gm.current] and recorded in [code_map], its SZSE symbol is never
    sent. A 6-digit code that matches neither prefix list is skipped: no
    symbol is sent for it and the result (always returned, no error) has no
    entry for it. *)
Theorem prefix_12_is_shanghai_and_unlisted_is_skipped :
  (forall (symbols : list string) (symbol : string),
      let clean_code := Py.split_dot_head symbol in
      In symbol symbols ->
      String.length clean_code = 6%nat ->
      Py.isdigit clean_code = true ->
      Py.startswith clean_code "12" = true ->
      Quotes.gm_symbol_of clean_code = Some (String.append "SHSE." clean_code)
      /\ In (String.append "SHSE." clean_code) (Quotes.convert_symbols symbols).1
      /\ (Quotes.convert_symbols symbols).2 !! String.append "SHSE." clean_code
         = Some clean_code
      /\ ~ In (String.append "SZSE." clean_code) (Quotes.convert_symbols symbols).1)
  /\
  (forall (w : Quotes.world) (self : Client.MyQuantClient) (symbols : list string)
          (clean_code : string),
      String.length clean_code = 6%nat ->
      Py.isdigit clean_code = true ->
      Py.startswith_any clean_code Quotes.sh_prefixes = false ->
      Py.startswith_any clean_code Quotes.sz_prefixes = false ->
      Quotes.gm_symbol_of clean_code = None
      /\ ~ In (String.append "SHSE." clean_code) (Quotes.convert_symbols symbols).1
      /\ ~ In (String.append "SZSE." clean_code) (Quotes.convert_symbols symbols).1
      /\ Quotes._get_realtime_data_from_myquant w self symbols !! clean_code = None).
Proof.
  split.
  - intros symbols symbol clean_code Hin Hlen Hd H12.
    pose proof (gm_symbol_of_12 clean_code Hlen Hd H12) as Hg.
    destruct (convert_symbols_member symbols symbol _ Hin Hg) as [Hsent Hmap].
    repeat split; auto.
    intros Hsz. apply convert_symbols_sent in Hsz as (s' & _ & Hg').
    apply gm_symbol_of_Some in Hg' as (_ & _ & [[E _] | [E [Hsh _]]]).
    + symmetry in E. exact (shse_is_not_szse _ _ E).
    + apply append_prefix_inj in E. subst clean_code. rewrite <- E in Hsh.
      rewrite (startswith_12_shanghai _ H12) in Hsh. discriminate.
  - intros w self symbols clean_code Hlen Hd Hsh Hsz.
    pose proof (gm_symbol_of_unlisted clean_code Hsh Hsz) as Hnone.
    assert (Hnot : forall p, ~ In (String.append p clean_code) (Quotes.convert_symbols symbols).1
                             \/ (p <> "SHSE." /\ p <> "SZSE.")).
    { intros p. destruct (string_dec p "SHSE.") as [-> | Hp1].
      - left. intros H. apply convert_symbols_sent in H as (s' & _ & Hg').
        apply gm_symbol_of_Some in Hg' as (_ & _ & [[E Hsh'] | [E _]]).
        + apply append_prefix_inj in E. rewrite <- E in Hsh'. congruence.
        + exact (shse_is_not_szse _ _ E).
      - destruct (string_dec p "SZSE.") as [-> | Hp2]; [| now right].
        left. intros H. apply convert_symbols_sent in H as (s' & _ & Hg').
        apply gm_symbol_of_Some in Hg' as (_ & _ & [[E _] | [E [_ Hsz']]]).
        + symmetry in E. exact (shse_is_not_szse _ _ E).
        + apply append_prefix_inj in E. rewrite <- E in Hsz'. congruence. }
    split; [exact Hnone |]. split; [| split].
    + destruct (Hnot "SHSE.") as [H | [H _]]; [exact H | congruence].
    + destruct (Hnot "SZSE.") as [H | [_ H]]; [exact H | congruence].
    + destruct (Quotes._get_realtime_data_from_myquant w self symbols !! clean_code)
        as [q|] eqn:Hq; [| reflexivity].
      apply myquant_result_inv in Hq as (data & g & Hg & _).
      congruence.
Qed.

(** ** Change percent of the fallback *)
Section ChangePct.
Import Py Num Client Quotes.



(** The baseline of a symbol is unique. *)
Lemma baseline_unique (g : gm_api) (now : Z) (symbol : string) (b1 b2 : Q) :
  baseline g now symbol b1 -> baseline g now symbol b2 -> b1 = b2.
Proof.
  intros [h1 x1 H1 L1 | h1 x1 H1 N1 L1] [h2 x2 H2 L2 | h2 x2 H2 N2 L2];
    try congruence.
  - rewrite H1 in H2. injection H2 as E. subst h1. discriminate.
  - rewrite H1 in H2. injection H2 as E. subst h2. discriminate.
Qed.



End ChangePct.




(** ** The quote service *)
Section ServiceFacts.
Import Py Num Client Quotes.

Lemma clean_code_eq (symbol : string) :
  (if has_dot symbol then split_dot_head symbol else symbol) = split_dot_head symbol.
Proof.
  induction symbol as [| c rest IH]; [reflexivity |].
  simpl. destruct (Ascii.eqb c "."%char); simpl; [reflexivity |].
  destruct (has_dot rest); congruence.
Qed.

(** With [force_refresh] every symbol needs a fetch and nothing is read
    from the cache. *)
Lemma scan_cache_force (self : MyQuantClient) (now : Z) (symbols : list string) :
  scan_cache self now true symbols = (∅, symbols).
Proof.
  unfold scan_cache.
  assert (H : forall l r n,
    fold_left (scan_step self now true) l (r, n) = (r, (n ++ l)%list)).
  { induction l as [| x l IH]; intros r n; simpl.
    - now rewrite app_nil_r.
    - change (scan_step self now true (r, n) x) with (r, (n ++ [x])%list).
      rewrite IH. now rewrite <- app_assoc. }
  apply H.
Qed.

(** Without [force_refresh] a requested symbol whose entry is fresh is
    served from the cache. *)
Lemma scan_cache_hit (self : MyQuantClient) (now : Z) (symbols : list string)
  (s : string) (q : quote) :
  In s symbols -> cache_hit self now (split_dot_head s) = Some q ->
  (scan_cache self now false symbols).1 !! split_dot_head s = Some q.
Proof.
  intros Hin Hhit. unfold scan_cache.
  assert (Hkeep : forall l acc,
    acc.1 !! split_dot_head s = Some q ->
    (fold_left (scan_step self now false) l acc).1 !! split_dot_head s = Some q).
  { intros l acc Hacc.
    apply (fold_left_preserves _ (fun a => a.1 !! split_dot_head s = Some q)); [exact Hacc |].
    intros a x _ Ha. unfold scan_step. rewrite clean_code_eq. simpl.
    destruct (cache_hit self now (split_dot_head x)) as [q' |] eqn:E; simpl; [| exact Ha].
    rewrite lookup_insert. case_decide as Heq; [| exact Ha].
    rewrite Heq in E. congruence. }
  assert (Hgen : forall l acc, In s l ->
    (fold_left (scan_step self now false) l acc).1 !! split_dot_head s = Some q).
  { induction l as [| x l IH]; intros acc Hl; [destruct Hl |].
    destruct Hl as [Hx | Hl]; simpl.
    - subst x. apply Hkeep. unfold scan_step. rewrite clean_code_eq. simpl.
      rewrite Hhit. simpl. apply lookup_insert_eq.
    - now apply IH. }
  now apply Hgen.
Qed.

(** The write-back loop, entry by entry. *)
Lemma write_back_fold (src : data_source) (t : Z) (self : MyQuantClient)
  (result fetched : gmap string quote) :
  let out := map_fold (write_back src t) (self, result) fetched in
  (forall k, out.2 !! k
     = match fetched !! k with
       | Some d => Some (set_source src d)
       | None => result !! k
       end)
  /\ (forall k, data_cache out.1 !! k
        = match fetched !! k with
          | Some d => Some (set_source src d)
          | None => data_cache self !! k
          end)
  /\ (forall k, cache_time out.1 !! k
        = match fetched !! k with
          | Some _ => Some t
          | None => cache_time self !! k
          end)
  /\ cache_expiry out.1 = cache_expiry self
  /\ connected out.1 = connected self.
Proof.
  cbv zeta.
  apply (map_fold_weak_ind
    (fun (out : MyQuantClient * gmap string quote) (m : gmap string quote) =>
       (forall k, out.2 !! k
          = match m !! k with
            | Some d => Some (set_source src d)
            | None => result !! k
            end)
       /\ (forall k, data_cache out.1 !! k
             = match m !! k with
               | Some d => Some (set_source src d)
               | None => data_cache self !! k
               end)
       /\ (forall k, cache_time out.1 !! k
             = match m !! k with
               | Some _ => Some t
               | None => cache_time self !! k
               end)
       /\ cache_expiry out.1 = cache_expiry self
       /\ connected out.1 = connected self)).
  - repeat split; intros; now rewrite lookup_empty.
  - intros i x m r Hnone (Hr & Hd & Ht & He & Hc). unfold write_back. simpl.
    repeat split; try assumption; intros k; rewrite !lookup_insert;
      case_decide; auto.
Qed.

(** One call of [get_realtime_data] on a non-empty request, in terms of its
    cache scan and of what it fetched. *)
Lemma get_realtime_data_spec (w : world) (self : MyQuantClient) (t : Z)
  (symbols : list string) (force : bool)
  (result : gmap string quote) (self' : MyQuantClient) (calls : list provider_call) :
  symbols <> [] ->
  get_realtime_data w self t symbols force = (result, self', calls) ->
  let scan := scan_cache self t force symbols in
  let out := fetch_needed w self scan.2 in
  calls = out.2
  /\ (forall k, result !! k
        = match out.1.1 !! k with
          | Some d => Some (set_source (source_of out.1.2) d)
          | None => scan.1 !! k
          end)
  /\ (forall k, data_cache self' !! k
        = match out.1.1 !! k with
          | Some d => Some (set_source (source_of out.1.2) d)
          | None => data_cache self !! k
          end)
  /\ (forall k, cache_time self' !! k
        = match out.1.1 !! k with
          | Some _ => Some t
          | None => cache_time self !! k
          end)
  /\ cache_expiry self' = cache_expiry self
  /\ connected self' = connected self.
Proof.
  intros Hne. unfold get_realtime_data.
  destruct symbols as [| s0 rest]; [congruence |].
  destruct (scan_cache self t force (s0 :: rest)) as [r0 need] eqn:Hscan.
  cbv zeta. simpl fst. simpl snd.
  destruct need as [| n0 need].
  - intros [= <- <- <-]. simpl.
    repeat split; intros; now rewrite ?lookup_empty.
  - unfold fetch_needed.
    destruct (provider_chain w self (n0 :: need)) as [[fetched ok] calls0].
    pose proof (write_back_fold (source_of ok) t self r0 fetched) as Hwb.
    cbv zeta in Hwb.
    destruct (map_fold (write_back (source_of ok) t) (self, r0) fetched)
      as [self1 result1].
    intros [= <- <- <-]. simpl in *.
    destruct Hwb as (Hr & Hd & Ht & He & Hc). auto 10.
Qed.

Lemma is_empty_true {A} (m : gmap string A) : is_empty m = true <-> m = ∅.
Proof.
  unfold is_empty. rewrite Nat.eqb_eq. apply map_size_empty_iff.
Qed.

(** The calls of the provider chain: the primary first, when available; the
    fallback only after a primary stage that left [fetched_data] empty, and
    only when connected. Every call receives the whole batch. *)
Lemma provider_chain_calls (w : world) (self : MyQuantClient) (need : list string) :
  let calls := (provider_chain w self need).2 in
  (forall c, In c calls -> batch_of c = need)
  /\ (AKSHARE_AVAILABLE w = true -> In (CallAKShare need) calls)
  /\ (forall b, In (CallMyQuant b) calls ->
        is_connected w self = true /\ (primary_stage w need).1.1 = ∅)
  /\ ((primary_stage w need).1.1 = ∅ -> is_connected w self = true ->
      In (CallMyQuant need) calls).
Proof.
  unfold provider_chain, primary_stage, fallback_stage.
  destruct (AKSHARE_AVAILABLE w); simpl.
  - destruct (is_empty (_get_realtime_data_from_akshare w need)) eqn:Hemp; simpl.
    + apply is_empty_true in Hemp.
      destruct (is_connected w self) eqn:Hconn; simpl;
        (split; [intros c Hc; simpl in Hc; intuition (subst; reflexivity) |]);
        (split; [intros _; now left |]);
        (split; [intros b Hb; simpl in Hb; intuition (try discriminate) |]);
        intros _ Hc; simpl; intuition (try discriminate).
    + assert (Hne : _get_realtime_data_from_akshare w need <> ∅).
      { intros H. apply is_empty_true in H. congruence. }
      (split; [intros c Hc; simpl in Hc; intuition (subst; reflexivity) |]);
        (split; [intros _; now left |]);
        (split; [intros b Hb; simpl in Hb; intuition (try discriminate) |]);
        intros H; contradiction.
  - rewrite (proj2 (is_empty_true (∅ : gmap string quote)) eq_refl).
    destruct (is_connected w self) eqn:Hconn; simpl;
      (split; [intros c Hc; simpl in Hc; intuition (subst; reflexivity) |]);
      (split; [intros Hf; discriminate |]);
      (split; [intros b Hb; simpl in Hb; intuition (try discriminate) |]);
      intros _ Hc; simpl; intuition (try discriminate).
Qed.

End ServiceFacts.

(** C1: let a first call, made at [t1] for a request that contains [s],
    leave in the cache a quote [q] for [s] with fetch time [t1]. Then that
    call returned [q] for [s], and a second call for [s] made at [t2], less
    than [cache_expiry = 5] seconds after [t1], without [force_refresh],
    returns exactly [q] for [s], leaves the client as it was and makes no
    provider call, neither AKShare nor MyQuant. *)
Theorem cache_freshness (w1 w2 : Quotes.world) (self : Client.MyQuantClient)
  (t1 t2 : Z) (symbols1 : list string) (s : string) (q : Client.quote)
  (result1 : gmap string Client.quote) (self1 : Client.MyQuantClient)
  (calls1 : list Quotes.provider_call) :
  Client.cache_expiry self = 5 ->
  Quotes.get_realtime_data w1 self t1 symbols1 false = (result1, self1, calls1) ->
  In s symbols1 ->
  Client.data_cache self1 !! Py.split_dot_head s = Some q ->
  Client.cache_time self1 !! Py.split_dot_head s = Some t1 ->
  t2 - t1 < 5 * 1000000 ->
  result1 !! Py.split_dot_head s = Some q
  /\ Quotes.get_realtime_data w2 self1 t2 [s] false
     = ({[ Py.split_dot_head s := q ]}, self1, []).
Proof.
  intros Hexp Hcall Hin Hdata Htime Hage.
  assert (Hne : symbols1 <> []) by (intros ->; destruct Hin).
  destruct (get_realtime_data_spec _ _ _ _ _ _ _ _ Hne Hcall)
    as (_ & Hres & Hd & Ht & He & _).
  cbv zeta in *.
  set (code := Py.split_dot_head s) in *.
  split.
  - rewrite Hres. specialize (Hd code). specialize (Ht code).
    destruct ((Quotes.fetch_needed w1 self
                 (Quotes.scan_cache self t1 false symbols1).2).1.1 !! code)
      as [d |] eqn:Hf.
    + congruence.
    + apply scan_cache_hit; [exact Hin |]. fold code.
      unfold Quotes.cache_hit. rewrite <- Hd, Hdata, <- Ht, Htime, Hexp.
      destruct (Z.ltb_spec (t1 - t1) (5 * 1000000)); [reflexivity | lia].
  - unfold Quotes.get_realtime_data, Quotes.scan_cache. simpl.
    unfold Quotes.scan_step. rewrite clean_code_eq. fold code. simpl.
    unfold Quotes.cache_hit. rewrite Hdata, Htime, He, Hexp.
    destruct (Z.ltb_spec (t2 - t1) (5 * 1000000)); [| lia].
    simpl. now rewrite insert_empty.
Qed.

(** [cache_freshness] on a first call that fetches 000001 from the primary
    at instant 0 and a second call three seconds later, in a world where
    only the fallback could answer. *)
Lemma cache_freshness_witness :
  let first :=
    Quotes.get_realtime_data Fixtures.world_primary Client.init 0 ["000001.SZ"] false in
  exists q,
    Client.data_cache first.1.2 !! "000001" = Some q
    /\ Client.cache_time first.1.2 !! "000001" = Some 0
    /\ first.1.1 !! "000001" = Some q
    /\ Quotes.get_realtime_data (Fixtures.world_fallback 11%Q) first.1.2 3000000
         ["000001.SZ"] false
       = ({[ "000001" := q ]}, first.1.2, []).
Proof.
  cbv zeta.
  destruct (Quotes.get_realtime_data Fixtures.world_primary Client.init 0
              ["000001.SZ"] false) as [[result1 self1] calls1] eqn:Hcall.
  simpl fst. simpl snd.
  assert (Hstored : exists q, Client.data_cache self1 !! "000001" = Some q
                              /\ Client.cache_time self1 !! "000001" = Some 0).
  { vm_compute in Hcall. injection Hcall as <- <- <-. eexists. split; reflexivity. }
  destruct Hstored as (q & Hd & Ht). exists q.
  split; [exact Hd |]. split; [exact Ht |].
  apply (cache_freshness Fixtures.world_primary (Fixtures.world_fallback 11%Q)
           Client.init 0 3000000 ["000001.SZ"] "000001.SZ" q result1 self1 calls1).
  - reflexivity.
  - exact Hcall.
  - now left.
  - exact Hd.
  - exact Ht.
  - lia.
Defined.

(** C2: in one call the MyQuant fallback is invoked only with the needs-fetch
    batch, only when the gateway reports connected, and only after a primary
    stage that yielded no row for that batch; when the primary yields a
    non-empty result the fallback is not invoked in that call. *)
Theorem fallback_only_after_empty_primary (w : Quotes.world)
  (self : Client.MyQuantClient) (t : Z) (symbols : list string) (force : bool)
  (result : gmap string Client.quote) (self' : Client.MyQuantClient)
  (calls : list Quotes.provider_call) :
  Quotes.get_realtime_data w self t symbols force = (result, self', calls) ->
  let need_fetch := (Quotes.scan_cache self t force symbols).2 in
  (forall batch, In (Quotes.CallMyQuant batch) calls ->
     batch = need_fetch
     /\ Quotes.is_connected w self = true
     /\ (Quotes.primary_stage w need_fetch).1.1 = ∅
     /\ (Quotes.AKSHARE_AVAILABLE w = true ->
         Quotes._get_realtime_data_from_akshare w need_fetch = ∅))
  /\ ((Quotes.primary_stage w need_fetch).1.1 <> ∅ ->
      forall batch, ~ In (Quotes.CallMyQuant batch) calls).
Proof.
  intros Hcall need_fetch.
  assert (Hmain : forall batch, In (Quotes.CallMyQuant batch) calls ->
     batch = need_fetch
     /\ Quotes.is_connected w self = true
     /\ (Quotes.primary_stage w need_fetch).1.1 = ∅).
  { intros batch Hin.
    destruct symbols as [| s0 rest].
    { simpl in Hcall. injection Hcall as <- <- <-. destruct Hin. }
    assert (Hne : s0 :: rest <> []) by discriminate.
    destruct (get_realtime_data_spec _ _ _ _ _ _ _ _ Hne Hcall) as (Hcalls & _).
    cbv zeta in Hcalls. fold need_fetch in Hcalls.
    unfold Quotes.fetch_needed in Hcalls.
    destruct need_fetch as [| n0 need] eqn:Hneed.
    { subst calls. destruct Hin. }
    destruct (provider_chain_calls w self (n0 :: need)) as (Hb & _ & Hf & _).
    cbv zeta in Hb, Hf. rewrite <- Hcalls in Hb, Hf.
    split; [exact (Hb _ Hin) |]. exact (Hf _ Hin). }
  split.
  - intros batch Hin. destruct (Hmain batch Hin) as (Hb & Hc & He).
    repeat split; auto.
    intros Hav. unfold Quotes.primary_stage in He. now rewrite Hav in He.
  - intros Hne batch Hin. destruct (Hmain batch Hin) as (_ & _ & He). contradiction.
Qed.

(** [fallback_only_after_empty_primary] in a world whose primary fails while
    the gateway is connected: the fallback is called, with the whole batch. *)
Lemma fallback_only_after_empty_primary_witness :
  let call :=
    Quotes.get_realtime_data (Fixtures.world_fallback 11%Q) Fixtures.connected_client
      0 ["000001"] false in
  In (Quotes.CallMyQuant ["000001"]) call.2
  /\ Quotes.is_connected (Fixtures.world_fallback 11%Q) Fixtures.connected_client = true
  /\ (Quotes.primary_stage (Fixtures.world_fallback 11%Q) ["000001"]).1.1 = ∅.
Proof.
  cbv zeta.
  destruct (Quotes.get_realtime_data (Fixtures.world_fallback 11%Q)
              Fixtures.connected_client 0 ["000001"] false)
    as [[result self'] calls] eqn:Hcall.
  assert (Hin : In (Quotes.CallMyQuant ["000001"]) calls).
  { vm_compute in Hcall. injection Hcall as <- <- <-. right. now left. }
  split; [exact Hin |].
  destruct (fallback_only_after_empty_primary _ _ _ _ _ _ _ _ Hcall) as [Honly _].
  destruct (Honly _ Hin) as (_ & Hconn & Hempty & _).
  split; [exact Hconn | exact Hempty].
Defined.

(** C4: with [force_refresh] every requested symbol needs a fetch and the
    cache is not read. The provider chain runs on the whole request: every
    provider call receives all requested symbols, the primary is called
    whenever it is available, and the fallback whenever the primary is not
    available and the gateway is connected. The call returns exactly the
    fetched quotes, tagged with their source, and each of them is written to
    the cache with the call time as its fetch time. *)
Theorem force_refresh_bypasses_cache (w : Quotes.world)
  (self : Client.MyQuantClient) (t : Z) (symbols : list string)
  (result : gmap string Client.quote) (self' : Client.MyQuantClient)
  (calls : list Quotes.provider_call) :
  symbols <> [] ->
  Quotes.get_realtime_data w self t symbols true = (result, self', calls) ->
  let chain := Quotes.provider_chain w self symbols in
  let tag := Quotes.set_source (Quotes.source_of chain.1.2) in
  Quotes.scan_cache self t true symbols = (∅, symbols)
  /\ calls = chain.2
  /\ (forall c, In c calls -> Quotes.batch_of c = symbols)
  /\ (Quotes.AKSHARE_AVAILABLE w = true -> In (Quotes.CallAKShare symbols) calls)
  /\ (Quotes.AKSHARE_AVAILABLE w = false -> Quotes.is_connected w self = true ->
      In (Quotes.CallMyQuant symbols) calls)
  /\ result = tag <$> chain.1.1
  /\ (forall code data, chain.1.1 !! code = Some data ->
        Client.data_cache self' !! code = Some (tag data)
        /\ Client.cache_time self' !! code = Some t).
Proof.
  intros Hne Hcall chain tag.
  destruct (get_realtime_data_spec _ _ _ _ _ _ _ _ Hne Hcall)
    as (Hcalls & Hres & Hd & Ht & _).
  cbv zeta in *. rewrite scan_cache_force in *. simpl fst in *. simpl snd in *.
  assert (Hfetch : Quotes.fetch_needed w self symbols = chain).
  { unfold Quotes.fetch_needed. destruct symbols; [congruence | reflexivity]. }
  rewrite Hfetch in *.
  destruct (provider_chain_calls w self symbols) as (Hb & Hak & _ & Hmq).
  cbv zeta in Hb, Hak, Hmq. fold chain in Hb, Hak, Hmq. subst calls.
  split; [reflexivity |]. split; [reflexivity |]. split; [exact Hb |].
  split; [exact Hak |]. split; [| split].
  - intros Hav Hconn. apply Hmq; [| exact Hconn].
    unfold Quotes.primary_stage. now rewrite Hav.
  - apply map_eq. intros k. rewrite Hres, lookup_fmap.
    destruct (chain.1.1 !! k); simpl; [reflexivity | now rewrite lookup_empty].
  - intros code data Hf. split; [rewrite Hd | rewrite Ht]; now rewrite Hf.
Qed.

(** [force_refresh_bypasses_cache] one second after a call that cached
    000001: the entry is still fresh, yet the primary is called again and
    the fetch time moves to the second call. *)
Lemma force_refresh_bypasses_cache_witness :
  let first :=
    Quotes.get_realtime_data Fixtures.world_primary Client.init 0 ["000001"] false in
  let second :=
    Quotes.get_realtime_data Fixtures.world_primary first.1.2 1000000 ["000001"] true in
  Client.cache_time first.1.2 !! "000001" = Some 0
  /\ is_Some (Quotes.cache_hit first.1.2 1000000 "000001")
  /\ In (Quotes.CallAKShare ["000001"]) second.2
  /\ Client.cache_time second.1.2 !! "000001" = Some 1000000.
Proof.
  cbv zeta.
  set (self1 := (Quotes.get_realtime_data Fixtures.world_primary Client.init 0
                   ["000001"] false).1.2).
  destruct (Quotes.get_realtime_data Fixtures.world_primary self1 1000000
              ["000001"] true) as [[result2 self2] calls2] eqn:Hcall.
  simpl fst. simpl snd.
  split; [vm_compute; reflexivity |].
  split; [vm_compute; eexists; reflexivity |].
  assert (Hne : ["000001"] <> []) by discriminate.
  destruct (force_refresh_bypasses_cache _ _ _ _ _ _ _ Hne Hcall)
    as (_ & _ & _ & Hak & _ & _ & Hwrite).
  split; [apply Hak; reflexivity |].
  destruct (Hwrite "000001"
              (Client.mk_quote 12.5%Q 1.2%Q 0.8%Q 34200 (Some "AKShare direct") None))
    as [_ Htime]; [vm_compute; reflexivity | exact Htime].
Defined.

(** [prefix_12_is_shanghai_and_unlisted_is_skipped] on the request
    [123456.SH, 999999]. *)
Lemma prefix_12_is_shanghai_and_unlisted_is_skipped_witness :
  Quotes.gm_symbol_of "123456" = Some "SHSE.123456"
  /\ In "SHSE.123456" (Quotes.convert_symbols ["123456.SH"; "999999"]).1
  /\ ~ In "SZSE.123456" (Quotes.convert_symbols ["123456.SH"; "999999"]).1
  /\ Quotes.gm_symbol_of "999999" = None
  /\ Quotes._get_realtime_data_from_myquant (Fixtures.world_fallback 11%Q)
       Fixtures.connected_client ["123456.SH"; "999999"] !! "999999" = None.
Proof.
  destruct prefix_12_is_shanghai_and_unlisted_is_skipped as [Hsh Hskip].
  destruct (Hsh ["123456.SH"; "999999"] "123456.SH")
    as (H1 & H2 & _ & H3); try reflexivity; [now left |].
  destruct (Hskip (Fixtures.world_fallback 11%Q) Fixtures.connected_client
              ["123456.SH"; "999999"] "999999")
    as (H4 & _ & _ & H5); try reflexivity.
  repeat split; assumption.
Defined.

(** ** The signal engine *)

(** One step of the option monad: a bind on a known [Some] or [None]. *)
Ltac bind_step := cbn [mbind option_bind].

Section SignalFacts.
Import Py Num Signals.

Lemma count_name_app (name : string) (l1 l2 : list signal) :
  count_name name (l1 ++ l2) = (count_name name l1 + count_name name l2)%nat.
Proof. unfold count_name. now rewrite filter_app, length_app. Qed.

Lemma count_name_absent (name : string) (l : list signal) :
  (forall sg, In sg l -> signal_name sg <> name) -> count_name name l = 0%nat.
Proof.
  unfold count_name. induction l as [| x l IH]; intros H; [reflexivity |].
  rewrite filter_cons. destruct (decide (signal_name x = name)) as [E | E].
  - exfalso. apply (H x); [now left | exact E].
  - apply IH. intros sg Hin. apply H. now right.
Qed.

(** A series with at least [n] entries has a last one. *)
Lemma neg1_is_Some {A} (l : list A) : l <> [] -> exists x, neg1 l = Some x.
Proof.
  intros H. unfold neg1. destruct (last l) as [x |] eqn:E; [eauto |].
  apply last_None in E. contradiction.
Qed.

Lemma neg1_snoc {A} (l : list A) (x : A) : neg1 (l ++ [x]) = Some x.
Proof. unfold neg1. apply last_snoc. Qed.

Lemma neg2_snoc2 {A} (l : list A) (x y : A) : neg2 (l ++ [x; y]) = Some x.
Proof. unfold neg2. rewrite rev_app_distr. reflexivity. Qed.

(** The names [_detect_macd_signals] and [_detect_rsi_signals] can give. *)
Lemma macd_signals_names (self : SignalEngine) (indicators : frame) (symbol : string)
  (r : list signal) :
  _detect_macd_signals self indicators symbol = Some r ->
  forall sg, In sg r ->
    signal_name sg = "macd_golden_cross" \/ signal_name sg = "macd_death_cross".
Proof.
  unfold _detect_macd_signals.
  destruct (indicators !! "MACD") as [macd |]; [| intros [= <-] sg []].
  destruct (indicators !! "MACD_Signal") as [sig |]; [| intros [= <-] sg []].
  destruct (length macd <? 3)%nat; [intros [= <-] sg [] |].
  destruct (neg1 macd) as [m1 |]; bind_step; [| discriminate].
  destruct (neg1 sig) as [s1 |]; bind_step; [| discriminate].
  destruct (neg2 macd) as [m2 |]; bind_step; [| discriminate].
  destruct (neg2 sig) as [s2 |]; bind_step; [| discriminate].
  destruct (fle (fsub m2 s2) (Some 0%Q) && fgt (fsub m1 s1) (Some 0%Q)).
  - intros [= <-] sg [<- | []]. now left.
  - destruct (fge (fsub m2 s2) (Some 0%Q) && flt (fsub m1 s1) (Some 0%Q));
      intros [= <-] sg H; [destruct H as [<- | []]; now right | destruct H].
Qed.

Lemma rsi_signals_total (self : SignalEngine) (indicators : frame) (symbol : string) :
  exists r, _detect_rsi_signals self indicators symbol = Some r
    /\ forall sg, In sg r ->
         signal_name sg = "rsi_overbought" \/ signal_name sg = "rsi_oversold".
Proof.
  unfold _detect_rsi_signals.
  destruct (indicators !! "RSI") as [rsi |]; [| exists []; split; [reflexivity | intros sg []]].
  destruct (length rsi <? 3)%nat eqn:Hlen;
    [exists []; split; [reflexivity | intros sg []] |].
  assert (Hne : rsi <> []).
  { intros ->. discriminate. }
  destruct (neg1_is_Some rsi Hne) as [x Hx]. rewrite Hx. bind_step.
  destruct (fgt x (Some 70%Q)).
  - eexists. split; [reflexivity |]. intros sg [<- | []]. now left.
  - destruct (flt x (Some 30%Q)); eexists; (split; [reflexivity |]).
    + intros sg [<- | []]. now right.
    + intros sg [].
Qed.

(** The names [_detect_ma_signals] can give. *)
Lemma ma_signals_names (self : SignalEngine) (indicators : frame) (bull bear : bool)
  (symbol : string) (sg : signal) :
  In sg (_detect_ma_signals self indicators bull bear symbol) ->
  exists period direction,
    In period ma_periods /\ In direction ["bottom"; "top"]
    /\ signal_name sg = turn_name period direction.
Proof.
  unfold _detect_ma_signals. rewrite in_flat_map.
  intros (period & Hp & Hin). exists period.
  unfold ma_period_signals in Hin.
  destruct (indicators !! ma_col period) as [col |]; [| destruct Hin].
  destruct (6 <=? length (dropna col))%nat; [| destruct Hin].
  apply in_flat_map in Hin as (direction & Hd & Hin). exists direction.
  split; [exact Hp |]. split; [exact Hd |].
  unfold ma_direction_signals in Hin.
  destruct (gate direction bull bear); [| destruct Hin].
  destruct (detect_ma_turning_point self (dropna col) direction) as [[|] idx];
    [| destruct Hin].
  destruct Hin as [<- | []]. reflexivity.
Qed.

Lemma turn_names_are_not (name : string) (period : nat) (direction : string) :
  In name ["ma_multi_bull"; "ma_multi_bear"; "macd_golden_cross"; "macd_death_cross";
           "rsi_overbought"; "rsi_oversold"] ->
  In period ma_periods -> In direction ["bottom"; "top"] ->
  turn_name period direction <> name.
Proof.
  intros Hn Hp Hd. simpl in Hn, Hp, Hd.
  repeat (destruct Hn as [<- | Hn]); try destruct Hn;
    repeat (destruct Hp as [<- | Hp]); try destruct Hp;
    repeat (destruct Hd as [<- | Hd]); try destruct Hd;
    vm_compute; discriminate.
Qed.

(** On aligned frames [run_all_strategies] returns: its result is what the
    three detectors append, in order. *)
Lemma run_all_strategies_returns (self : SignalEngine) (data indicators : frame)
  (symbol : string) :
  aligned data indicators ->
  exists close bull bear r2 r3,
    data !! "Close" = Some close
    /\ main_trend fgt close (indicators !! "MA60") = Some bull
    /\ main_trend flt close (indicators !! "MA60") = Some bear
    /\ _detect_macd_signals self indicators symbol = Some r2
    /\ _detect_rsi_signals self indicators symbol = Some r3
    /\ run_all_strategies self data indicators symbol
       = Some (_detect_ma_signals self indicators bull bear symbol ++ r2 ++ r3)%list.
Proof.
  intros (close & Hclose & Hne & Hall).
  assert (Hlen : forall name col, indicators !! name = Some col -> col <> []).
  { intros name col Hcol ->. apply (Hall name) in Hcol. simpl in Hcol.
    destruct close; [congruence | discriminate]. }
  destruct (neg1_is_Some close Hne) as [c Hc].
  assert (Htrend : forall cmp, exists b,
            main_trend cmp close (indicators !! "MA60") = Some b).
  { intros cmp. unfold main_trend.
    destruct (indicators !! "MA60") as [m |] eqn:Hm; [| eauto].
    destruct (neg1_is_Some m (Hlen _ _ Hm)) as [x Hx].
    rewrite Hc, Hx. bind_step. eauto. }
  destruct (Htrend fgt) as [bull Hbull]. destruct (Htrend flt) as [bear Hbear].
  assert (Hmacd : exists r2, _detect_macd_signals self indicators symbol = Some r2).
  { unfold _detect_macd_signals.
    destruct (indicators !! "MACD") as [macd |] eqn:Hm; [| eauto].
    destruct (indicators !! "MACD_Signal") as [sig |] eqn:Hs; [| eauto].
    destruct (length macd <? 3)%nat eqn:Hl; [eauto |].
    apply Nat.ltb_ge in Hl.
    pose proof (Hall _ _ Hm) as Hlm. pose proof (Hall _ _ Hs) as Hls.
    simpl in Hlm, Hls.
    assert (Hdec : forall l : series, (3 <= length l)%nat ->
              exists x y, neg1 l = Some x /\ neg2 l = Some y).
    { intros l Hl3.
      assert (E : l = rev (rev l)) by (symmetry; apply rev_involutive).
      rewrite <- length_rev in Hl3.
      destruct (rev l) as [| x [| y r]]; simpl in Hl3; try lia.
      exists x, y. rewrite E. simpl. split; [apply neg1_snoc |].
      rewrite <- app_assoc. apply neg2_snoc2. }
    destruct (Hdec macd Hl) as (m1 & m2 & -> & ->).
    destruct (Hdec sig ltac:(lia)) as (s1 & s2 & -> & ->). bind_step.
    destruct (fle (fsub m2 s2) (Some 0%Q) && fgt (fsub m1 s1) (Some 0%Q)); [eauto |].
    destruct (fge (fsub m2 s2) (Some 0%Q) && flt (fsub m1 s1) (Some 0%Q)); eauto. }
  destruct Hmacd as [r2 Hr2].
  destruct (rsi_signals_total self indicators symbol) as (r3 & Hr3 & _).
  exists close, bull, bear, r2, r3. repeat split; try assumption.
  unfold run_all_strategies. rewrite Hclose, Hbull, Hbear. bind_step.
  rewrite Hr2. bind_step. rewrite Hr3. reflexivity.
Qed.

End SignalFacts.

Section MacdFacts.
Import Py Num Signals.

Lemma neg1_snoc2 {A} (l : list A) (x y : A) : neg1 (l ++ [x; y]) = Some y.
Proof.
  change (l ++ [x; y]) with (l ++ [x] ++ [y]). rewrite app_assoc. apply neg1_snoc.
Qed.

(** What [_detect_macd_signals] appends when both series end in defined
    values and the MACD series has at least three bars. *)
Lemma macd_signals_eq (self : SignalEngine) (indicators : frame) (symbol : string)
  (older_m older_s : series) (mp mc sp sc : Q) :
  indicators !! "MACD" = Some (older_m ++ [Some mp; Some mc]) ->
  indicators !! "MACD_Signal" = Some (older_s ++ [Some sp; Some sc]) ->
  (1 <= length older_m)%nat ->
  _detect_macd_signals self indicators symbol
  = Some
      (let idx := Z.of_nat (length (older_m ++ [Some mp; Some mc])) - 1 in
       if Qle_bool (mp - sp) 0 && Qltb 0 (mc - sc)
       then [(symbol, "macd_golden_cross", idx, score_of "macd_golden_cross")]
       else if Qle_bool 0 (mp - sp) && Qltb (mc - sc) 0
       then [(symbol, "macd_death_cross", idx, score_of "macd_death_cross")]
       else []).
Proof.
  intros Hm Hs Hlen. unfold _detect_macd_signals. rewrite Hm, Hs.
  assert (Hl : (length (older_m ++ [Some mp; Some mc]) <? 3)%nat = false).
  { apply Nat.ltb_ge. rewrite length_app. simpl. lia. }
  rewrite Hl, !neg1_snoc2, !neg2_snoc2. bind_step.
  unfold fge, flt, fle, fgt, fsub. cbv zeta.
  destruct (Qle_bool (mp - sp) 0 && Qltb 0 (mc - sc)); [reflexivity |].
  destruct (Qle_bool 0 (mp - sp) && Qltb (mc - sc) 0); reflexivity.
Qed.

End MacdFacts.

(** C6, as stated, fails: on a two-bar series whose MACD - Signal difference
    goes from -0.1 to +0.1 the evaluation yields no golden cross, and from
    +0.1 to -0.1 no death cross, because [_detect_macd_signals] returns at
    once when the MACD series has fewer than three bars. *)
Lemma two_bar_macd_yields_no_cross :
  Signals.aligned (Fixtures.bars [Some 10%Q; Some 10%Q])
    (Fixtures.macd_frame [Some (-0.1)%Q; Some 0.1%Q] [Some 0%Q; Some 0%Q])
  /\ Signals.run_all_strategies Signals.default_engine
       (Fixtures.bars [Some 10%Q; Some 10%Q])
       (Fixtures.macd_frame [Some (-0.1)%Q; Some 0.1%Q] [Some 0%Q; Some 0%Q]) "000001"
     = Some []
  /\ Signals.count_name "macd_golden_cross" [] <> 1%nat
  /\ Signals.run_all_strategies Signals.default_engine
       (Fixtures.bars [Some 10%Q; Some 10%Q])
       (Fixtures.macd_frame [Some 0.1%Q; Some (-0.1)%Q] [Some 0%Q; Some 0%Q]) "000001"
     = Some []
  /\ Signals.count_name "macd_death_cross" [] <> 1%nat.
Proof.
  split.
  { exists [Some 10%Q; Some 10%Q]. split; [reflexivity |]. split; [discriminate |].
    unfold Fixtures.macd_frame.
    apply map_Forall_insert_2; [reflexivity |].
    apply map_Forall_insert_2; [reflexivity |]. apply map_Forall_empty. }
  repeat split; try reflexivity; discriminate.
Qed.

(** C6, amended: on aligned frames whose MACD series has at least three bars
    and ends, like the Signal series, in two defined values, the evaluation
    returns, and its result holds exactly one [macd_golden_cross] signal, at
    the last index, and no death cross when MACD - Signal goes from [<= 0] to
    [> 0] over the last two bars (from -0.1 to +0.1, say); exactly one
    [macd_death_cross], at the last index, and no golden cross when it goes
    from [>= 0] to [< 0]; and neither in every other case. *)
Theorem macd_cross_rule (self : Signals.SignalEngine)
  (data indicators : gmap string (list (option Q))) (symbol : string)
  (older_m older_s : list (option Q)) (mp mc sp sc : Q) :
  Signals.aligned data indicators ->
  indicators !! "MACD" = Some (older_m ++ [Some mp; Some mc]) ->
  indicators !! "MACD_Signal" = Some (older_s ++ [Some sp; Some sc]) ->
  (1 <= length older_m)%nat ->
  exists results,
    Signals.run_all_strategies self data indicators symbol = Some results
    /\ let last_idx := Z.of_nat (length (older_m ++ [Some mp; Some mc])) - 1 in
       let golden := (symbol, "macd_golden_cross", last_idx, 0.8%Q) in
       let death := (symbol, "macd_death_cross", last_idx, 0.8%Q) in
       let n_golden := Signals.count_name "macd_golden_cross" results in
       let n_death := Signals.count_name "macd_death_cross" results in
       ((mp - sp <= 0)%Q -> (0 < mc - sc)%Q ->
          n_golden = 1%nat /\ In golden results /\ n_death = 0%nat)
       /\ ((0 <= mp - sp)%Q -> (mc - sc < 0)%Q ->
           n_death = 1%nat /\ In death results /\ n_golden = 0%nat)
       /\ (~ ((mp - sp <= 0)%Q /\ (0 < mc - sc)%Q) ->
           ~ ((0 <= mp - sp)%Q /\ (mc - sc < 0)%Q) ->
           n_golden = 0%nat /\ n_death = 0%nat).
Proof.
  intros Hal Hm Hs Hlen.
  destruct (run_all_strategies_returns self data indicators symbol Hal)
    as (close & bull & bear & r2 & r3 & _ & _ & _ & Hr2 & Hr3 & Hrun).
  rewrite (macd_signals_eq self indicators symbol _ _ _ _ _ _ Hm Hs Hlen) in Hr2.
  injection Hr2 as Hr2. cbv zeta in Hr2.
  eexists. split; [exact Hrun |]. cbv zeta.
  set (last_idx := Z.of_nat (length (older_m ++ [Some mp; Some mc])) - 1) in *.
  assert (Hr1 : forall name, In name ["macd_golden_cross"; "macd_death_cross"] ->
            Signals.count_name name
              (Signals._detect_ma_signals self indicators bull bear symbol) = 0%nat).
  { intros name Hn. apply count_name_absent. intros sg Hin.
    apply ma_signals_names in Hin as (p & d & Hp & Hd & ->).
    apply turn_names_are_not; auto.
    simpl in *. tauto. }
  assert (Hr3' : forall name, In name ["macd_golden_cross"; "macd_death_cross"] ->
            Signals.count_name name r3 = 0%nat).
  { intros name Hn. apply count_name_absent. intros sg Hin.
    destruct (rsi_signals_total self indicators symbol) as (r3' & Hr3eq & Hnames).
    rewrite Hr3 in Hr3eq. injection Hr3eq as <-.
    destruct (Hnames sg Hin) as [E | E]; rewrite E;
      simpl in Hn; destruct Hn as [<- | [<- | []]]; discriminate. }
  assert (Hcount : forall name, In name ["macd_golden_cross"; "macd_death_cross"] ->
            Signals.count_name name
              (Signals._detect_ma_signals self indicators bull bear symbol ++ r2 ++ r3)
            = Signals.count_name name r2).
  { intros name Hn. rewrite !count_name_app, (Hr1 name Hn), (Hr3' name Hn). lia. }
  rewrite !Hcount by (simpl; tauto).
  assert (Hin2 : forall sg, In sg r2 ->
            In sg (Signals._detect_ma_signals self indicators bull bear symbol ++ r2 ++ r3)).
  { intros sg H. apply in_or_app. right. apply in_or_app. now left. }
  destruct (Qle_bool (mp - sp) 0 && Num.Qltb 0 (mc - sc)) eqn:Hg.
  - apply andb_true_iff in Hg as [Hg1 Hg2].
    apply Qle_bool_iff in Hg1. apply Qltb_true in Hg2. subst r2.
    split; [| split].
    + intros _ _. split; [reflexivity |]. split; [apply Hin2; now left | reflexivity].
    + intros H1 H2. exfalso. exact (Qlt_irrefl _ (Qlt_trans _ _ _ Hg2 H2)).
    + intros Hn _. exfalso. apply Hn. now split.
  - destruct (Qle_bool 0 (mp - sp) && Num.Qltb (mc - sc) 0) eqn:Hd.
    + apply andb_true_iff in Hd as [Hd1 Hd2].
      apply Qle_bool_iff in Hd1. apply Qltb_true in Hd2. subst r2.
      split; [| split].
      * intros H1 H2. exfalso. exact (Qlt_irrefl _ (Qlt_trans _ _ _ H2 Hd2)).
      * intros _ _. split; [reflexivity |]. split; [apply Hin2; now left | reflexivity].
      * intros _ Hn. exfalso. apply Hn. now split.
    + subst r2. split; [| split].
      * intros H1 H2. apply Qle_bool_iff in H1. apply Qltb_true in H2.
        rewrite H1, H2 in Hg. discriminate.
      * intros H1 H2. apply Qle_bool_iff in H1. apply Qltb_true in H2.
        rewrite H1, H2 in Hd. discriminate.
      * intros _ _. split; reflexivity.
Qed.

Section TurningFacts.
Import Py Num Signals.

(** A list with at least three elements ends in three of them. *)
Lemma ends_in_three {A} (l : list A) :
  (3 <= length l)%nat -> exists older a b c, l = older ++ [a; b; c].
Proof.
  intros H. rewrite <- (rev_involutive l). rewrite <- length_rev in H.
  destruct (rev l) as [| c [| b [| a r]]]; simpl in H; try lia.
  exists (rev r), a, b, c. simpl. now rewrite <- !app_assoc.
Qed.

(** [detect_ma_turning_point] on a series that ends in [a], [b], [c]. *)
Lemma detect_ma_turning_point_snoc3 (self : SignalEngine) (older : list Q)
  (a b c : Q) (direction : string) :
  detect_ma_turning_point self (older ++ [a; b; c]) direction
  = if Qle_bool (amplitude_of b c) (amplitude_threshold self) then (false, -1)
    else if String.eqb direction "bottom" && Qltb ((c - a) / 2) 0 && Qltb 0 (c - b)
    then (true, Z.of_nat (length (older ++ [a; b; c])) - 1)
    else if String.eqb direction "top" && Qltb 0 ((c - a) / 2) && Qltb (c - b) 0
    then (true, Z.of_nat (length (older ++ [a; b; c])) - 1)
    else (false, -1).
Proof.
  unfold detect_ma_turning_point.
  assert (Hl : (length (older ++ [a; b; c]) <? 3)%nat = false).
  { apply Nat.ltb_ge. rewrite length_app. simpl. lia. }
  rewrite Hl.
  assert (Hr : lastn 3 (older ++ [a; b; c]) = [a; b; c]).
  { unfold lastn. apply drop_app_length'. rewrite length_app. simpl. lia. }
  rewrite Hr. reflexivity.
Qed.

Lemma Qle_bool_false (x y : Q) : Qle_bool x y = false <-> (y < x)%Q.
Proof.
  split.
  - intros H. apply Qnot_le_lt. intros Hle. apply Qle_bool_iff in Hle. congruence.
  - intros H. destruct (Qle_bool x y) eqn:E; [| reflexivity].
    apply Qle_bool_iff in E. exfalso. exact (Qlt_not_le _ _ H E).
Qed.

(** When [detect_ma_turning_point] reports a turn on a series of at least
    six values. *)
Lemma detect_fires (self : SignalEngine) (vals : list Q) (direction : string) :
  (6 <= length vals)%nat /\ (detect_ma_turning_point self vals direction).1 = true
  <->
  exists older a b c,
    vals = older ++ [a; b; c] /\ (3 <= length older)%nat
    /\ (amplitude_threshold self < amplitude_of b c)%Q
    /\ ((direction = "bottom" /\ ((c - a) / 2 < 0)%Q /\ (0 < c - b)%Q)
        \/ (direction = "top" /\ (0 < (c - a) / 2)%Q /\ (c - b < 0)%Q)).
Proof.
  split.
  - intros [Hlen Hdet].
    destruct (ends_in_three vals ltac:(lia)) as (older & a & b & c & ->).
    exists older, a, b, c. split; [reflexivity |].
    split; [rewrite length_app in Hlen; simpl in Hlen; lia |].
    rewrite detect_ma_turning_point_snoc3 in Hdet.
    destruct (Qle_bool (amplitude_of b c) (amplitude_threshold self)) eqn:Hamp;
      [discriminate |].
    apply Qle_bool_false in Hamp. split; [exact Hamp |].
    destruct (String.eqb direction "bottom" && Qltb ((c - a) / 2) 0 && Qltb 0 (c - b))
      eqn:Hb.
    + left. apply andb_true_iff in Hb as [Hb H3].
      apply andb_true_iff in Hb as [H1 H2].
      apply String.eqb_eq in H1. apply Qltb_true in H2. apply Qltb_true in H3. auto.
    + destruct (String.eqb direction "top" && Qltb 0 ((c - a) / 2) && Qltb (c - b) 0)
        eqn:Ht; [| discriminate].
      right. apply andb_true_iff in Ht as [Ht H3].
      apply andb_true_iff in Ht as [H1 H2].
      apply String.eqb_eq in H1. apply Qltb_true in H2. apply Qltb_true in H3. auto.
  - intros (older & a & b & c & -> & Hlen & Hamp & Hdir).
    split; [rewrite length_app; simpl; lia |].
    rewrite detect_ma_turning_point_snoc3.
    apply Qle_bool_false in Hamp. rewrite Hamp.
    destruct Hdir as [(-> & H2 & H3) | (-> & H2 & H3)];
      apply Qltb_true in H2; apply Qltb_true in H3.
    + rewrite H2, H3. reflexivity.
    + rewrite H2, H3. simpl.
      destruct (Qltb ((c - a) / 2) 0 && Qltb 0 (c - b)); reflexivity.
Qed.

Lemma turn_name_inj (p p' : nat) (d d' : string) :
  In p ma_periods -> In p' ma_periods ->
  In d ["bottom"; "top"] -> In d' ["bottom"; "top"] ->
  turn_name p d = turn_name p' d' -> p = p' /\ d = d'.
Proof.
  intros Hp Hp' Hd Hd'. simpl in Hp, Hp', Hd, Hd'.
  repeat (destruct Hp as [<- | Hp]); try destruct Hp;
    repeat (destruct Hp' as [<- | Hp']); try destruct Hp';
    repeat (destruct Hd as [<- | Hd]); try destruct Hd;
    repeat (destruct Hd' as [<- | Hd']); try destruct Hd';
    intros H; first [split; reflexivity | vm_compute in H; discriminate].
Qed.

(** When [_detect_ma_signals] appends the turn signal of a window and a
    direction. *)
Lemma ma_signals_fire (self : SignalEngine) (indicators : frame) (bull bear : bool)
  (symbol : string) (p : nat) (d : string) :
  In p ma_periods -> In d ["bottom"; "top"] ->
  In (turn_name p d)
     (map signal_name (_detect_ma_signals self indicators bull bear symbol))
  <->
  exists col,
    indicators !! ma_col p = Some col /\ gate d bull bear = true
    /\ (6 <= length (dropna col))%nat
    /\ (detect_ma_turning_point self (dropna col) d).1 = true.
Proof.
  intros Hp Hd. rewrite in_map_iff. split.
  - intros (sg & Hname & Hin).
    unfold _detect_ma_signals in Hin. apply in_flat_map in Hin as (p' & Hp' & Hin).
    unfold ma_period_signals in Hin.
    destruct (indicators !! ma_col p') as [col |] eqn:Hcol; [| destruct Hin].
    destruct (6 <=? length (dropna col))%nat eqn:Hlen; [| destruct Hin].
    apply in_flat_map in Hin as (d' & Hd' & Hin).
    unfold ma_direction_signals in Hin.
    destruct (gate d' bull bear) eqn:Hgate; [| destruct Hin].
    destruct (detect_ma_turning_point self (dropna col) d') as [[|] idx] eqn:Hdet;
      [| destruct Hin].
    destruct Hin as [<- | []]. unfold signal_name in Hname. simpl in Hname.
    destruct (turn_name_inj p' p d' d Hp' Hp Hd' Hd Hname) as [-> ->].
    exists col. rewrite Hdet. apply Nat.leb_le in Hlen. auto.
  - intros (col & Hcol & Hgate & Hlen & Hdet).
    destruct (detect_ma_turning_point self (dropna col) d) as [fired idx] eqn:Hd0.
    simpl in Hdet. subst fired.
    exists (symbol, turn_name p d, idx, score_of (turn_name p d)).
    split; [reflexivity |].
    unfold _detect_ma_signals. apply in_flat_map. exists p. split; [exact Hp |].
    unfold ma_period_signals. rewrite Hcol.
    apply Nat.leb_le in Hlen. rewrite Hlen.
    apply in_flat_map. exists d. split; [exact Hd |].
    unfold ma_direction_signals. rewrite Hgate, Hd0.
    now left.
Qed.

(** The dominant trend, read off the last close and the last MA60. *)
Lemma main_trend_true (cmp : option Q -> option Q -> bool) (close : series)
  (ma60 : option series) :
  main_trend cmp close ma60 = Some true <->
  exists m c x, ma60 = Some m /\ neg1 close = Some c /\ neg1 m = Some x
                /\ cmp c x = true.
Proof.
  unfold main_trend. split.
  - destruct ma60 as [m |]; [| discriminate].
    destruct (neg1 close) as [c |]; bind_step; [| discriminate].
    destruct (neg1 m) as [x |] eqn:Hx; bind_step; [| discriminate].
    intros H. injection H as H. exists m, c, x. auto.
  - intros (m & c & x & -> & -> & Hx & Hcmp). bind_step. rewrite Hx. bind_step.
    now rewrite Hcmp.
Qed.

Lemma fgt_true (x y : option Q) :
  fgt x y = true <-> exists a b, x = Some a /\ y = Some b /\ (b < a)%Q.
Proof.
  unfold fgt. split.
  - destruct x as [a |], y as [b |]; try discriminate.
    intros H. apply Qltb_true in H. eauto.
  - intros (a & b & -> & -> & H). now apply Qltb_true.
Qed.

End TurningFacts.

(** C5, as stated, fails. With MA5 ending in 10, 8, 11 (six defined values),
    the first differences are -2 then +3, the close 12 is above MA60 = 9 and
    the relative change 3/8 exceeds 0.005, yet no signal fires: the gradient
    the code tests at the prior step is the central difference
    (11 - 10) / 2, which is positive. And with only three defined values
    10, 9, 9.5 no signal fires either, whatever the gradients. *)
Lemma v_shaped_bottom_is_not_detected :
  Signals.first_difference_bottom Signals.default_engine 12 9 10 8 11
  /\ Signals.run_all_strategies Signals.default_engine
       (Fixtures.bars [Some 12%Q; Some 12%Q; Some 12%Q; Some 12%Q; Some 12%Q; Some 12%Q])
       (Fixtures.ma_frame 5
          [Some 10%Q; Some 10%Q; Some 10%Q; Some 10%Q; Some 8%Q; Some 11%Q]
          [None; None; None; None; None; Some 9%Q]) "000001"
     = Some []
  /\ Signals.run_all_strategies Signals.default_engine
       (Fixtures.bars [Some 12%Q; Some 12%Q; Some 12%Q])
       (Fixtures.ma_frame 5 [Some 10%Q; Some 9%Q; Some 9.5%Q]
          [None; None; Some 9%Q]) "000001"
     = Some [].
Proof.
  split; [| split; reflexivity].
  unfold Signals.first_difference_bottom. repeat split; reflexivity.
Qed.

(** C5, amended: on aligned frames the evaluation returns, and for each
    window in 5, 10, 20, 60 the bottom (top) turning-point signal is in its
    result if and only if the window's series has at least six defined
    values, the last close is above (below) the last MA60, the relative
    change [|c - b| / |b|] of the last step exceeds the amplitude threshold
    ([b] not zero), and numpy's gradient of the last three defined values
    [a], [b], [c] is negative (positive) at [b], where it is the central
    difference [(c - a) / 2], and positive (negative) at [c], where it is
    [c - b]. *)
Theorem ma_turning_point_rule (self : Signals.SignalEngine)
  (data indicators : gmap string (list (option Q))) (symbol : string)
  (period : nat) (direction : string) :
  Signals.aligned data indicators ->
  In period Signals.ma_periods ->
  In direction ["bottom"; "top"] ->
  exists results,
    Signals.run_all_strategies self data indicators symbol = Some results
    /\ (In (Signals.turn_name period direction) (map Signals.signal_name results)
        <-> Signals.turn_condition self data indicators period direction).
Proof.
  intros Hal Hp Hd.
  destruct (run_all_strategies_returns self data indicators symbol Hal)
    as (close & bull & bear & r2 & r3 & Hclose & Hbull & Hbear & Hr2 & Hr3 & Hrun).
  eexists. split; [exact Hrun |].
  assert (Hother : forall sg, In sg (r2 ++ r3) ->
            Signals.signal_name sg <> Signals.turn_name period direction).
  { intros sg Hin E. apply in_app_or in Hin as [Hin | Hin].
    - destruct (macd_signals_names _ _ _ _ Hr2 sg Hin) as [Hn | Hn];
        rewrite Hn in E; symmetry in E; revert E;
        apply turn_names_are_not; auto; simpl; tauto.
    - destruct (rsi_signals_total self indicators symbol) as (r3' & Hr3eq & Hnames).
      rewrite Hr3 in Hr3eq. injection Hr3eq as <-.
      destruct (Hnames sg Hin) as [Hn | Hn];
        rewrite Hn in E; symmetry in E; revert E;
        apply turn_names_are_not; auto; simpl; tauto. }
  rewrite map_app, in_app_iff.
  assert (Hno : ~ In (Signals.turn_name period direction)
                    (map Signals.signal_name (r2 ++ r3))).
  { rewrite in_map_iff. intros (sg & E & Hin). exact (Hother sg Hin E). }
  rewrite (ma_signals_fire self indicators bull bear symbol period direction Hp Hd).
  split.
  - intros [(col & Hcol & Hgate & Hlen & Hdet) | Hin]; [| contradiction].
    destruct (proj1 (detect_fires self _ direction) (conj Hlen Hdet))
      as (older & a & b & c & Hvals & Holder & Hamp & Hdir).
    unfold Signals.gate in Hgate.
    destruct Hdir as [(-> & H1 & H2) | (-> & H1 & H2)].
    + assert (bull = true) as ->
        by (destruct bull; [reflexivity | destruct bear; discriminate Hgate]).
      apply main_trend_true in Hbull as (m & cl & x & Hm & Hcl & Hx & Hcmp).
      apply fgt_true in Hcmp as (u & v & -> & -> & Hlt).
      exists close, m, u, v, col, older, a, b, c. auto 15.
    + assert (bear = true) as ->
        by (destruct bear; [reflexivity | destruct bull; discriminate Hgate]).
      apply main_trend_true in Hbear as (m & cl & x & Hm & Hcl & Hx & Hcmp).
      apply fgt_true in Hcmp as (u & v & -> & -> & Hlt).
      exists close, m, v, u, col, older, a, b, c.
      repeat (split; [assumption |]). right. auto.
  - intros (close' & m & cl & m60 & col & older & a & b & c
            & Hclose' & Hm & Hcl & Hm60 & Hcol & Hvals & Holder & Hamp & Hdir).
    left. exists col. rewrite Hclose in Hclose'. injection Hclose' as <-.
    assert (Hfire : (6 <= length (Signals.dropna col))%nat
                    /\ (Signals.detect_ma_turning_point self (Signals.dropna col)
                          direction).1 = true).
    { apply detect_fires. exists older, a, b, c.
      repeat (split; [assumption |]).
      destruct Hdir as [(E & _ & H) | (E & _ & H)]; [left | right]; auto. }
    destruct Hfire as [Hlen Hdet].
    split; [exact Hcol |]. split; [| split; assumption].
    unfold Signals.gate. destruct Hdir as [(-> & Hlt & _) | (-> & Hlt & _)]; simpl.
    + assert (Hb : Signals.main_trend Signals.fgt close (indicators !! "MA60")
                   = Some true).
      { apply main_trend_true. exists m, (Some cl), (Some m60).
        repeat (split; [assumption |]). apply fgt_true. eauto. }
      rewrite Hb in Hbull. now injection Hbull as <-.
    + assert (Hb : Signals.main_trend Signals.flt close (indicators !! "MA60")
                   = Some true).
      { apply main_trend_true. exists m, (Some cl), (Some m60).
        repeat (split; [assumption |]). apply fgt_true. eauto. }
      rewrite Hb in Hbear. now injection Hbear as <-.
Qed.

(** Alignment of a concrete pair of frames. *)
Ltac solve_aligned :=
  eexists; split; [reflexivity |]; split; [discriminate |];
  repeat (apply map_Forall_insert_2; [reflexivity |]); apply map_Forall_empty.

(** [ma_turning_point_rule] on an MA5 series ending in 12, 8, 11 under a
    close of 12 above MA60 = 9: the gradients are -0.5 and +3, the relative
    change is 3/8, and the bottom turn of MA5 fires. *)
Lemma ma_turning_point_rule_witness :
  let data :=
    Fixtures.bars [Some 12%Q; Some 12%Q; Some 12%Q; Some 12%Q; Some 12%Q; Some 12%Q] in
  let indicators :=
    Fixtures.ma_frame 5
      [Some 10%Q; Some 10%Q; Some 10%Q; Some 12%Q; Some 8%Q; Some 11%Q]
      [None; None; None; None; None; Some 9%Q] in
  Signals.aligned data indicators
  /\ exists results,
       Signals.run_all_strategies Signals.default_engine data indicators "000001"
       = Some results
       /\ In "ma5_bottom_turn" (map Signals.signal_name results).
Proof.
  cbv zeta.
  assert (Hal : Signals.aligned
    (Fixtures.bars [Some 12%Q; Some 12%Q; Some 12%Q; Some 12%Q; Some 12%Q; Some 12%Q])
    (Fixtures.ma_frame 5
       [Some 10%Q; Some 10%Q; Some 10%Q; Some 12%Q; Some 8%Q; Some 11%Q]
       [None; None; None; None; None; Some 9%Q])) by solve_aligned.
  split; [exact Hal |].
  destruct (ma_turning_point_rule Signals.default_engine _ _ "000001" 5%nat "bottom" Hal)
    as (results & Hrun & Hiff); [simpl; tauto | simpl; tauto |].
  exists results. split; [exact Hrun |].
  apply Hiff.
  exists [Some 12%Q; Some 12%Q; Some 12%Q; Some 12%Q; Some 12%Q; Some 12%Q],
         [None; None; None; None; None; Some 9%Q], 12%Q, 9%Q,
         [Some 10%Q; Some 10%Q; Some 10%Q; Some 12%Q; Some 8%Q; Some 11%Q],
         [10%Q; 10%Q; 10%Q], 12%Q, 8%Q, 11%Q.
  repeat (split; [reflexivity |]).
  left. repeat split; reflexivity.
Defined.

(** [macd_cross_rule] on three bars whose MACD - Signal difference ends
    -0.1, +0.1: one golden cross, at index 2. *)
Lemma macd_cross_rule_witness :
  let data := Fixtures.bars [Some 10%Q; Some 10%Q; Some 10%Q] in
  let indicators :=
    Fixtures.macd_frame [Some 0%Q; Some (-0.1)%Q; Some 0.1%Q]
      [Some 0%Q; Some 0%Q; Some 0%Q] in
  Signals.aligned data indicators
  /\ exists results,
       Signals.run_all_strategies Signals.default_engine data indicators "000001"
       = Some results
       /\ Signals.count_name "macd_golden_cross" results = 1%nat
       /\ In ("000001", "macd_golden_cross", 2, 0.8%Q) results
       /\ Signals.count_name "macd_death_cross" results = 0%nat.
Proof.
  cbv zeta.
  assert (Hal : Signals.aligned
    (Fixtures.bars [Some 10%Q; Some 10%Q; Some 10%Q])
    (Fixtures.macd_frame [Some 0%Q; Some (-0.1)%Q; Some 0.1%Q]
       [Some 0%Q; Some 0%Q; Some 0%Q])) by solve_aligned.
  split; [exact Hal |].
  destruct (macd_cross_rule Signals.default_engine _ _ "000001"
              [Some 0%Q] [Some 0%Q] (-0.1)%Q 0.1%Q 0%Q 0%Q Hal)
    as (results & Hrun & Hrule); [reflexivity | reflexivity | simpl; lia |].
  exists results. split; [exact Hrun |].
  cbv zeta in Hrule. destruct Hrule as [Hgolden _].
  apply Hgolden; [discriminate | reflexivity].
Defined.

(** C7: [run_all_strategies] never calls [detect_ma_alignment]. With
    MA5 = 3 > MA10 = 2 > MA20 = 1 at the last bar, [detect_ma_alignment]
    reports [ma_multi_bull] at index 0, and the evaluation appends
    nothing. *)
Theorem run_all_strategies_skips_alignment :
  Signals.detect_ma_alignment Signals.default_engine
    (Fixtures.alignment_frame [Some 3%Q] [Some 2%Q] [Some 1%Q])
  = Some (true, "ma_multi_bull", 0)
  /\ Signals.run_all_strategies Signals.default_engine (Fixtures.bars [Some 10%Q])
       (Fixtures.alignment_frame [Some 3%Q] [Some 2%Q] [Some 1%Q]) "000001"
     = Some [].
Proof. split; reflexivity. Qed.

(** * Further properties of the quote service *)
Section ServiceMore.
Import Py Num Client Quotes.

(** The primary's loop body inserts exactly [ak_quote] of the clean code. *)
Lemma ak_lookup_eq (df : list ak_row) (now : Z) (result : gmap string quote)
  (symbol : string) :
  ak_lookup df now result symbol
  = match ak_quote df now (split_dot_head symbol) with
    | Some q => <[split_dot_head symbol := q]> result
    | None => result
    end.
Proof.
  unfold ak_lookup, ak_quote.
  destruct (negb (String.length (split_dot_head symbol) =? 6)%nat
            || negb (isdigit (split_dot_head symbol))); [reflexivity |].
  destruct (find _ df) as [row |]; [| reflexivity].
  destruct (ak_latest_price row), (ak_change_pct row), (ak_turnover_rate row);
    reflexivity.
Qed.

Lemma ak_fold_lookup (df : list ak_row) (now : Z) (symbols : list string)
  (acc : gmap string quote) (code : string) :
  fold_left (ak_lookup df now) symbols acc !! code
  = match ak_quote df now code with
    | Some q =>
        if existsb (fun s => String.eqb (split_dot_head s) code) symbols
        then Some q else acc !! code
    | None => acc !! code
    end.
Proof.
  revert acc. induction symbols as [| s symbols IH]; intros acc; simpl.
  - destruct (ak_quote df now code); reflexivity.
  - rewrite IH, ak_lookup_eq.
    destruct (String.eqb_spec (split_dot_head s) code) as [-> | Hne]; simpl.
    + destruct (ak_quote df now code) as [q |]; [| reflexivity].
      rewrite lookup_insert_eq. now destruct (existsb _ symbols).
    + destruct (ak_quote df now code) as [q |];
        destruct (ak_quote df now (split_dot_head s)) as [q' |];
        try reflexivity; rewrite lookup_insert_ne by assumption; reflexivity.
Qed.

Lemma requested_existsb (symbols : list string) (code : string) :
  existsb (fun s => String.eqb (split_dot_head s) code) symbols = true
  <-> requested symbols code.
Proof.
  unfold requested. rewrite existsb_exists. split.
  - intros (s & Hin & Heq). apply String.eqb_eq in Heq. eauto.
  - intros (s & Hin & Heq). exists s. split; [exact Hin |]. now apply String.eqb_eq.
Qed.

(** The primary's result, code by code: a code is served exactly when it is
    requested, is six digits long and the first row of the snapshot that
    carries it converts; a row that does not convert only drops its own
    code. When no snapshot is obtained nothing is served. *)
Theorem akshare_result_lookup (w : world) (symbols : list string) (code : string)
  (q : quote) :
  _get_realtime_data_from_akshare w symbols !! code = Some q
  <-> exists df, ak_frame (ak w) = Some df /\ requested symbols code
                 /\ ak_quote df (clock w) code = Some q.
Proof.
  unfold _get_realtime_data_from_akshare.
  destruct (ak_frame (ak w)) as [df |].
  - rewrite ak_fold_lookup, lookup_empty. split.
    + destruct (ak_quote df (clock w) code) as [q' |] eqn:Hq; [| discriminate].
      destruct (existsb _ symbols) eqn:He; [| discriminate].
      intros H. injection H as ->. exists df. apply requested_existsb in He. auto.
    + intros (df' & [= <-] & Hreq & Hq). rewrite Hq.
      apply requested_existsb in Hreq. now rewrite Hreq.
  - rewrite lookup_empty. split; [discriminate |].
    intros (df & Hdf & _). discriminate.
Qed.

(** What the cache scan puts in the result and in the needs-fetch batch. *)
Lemma scan_cache_inv (self : MyQuantClient) (now : Z) (force : bool)
  (symbols : list string) :
  (forall code q, (scan_cache self now force symbols).1 !! code = Some q ->
     requested symbols code /\ cache_hit self now code = Some q)
  /\ (forall s, In s (scan_cache self now force symbols).2 -> In s symbols).
Proof.
  unfold scan_cache.
  apply (fold_left_preserves (scan_step self now force)
    (fun acc =>
       (forall code q, acc.1 !! code = Some q ->
          requested symbols code /\ cache_hit self now code = Some q)
       /\ (forall s, In s acc.2 -> In s symbols))).
  - split; [intros code q H; simpl in H; rewrite lookup_empty in H; discriminate
           | intros s []].
  - intros acc s Hin [H1 H2]. unfold scan_step. rewrite clean_code_eq.
    destruct force; simpl.
    + split; [exact H1 |]. intros x Hx. apply in_app_or in Hx as [Hx | [<- | []]]; auto.
    + destruct (cache_hit self now (split_dot_head s)) as [q0 |] eqn:Hhit; simpl.
      * split; [| exact H2]. intros code q. rewrite lookup_insert.
        case_decide as Heq; [| apply H1].
        intros [= <-]. subst code. split; [exists s; auto | exact Hhit].
      * split; [exact H1 |].
        intros x Hx. apply in_app_or in Hx as [Hx | [<- | []]]; auto.
Qed.

(** The provider chain only fetches requested codes. *)
Lemma provider_chain_keys (w : world) (self : MyQuantClient) (need : list string)
  (code : string) (q : quote) :
  (provider_chain w self need).1.1 !! code = Some q -> requested need code.
Proof.
  unfold provider_chain, primary_stage, fallback_stage.
  destruct (AKSHARE_AVAILABLE w); simpl.
  - destruct (is_empty (_get_realtime_data_from_akshare w need)) eqn:He; simpl.
    + destruct (is_connected w self); simpl.
      * intros H. apply myquant_result_inv in H as (_ & _ & _ & Hreq & _). exact Hreq.
      * intros H. apply akshare_result_lookup in H as (_ & _ & Hreq & _). exact Hreq.
    + intros H. apply akshare_result_lookup in H as (_ & _ & Hreq & _). exact Hreq.
  - rewrite (proj2 (is_empty_true (∅ : gmap string quote)) eq_refl).
    destruct (is_connected w self); simpl.
    + intros H. apply myquant_result_inv in H as (_ & _ & _ & Hreq & _). exact Hreq.
    + rewrite lookup_empty. discriminate.
Qed.

Lemma fetch_needed_keys (w : world) (self : MyQuantClient) (need : list string)
  (code : string) (q : quote) :
  (fetch_needed w self need).1.1 !! code = Some q -> requested need code.
Proof.
  unfold fetch_needed. destruct need as [| n0 need].
  - simpl. rewrite lookup_empty. discriminate.
  - apply provider_chain_keys.
Qed.

Lemma requested_mono (l1 l2 : list string) (code : string) :
  (forall s, In s l1 -> In s l2) -> requested l1 code -> requested l2 code.
Proof. intros Hsub (s & Hin & Heq). exists s. auto. Qed.

(** The returned dict only has requested codes as keys. *)
Theorem result_keys_are_requested (w : world) (self : MyQuantClient) (t : Z)
  (symbols : list string) (force : bool) (code : string) (q : quote) :
  (get_realtime_data w self t symbols force).1.1 !! code = Some q ->
  requested symbols code.
Proof.
  destruct (get_realtime_data w self t symbols force) as [[result self'] calls] eqn:Hcall.
  simpl. intros Hq.
  destruct symbols as [| s0 rest].
  { simpl in Hcall. injection Hcall as <- <- <-. rewrite lookup_empty in Hq. discriminate. }
  assert (Hne : s0 :: rest <> []) by discriminate.
  destruct (get_realtime_data_spec _ _ _ _ _ _ _ _ Hne Hcall) as (_ & Hres & _).
  cbv zeta in Hres. rewrite Hres in Hq.
  destruct (scan_cache_inv self t force (s0 :: rest)) as [Hscan Hneed].
  destruct ((fetch_needed w self (scan_cache self t force (s0 :: rest)).2).1.1 !! code)
    as [d |] eqn:Hf.
  - apply fetch_needed_keys in Hf. exact (requested_mono _ _ _ Hneed Hf).
  - exact (proj1 (Hscan _ _ Hq)).
Qed.

(** [result_keys_are_requested] on a request for 000001.SZ and 600000 that
    the primary answers for 000001. *)
Lemma result_keys_are_requested_witness :
  let call :=
    get_realtime_data Fixtures.world_primary Fixtures.connected_client 0
      ["000001.SZ"; "600000"] false in
  is_Some (call.1.1 !! "000001") /\ requested ["000001.SZ"; "600000"] "000001".
Proof.
  cbv zeta.
  assert (H : exists q,
    (get_realtime_data Fixtures.world_primary Fixtures.connected_client 0
       ["000001.SZ"; "600000"] false).1.1 !! "000001" = Some q)
    by (vm_compute; eexists; reflexivity).
  destruct H as [q Hq]. split; [rewrite Hq; eauto |].
  exact (result_keys_are_requested _ _ _ _ _ _ _ Hq).
Defined.

(** A call never drops a cache entry, and it leaves the entries of codes
    that were not requested exactly as they were. *)
Theorem cache_entries_are_kept (w : world) (self : MyQuantClient) (t : Z)
  (symbols : list string) (force : bool) (code : string) :
  let self' := (get_realtime_data w self t symbols force).1.2 in
  (is_Some (data_cache self !! code) -> is_Some (data_cache self' !! code))
  /\ (is_Some (cache_time self !! code) -> is_Some (cache_time self' !! code))
  /\ (~ requested symbols code ->
      data_cache self' !! code = data_cache self !! code
      /\ cache_time self' !! code = cache_time self !! code).
Proof.
  cbv zeta.
  destruct (get_realtime_data w self t symbols force) as [[result self'] calls] eqn:Hcall.
  simpl.
  destruct symbols as [| s0 rest].
  { simpl in Hcall. injection Hcall as <- <- <-. auto. }
  assert (Hne : s0 :: rest <> []) by discriminate.
  destruct (get_realtime_data_spec _ _ _ _ _ _ _ _ Hne Hcall) as (_ & _ & Hd & Ht & _).
  cbv zeta in Hd, Ht. rewrite Hd, Ht.
  destruct (scan_cache_inv self t force (s0 :: rest)) as [_ Hneed].
  destruct ((fetch_needed w self (scan_cache self t force (s0 :: rest)).2).1.1 !! code)
    as [d |] eqn:Hf.
  - split; [eauto |]. split; [eauto |].
    intros Hnot. exfalso. apply Hnot.
    apply fetch_needed_keys in Hf. exact (requested_mono _ _ _ Hneed Hf).
  - auto.
Qed.

(** A call keeps the two cache dicts on the same codes, and keeps every
    cached quote tagged with its source. *)
Theorem cache_invariants_are_kept (w : world) (self : MyQuantClient) (t : Z)
  (symbols : list string) (force : bool) :
  cache_consistent self -> cache_tagged self ->
  let out := get_realtime_data w self t symbols force in
  cache_consistent out.1.2 /\ cache_tagged out.1.2
  /\ (forall code q, out.1.1 !! code = Some q -> is_Some (source_tag q)).
Proof.
  intros Hcons Htag. cbv zeta.
  destruct (get_realtime_data w self t symbols force) as [[result self'] calls] eqn:Hcall.
  simpl.
  destruct symbols as [| s0 rest].
  { simpl in Hcall. injection Hcall as <- <- <-.
    split; [exact Hcons |]. split; [exact Htag |].
    intros code q H. rewrite lookup_empty in H. discriminate. }
  assert (Hne : s0 :: rest <> []) by discriminate.
  destruct (get_realtime_data_spec _ _ _ _ _ _ _ _ Hne Hcall) as (_ & Hres & Hd & Ht & _).
  cbv zeta in Hres, Hd, Ht.
  set (fetched := (fetch_needed w self (scan_cache self t force (s0 :: rest)).2).1.1) in *.
  split; [| split].
  - intros code. rewrite Hd, Ht. destruct (fetched !! code); [| apply Hcons].
    split; eauto.
  - intros code q. rewrite Hd. destruct (fetched !! code) as [d |].
    + intros [= <-]. simpl. eauto.
    + apply Htag.
  - intros code q. rewrite Hres. destruct (fetched !! code) as [d |].
    + intros [= <-]. simpl. eauto.
    + intros Hq. apply scan_cache_inv in Hq as [_ Hhit].
      unfold cache_hit in Hhit.
      destruct (data_cache self !! code) as [q0 |] eqn:Hq0; [| discriminate].
      destruct (cache_time self !! code) as [t0 |]; [| discriminate].
      destruct (t - t0 <? cache_expiry self * 1000000); [| discriminate].
      injection Hhit as <-. exact (Htag _ _ Hq0).
Qed.

(** [cache_invariants_are_kept] on a first call with empty caches: the
    fetched quote of 000001 is cached with its fetch time and its tag. *)
Lemma cache_invariants_are_kept_witness :
  let out := get_realtime_data Fixtures.world_primary Client.init 0 ["000001"] false in
  cache_consistent out.1.2 /\ cache_tagged out.1.2
  /\ is_Some (data_cache out.1.2 !! "000001")
  /\ is_Some (cache_time out.1.2 !! "000001").
Proof.
  cbv zeta.
  assert (Hc : cache_consistent Client.init).
  { intros code. simpl. rewrite !lookup_empty. split; intros [x Hx]; discriminate. }
  assert (Ht : cache_tagged Client.init).
  { intros code q H. simpl in H. rewrite lookup_empty in H. discriminate. }
  destruct (cache_invariants_are_kept Fixtures.world_primary Client.init 0 ["000001"]
              false Hc Ht) as (H1 & H2 & _).
  split; [exact H1 |]. split; [exact H2 |].
  split; vm_compute; eauto.
Defined.

End ServiceMore.

Section ServiceStale.
Import Py Num Client Quotes.

(** When no requested code has a fresh entry, the scan sends every symbol
    to the providers. *)
Lemma scan_cache_all_miss (self : MyQuantClient) (now : Z) (symbols : list string) :
  (forall s, In s symbols -> cache_hit self now (split_dot_head s) = None) ->
  scan_cache self now false symbols = (∅, symbols).
Proof.
  unfold scan_cache.
  assert (H : forall l r n,
    (forall s, In s l -> cache_hit self now (split_dot_head s) = None) ->
    fold_left (scan_step self now false) l (r, n) = (r, n ++ l)).
  { induction l as [| x l IH]; intros r n Hmiss; cbn [fold_left].
    - now rewrite app_nil_r.
    - assert (Hx : scan_step self now false (r, n) x = (r, n ++ [x])).
      { unfold scan_step. rewrite clean_code_eq. simpl.
        now rewrite (Hmiss x (or_introl eq_refl)). }
      rewrite Hx, IH by (intros s Hs; apply Hmiss; now right).
      now rewrite <- app_assoc. }
  intros Hmiss. now apply H.
Qed.

(** An entry is not served from the cache exactly when it is missing from
    one of the two dicts or is [cache_expiry] seconds old or older. *)
Lemma cache_hit_None (self : MyQuantClient) (now : Z) (code : string) :
  cache_hit self now code = None
  <-> data_cache self !! code = None
      \/ cache_time self !! code = None
      \/ exists t0, cache_time self !! code = Some t0
                    /\ cache_expiry self * 1000000 <= now - t0.
Proof.
  unfold cache_hit.
  destruct (data_cache self !! code) as [q |]; [| intuition].
  destruct (cache_time self !! code) as [t0 |]; [| intuition].
  destruct (Z.ltb_spec (now - t0) (cache_expiry self * 1000000)) as [Hlt | Hge].
  - split; [discriminate |].
    intros [H | [H | (t' & H & Hage)]]; try discriminate.
    injection H as <-. lia.
  - split; [| reflexivity]. intros _. right. right. eauto.
Qed.

(** A call without [force_refresh] whose requested codes are all missing
    from the cache or at least [cache_expiry] seconds old (exactly that old
    included) does what a forced call does: same result, same cache
    afterwards, same provider calls. *)
Theorem stale_entries_are_refetched (w : world) (self : MyQuantClient) (t : Z)
  (symbols : list string) :
  (forall s, In s symbols ->
     data_cache self !! split_dot_head s = None
     \/ cache_time self !! split_dot_head s = None
     \/ exists t0, cache_time self !! split_dot_head s = Some t0
                   /\ cache_expiry self * 1000000 <= t - t0) ->
  get_realtime_data w self t symbols false = get_realtime_data w self t symbols true.
Proof.
  intros Hstale. unfold get_realtime_data.
  rewrite scan_cache_force, scan_cache_all_miss; [reflexivity |].
  intros s Hs. apply cache_hit_None. now apply Hstale.
Qed.

(** [stale_entries_are_refetched] on an entry fetched at instant 0 and read
    again exactly five seconds later. *)
Lemma stale_entries_are_refetched_witness :
  let first :=
    get_realtime_data Fixtures.world_primary Client.init 0 ["000001"] false in
  cache_time first.1.2 !! "000001" = Some 0
  /\ get_realtime_data Fixtures.world_primary first.1.2 5000000 ["000001"] false
     = get_realtime_data Fixtures.world_primary first.1.2 5000000 ["000001"] true.
Proof.
  cbv zeta.
  assert (Ht : cache_time (get_realtime_data Fixtures.world_primary Client.init 0
                             ["000001"] false).1.2 !! "000001" = Some 0)
    by (vm_compute; reflexivity).
  assert (He : cache_expiry (get_realtime_data Fixtures.world_primary Client.init 0
                               ["000001"] false).1.2 = 5)
    by (vm_compute; reflexivity).
  split; [exact Ht |].
  apply stale_entries_are_refetched.
  intros s [<- | []]. right. right. exists 0.
  split; [exact Ht | rewrite He; lia].
Defined.

(** After [clear_cache] the next call fetches every requested symbol,
    whatever its [force_refresh] flag. *)
Theorem clear_cache_forces_refetch (w : world) (self : MyQuantClient) (t : Z)
  (symbols : list string) (force : bool) :
  get_realtime_data w (clear_cache self) t symbols force
  = get_realtime_data w (clear_cache self) t symbols true
  /\ cache_consistent (clear_cache self) /\ cache_tagged (clear_cache self).
Proof.
  split; [| split].
  - destruct force; [reflexivity |].
    apply stale_entries_are_refetched. intros s _. left. apply lookup_empty.
  - intros code. simpl. rewrite !lookup_empty. split; intros [x Hx]; discriminate.
  - intros code q H. simpl in H. rewrite lookup_empty in H. discriminate.
Qed.

(** Once a code is in the fallback's result it stays there. *)
Lemma process_tick_keeps (g : gm_api) (now : Z) (code_map : gmap string string)
  (rows : list tick) (acc : gmap string quote) (code : string) :
  is_Some (acc !! code) ->
  is_Some (fold_left (process_tick g now code_map) rows acc !! code).
Proof.
  intros H.
  apply (fold_left_preserves _ (fun r => is_Some (r !! code))); [exact H |].
  intros r data _ Hr. unfold process_tick.
  destruct (code_map !! default "" (tk_symbol data)) as [c |]; [| exact Hr].
  destruct (String.eqb c ""); [exact Hr |].
  rewrite lookup_insert. case_decide; [eauto | exact Hr].
Qed.

(** The fallback serves every requested code for which [gm.current]
    returned a row: when the gateway is connected and the vendor call
    returns, a row carrying the qualified symbol of a requested clean code
    puts that code in the result. *)
Theorem fallback_serves_returned_rows (w : world) (self : MyQuantClient)
  (symbols : list string) (symbol gm_symbol : string) (rows : list tick) (data : tick) :
  is_connected w self = true ->
  In symbol symbols ->
  gm_symbol_of (split_dot_head symbol) = Some gm_symbol ->
  current (gm w) (convert_symbols symbols).1 = Ok rows ->
  In data rows ->
  tk_symbol data = Some gm_symbol ->
  is_Some (_get_realtime_data_from_myquant w self symbols !! split_dot_head symbol).
Proof.
  intros Hconn Hin Hg Hcur Hrow Hsym.
  destruct (convert_symbols_member symbols symbol gm_symbol Hin Hg) as [Hsent Hmap].
  unfold _get_realtime_data_from_myquant. rewrite Hconn. simpl.
  destruct symbols as [| s0 rest]; [destruct Hin |].
  destruct (convert_symbols (s0 :: rest)) as [gm_symbols code_map] eqn:Hconv.
  simpl in Hsent, Hmap, Hcur.
  destruct gm_symbols as [| g0 gs]; [destruct Hsent |].
  rewrite Hcur.
  assert (Hcode : split_dot_head symbol <> "").
  { apply gm_symbol_of_Some in Hg as (Hlen & _). intros E. rewrite E in Hlen. discriminate. }
  assert (Hgen : forall l acc, In data l ->
            is_Some (fold_left (process_tick (gm w) (clock w) code_map) l acc
                     !! split_dot_head symbol)).
  { induction l as [| x l IH]; intros acc Hl; [destruct Hl |].
    destruct Hl as [-> | Hl]; simpl.
    - apply process_tick_keeps. unfold process_tick. rewrite Hsym. simpl. rewrite Hmap.
      apply String.eqb_neq in Hcode. rewrite Hcode.
      rewrite lookup_insert_eq. eauto.
    - now apply IH. }
  now apply Hgen.
Qed.

(** [fallback_serves_returned_rows] on a gateway that quotes 000001. *)
Lemma fallback_serves_returned_rows_witness :
  is_Some (_get_realtime_data_from_myquant (Fixtures.world_fallback 11%Q)
             Fixtures.connected_client ["000001.SZ"] !! "000001").
Proof.
  apply (fallback_serves_returned_rows (Fixtures.world_fallback 11%Q)
           Fixtures.connected_client ["000001.SZ"] "000001.SZ" "SZSE.000001"
           [ {| tk_symbol := Some "SZSE.000001"; tk_price := Some 11%Q;
                tk_cum_volume := Some 0%Q |} ]
           {| tk_symbol := Some "SZSE.000001"; tk_price := Some 11%Q;
              tk_cum_volume := Some 0%Q |}).
  - reflexivity.
  - now left.
  - reflexivity.
  - reflexivity.
  - now left.
  - reflexivity.
Defined.

End ServiceStale.

(** * Further properties of the bounded runner and of [connect] *)
Section GatewayMore.
Import Runner Client Gateway.


(** The worker thread sets [connection_success] as its last act. *)
Lemma success_is_last (gm : gm_module) (tok acct : string) (t : Z) :
  success_at (connect_worker gm tok acct) = Some t ->
  finished_at (connect_worker gm tok acct) = t.
Proof.
  unfold connect_worker.
  destruct (test_api_call_timed (set_token gm tok) 1000) as [[s1 p1] d1].
  destruct s1; simpl; [| discriminate].
  destruct (test_api_call_timed (current gm ["SZSE.000001"]) 3000) as [r3 d3].
  destruct (quote_probe_ok r3) as [[|] |]; simpl; try discriminate.
  - now intros [= <-].
  - destruct (test_api_call_timed (get_cash gm) 2000) as [[s4 p4] d4].
    destruct s4; simpl; [now intros [= <-] | discriminate].
Qed.

(** The probe sequence ends within the sum of its step timeouts, seven
    seconds, and [connect] stops waiting for it after five. *)
Theorem connect_worker_is_bounded (gm : gm_module) (tok acct : string) :
  finished_at (connect_worker gm tok acct) <= 7000
  /\ join_returns_at (connect_worker gm tok acct) <= 5000.
Proof.
  split; [| unfold join_returns_at; lia].
  unfold connect_worker.
  pose proof (test_api_call_bounded_wait (set_token gm tok) 1000) as H1.
  pose proof (test_api_call_bounded_wait (set_account_id gm acct) 1000) as H2.
  pose proof (test_api_call_bounded_wait (current gm ["SZSE.000001"]) 3000) as H3.
  pose proof (test_api_call_bounded_wait (get_cash gm) 2000) as H4.
  destruct (test_api_call_timed (set_token gm tok) 1000) as [[s1 p1] d1].
  destruct s1; simpl in *; [| lia].
  destruct (test_api_call_timed (current gm ["SZSE.000001"]) 3000) as [r3 d3].
  destruct (test_api_call_timed (get_cash gm) 2000) as [[s4 p4] d4].
  simpl in *.
  destruct (negb (String.eqb acct "")), (quote_probe_ok r3) as [[|] |], s4;
    simpl; lia.
Qed.

(** [connect] returns [True] exactly when the SDK is available and the
    worker set [connection_success] within the five seconds of the join;
    the signal then came from the quote step or the cash step, and the
    client is marked connected with the credentials used. A success signal
    that comes later than five seconds is lost: [connect] returns [False]
    and reports the timeout. *)
Theorem connect_succeeds_iff (avail : bool) (gm : gm_module) (config : Config)
  (self : MyQuantClient) :
  let tok := or_default (myquant_token config) default_token in
  let acct := or_default (myquant_account_id config) default_account_id in
  let run := connect_worker gm tok acct in
  let out := connect avail gm config self in
  (out.1.1 = true <->
     avail = true /\ exists t, success_at run = Some t /\ t <= 5000)
  /\ (out.1.1 = true ->
        (quote_step_succeeds gm \/ cash_step_succeeds gm)
        /\ out.2 = ConnectedOk
        /\ is_connected avail out.1.2 = true
        /\ token out.1.2 = Some tok /\ account_id out.1.2 = Some acct)
  /\ (avail = true -> (exists t, success_at run = Some t /\ 5000 < t) ->
        out.1.1 = false /\ out.2 = TimedOut /\ connected out.1.2 = false).
Proof.
  cbv zeta.
  set (tok := or_default (myquant_token config) default_token).
  set (acct := or_default (myquant_account_id config) default_account_id).
  assert (Hset : connection_success_is_set (connect_worker gm tok acct) = true
                 <-> exists t, success_at (connect_worker gm tok acct) = Some t
                               /\ t <= 5000).
  { unfold connection_success_is_set, join_returns_at.
    destruct (success_at (connect_worker gm tok acct)) as [t |] eqn:Hs.
    - rewrite (success_is_last _ _ _ _ Hs). rewrite Z.leb_le. split.
      + intros H. exists t. split; [reflexivity | lia].
      + intros (t' & [= <-] & Hle). lia.
    - split; [discriminate | intros (t' & H & _); discriminate]. }
  assert (Hiff : (connect avail gm config self).1.1 = true
                 <-> avail = true
                     /\ connection_success_is_set (connect_worker gm tok acct) = true).
  { unfold connect. fold tok acct. destruct avail; simpl; [| intuition discriminate].
    destruct (connection_success_is_set (connect_worker gm tok acct)); simpl;
      [intuition |].
    destruct (timeout_occurred_is_set (connect_worker gm tok acct)); simpl;
      intuition discriminate. }
  split; [| split].
  - rewrite Hiff, Hset. reflexivity.
  - intros Htrue. apply Hiff in Htrue as [-> Hs].
    destruct (proj1 Hset Hs) as (t & Hsucc & _).
    unfold connect. fold tok acct. simpl. rewrite Hs. simpl.
    split; [| auto].
    clear Hs. rename Hsucc into Hs.
    destruct (decide (quote_probe_ok (test_api_call (current gm ["SZSE.000001"]) 3000)
                      = Some true)) as [Hq | Hq]; [left; exact Hq |].
    destruct (bool_decide (fst (test_api_call (get_cash gm) 2000) = true)) eqn:Hc.
    + right. now apply bool_decide_eq_true in Hc.
    + apply bool_decide_eq_false in Hc.
      rewrite (worker_sets_no_success gm tok acct Hq Hc) in Hs. discriminate.
  - intros -> (t & Hs & Hlate).
    assert (Hnot : connection_success_is_set (connect_worker gm tok acct) = false).
    { apply not_true_is_false. intros E.
      apply Hset in E as (t' & Hs' & Hle). rewrite Hs in Hs'. injection Hs' as <-. lia. }
    assert (Htime : timeout_occurred_is_set (connect_worker gm tok acct) = true).
    { unfold timeout_occurred_is_set, join_returns_at.
      rewrite (success_is_last _ _ _ _ Hs). apply Z.leb_le. lia. }
    unfold connect. fold tok acct. simpl. rewrite Hnot, Htime. simpl. auto.
Qed.

End GatewayMore.

(** * Further properties of the signal engine *)
Section SignalMore.
Import Py Num Signals Examples.

(** A returned evaluation, taken apart. *)
Lemma run_all_strategies_inv (self : SignalEngine) (data indicators : frame)
  (symbol : string) (results : list signal) :
  run_all_strategies self data indicators symbol = Some results ->
  (data !! "Close" = None /\ results = [])
  \/ exists close bull bear r2 r3,
       data !! "Close" = Some close
       /\ main_trend fgt close (indicators !! "MA60") = Some bull
       /\ main_trend flt close (indicators !! "MA60") = Some bear
       /\ _detect_macd_signals self indicators symbol = Some r2
       /\ _detect_rsi_signals self indicators symbol = Some r3
       /\ results = _detect_ma_signals self indicators bull bear symbol ++ r2 ++ r3.
Proof.
  unfold run_all_strategies.
  destruct (data !! "Close") as [close |]; [| intros [= <-]; now left].
  destruct (main_trend fgt close (indicators !! "MA60")) as [bull |] eqn:Hb;
    bind_step; [| discriminate].
  destruct (main_trend flt close (indicators !! "MA60")) as [bear |] eqn:Hr;
    bind_step; [| discriminate].
  destruct (_detect_macd_signals self indicators symbol) as [r2 |] eqn:H2;
    bind_step; [| discriminate].
  destruct (_detect_rsi_signals self indicators symbol) as [r3 |] eqn:H3;
    bind_step; [| discriminate].
  intros H. injection H as <-. right. exists close, bull, bear, r2, r3. auto 10.
Qed.

(** The two trend flags never hold together. *)
Lemma trend_flags_exclusive (close : series) (ma60 : option series) :
  main_trend fgt close ma60 = Some true -> main_trend flt close ma60 = Some true ->
  False.
Proof.
  intros H1 H2.
  apply main_trend_true in H1 as (m & c & x & Hm & Hc & Hx & Hcmp).
  apply main_trend_true in H2 as (m' & c' & x' & Hm' & Hc' & Hx' & Hcmp').
  rewrite Hm in Hm'. injection Hm' as <-.
  rewrite Hc in Hc'. injection Hc' as <-. rewrite Hx in Hx'. injection Hx' as <-.
  apply fgt_true in Hcmp as (a & b & -> & -> & Hlt).
  unfold flt in Hcmp'. apply fgt_true in Hcmp' as (a' & b' & Ha & Hb & Hlt').
  injection Ha as <-. injection Hb as <-.
  exact (Qlt_irrefl _ (Qlt_trans _ _ _ Hlt Hlt')).
Qed.

Lemma turn_name_emitted (p : nat) (d : string) :
  In p ma_periods -> In d ["bottom"; "top"] -> In (turn_name p d) emitted_names.
Proof.
  intros Hp Hd. simpl in Hp, Hd.
  repeat (destruct Hp as [<- | Hp]); try destruct Hp;
    repeat (destruct Hd as [<- | Hd]); try destruct Hd;
    vm_compute; tauto.
Qed.

(** Every signal the detectors append carries the symbol it was given, one
    of the twelve names above and the score of that name in [label_map]. *)
Lemma ma_signal_fields (self : SignalEngine) (indicators : frame) (bull bear : bool)
  (symbol : string) (sg : signal) :
  In sg (_detect_ma_signals self indicators bull bear symbol) ->
  sg.1.1.1 = symbol /\ In (signal_name sg) emitted_names
  /\ sg.2 = score_of (signal_name sg).
Proof.
  unfold _detect_ma_signals. rewrite in_flat_map.
  intros (period & Hp & Hin). unfold ma_period_signals in Hin.
  destruct (indicators !! ma_col period) as [col |]; [| destruct Hin].
  destruct (6 <=? length (dropna col))%nat; [| destruct Hin].
  apply in_flat_map in Hin as (direction & Hd & Hin).
  unfold ma_direction_signals in Hin.
  destruct (gate direction bull bear); [| destruct Hin].
  destruct (detect_ma_turning_point self (dropna col) direction) as [[|] idx];
    [| destruct Hin].
  destruct Hin as [<- | []]. unfold signal_name. simpl.
  split; [reflexivity |]. split; [now apply turn_name_emitted | reflexivity].
Qed.

Lemma macd_signal_fields (self : SignalEngine) (indicators : frame) (symbol : string)
  (r : list signal) (sg : signal) :
  _detect_macd_signals self indicators symbol = Some r -> In sg r ->
  sg.1.1.1 = symbol /\ In (signal_name sg) emitted_names
  /\ sg.2 = score_of (signal_name sg).
Proof.
  unfold _detect_macd_signals.
  destruct (indicators !! "MACD") as [macd |]; [| intros [= <-] []].
  destruct (indicators !! "MACD_Signal") as [sig |]; [| intros [= <-] []].
  destruct (length macd <? 3)%nat; [intros [= <-] [] |].
  destruct (neg1 macd) as [m1 |]; bind_step; [| discriminate].
  destruct (neg1 sig) as [s1 |]; bind_step; [| discriminate].
  destruct (neg2 macd) as [m2 |]; bind_step; [| discriminate].
  destruct (neg2 sig) as [s2 |]; bind_step; [| discriminate].
  destruct (fle (fsub m2 s2) (Some 0%Q) && fgt (fsub m1 s1) (Some 0%Q)).
  - intros [= <-] [<- | []]. unfold signal_name, emitted_names. simpl. tauto.
  - destruct (fge (fsub m2 s2) (Some 0%Q) && flt (fsub m1 s1) (Some 0%Q));
      intros [= <-] H; [| destruct H].
    destruct H as [<- | []]. unfold signal_name, emitted_names. simpl. tauto.
Qed.

Lemma rsi_signal_fields (self : SignalEngine) (indicators : frame) (symbol : string)
  (r : list signal) (sg : signal) :
  _detect_rsi_signals self indicators symbol = Some r -> In sg r ->
  sg.1.1.1 = symbol /\ In (signal_name sg) emitted_names
  /\ sg.2 = score_of (signal_name sg).
Proof.
  unfold _detect_rsi_signals.
  destruct (indicators !! "RSI") as [rsi |]; [| intros [= <-] []].
  destruct (length rsi <? 3)%nat; [intros [= <-] [] |].
  destruct (neg1 rsi) as [x |]; bind_step; [| discriminate].
  destruct (fgt x (Some 70%Q)).
  - intros [= <-] [<- | []]. unfold signal_name, emitted_names. simpl. tauto.
  - destruct (flt x (Some 30%Q)); intros [= <-] H; [| destruct H].
    destruct H as [<- | []]. unfold signal_name, emitted_names. simpl. tauto.
Qed.

(** The evaluation of the example frames. *)
Lemma demo_run :
  run_all_strategies default_engine demo_data demo_indicators "000001"
  = Some [("000001", "ma5_bottom_turn", 5, 0.6%Q); ("000001", "rsi_overbought", 5, 0.7%Q)].
Proof.
  vm_compute. reflexivity.
Qed.

(** The example frames are aligned. *)
Lemma demo_aligned : aligned demo_data demo_indicators.
Proof.
  solve_aligned.
Qed.

(** Every signal of a returned evaluation carries the evaluated symbol, one
    of twelve names (eight turning points, two MACD crosses, two RSI
    extremes) and that name's score from [label_map], which lies between
    0.6 and 0.9. No alignment, divergence, volume, support or resistance
    signal is ever given, although [label_map] lists them. *)
Theorem emitted_signals_are_well_formed (self : SignalEngine)
  (data indicators : frame) (symbol : string) (results : list signal) (sg : signal) :
  run_all_strategies self data indicators symbol = Some results ->
  In sg results ->
  sg.1.1.1 = symbol
  /\ In (signal_name sg) emitted_names
  /\ sg.2 = score_of (signal_name sg)
  /\ (0.6 <= sg.2)%Q /\ (sg.2 <= 0.9)%Q
  /\ ~ In (signal_name sg)
         ["ma_multi_bull"; "ma_multi_bear"; "macd_divergence_bull";
          "macd_divergence_bear"; "rsi_divergence_bull"; "rsi_divergence_bear";
          "volume_surge"; "volume_shrink"; "support_bounce"; "resistance_break"].
Proof.
  intros Hrun Hin.
  assert (Hf : sg.1.1.1 = symbol /\ In (signal_name sg) emitted_names
               /\ sg.2 = score_of (signal_name sg)).
  { apply run_all_strategies_inv in Hrun
      as [[_ ->] | (close & bull & bear & r2 & r3 & _ & _ & _ & H2 & H3 & ->)];
      [destruct Hin |].
    apply in_app_or in Hin as [Hin | Hin]; [now apply ma_signal_fields in Hin |].
    apply in_app_or in Hin as [Hin | Hin].
    - exact (macd_signal_fields _ _ _ _ _ H2 Hin).
    - exact (rsi_signal_fields _ _ _ _ _ H3 Hin). }
  destruct Hf as (Hsym & Hname & Hscore).
  split; [exact Hsym |]. split; [exact Hname |]. split; [exact Hscore |].
  rewrite Hscore. unfold emitted_names in Hname. simpl in Hname.
  repeat (destruct Hname as [<- | Hname]); try destruct Hname;
    (split; [vm_compute; discriminate |]);
    (split; [vm_compute; discriminate |]);
    simpl; intros H; repeat (destruct H as [H | H]; [discriminate H |]); exact H.
Qed.

(** [emitted_signals_are_well_formed] on the bottom turn of the example
    evaluation. *)
Lemma emitted_signals_are_well_formed_witness :
  exists results,
    run_all_strategies default_engine demo_data demo_indicators "000001" = Some results
    /\ In ("000001", "ma5_bottom_turn", 5, 0.6%Q) results
    /\ score_of "ma5_bottom_turn" = 0.6%Q
    /\ In "ma5_bottom_turn" emitted_names.
Proof.
  eexists. split; [exact demo_run |]. split; [now left |].
  destruct (emitted_signals_are_well_formed default_engine demo_data demo_indicators
              "000001" _ ("000001", "ma5_bottom_turn", 5, 0.6%Q) demo_run)
    as (_ & Hname & Hscore & _); [now left |].
  split; [symmetry; exact Hscore | exact Hname].
Defined.

(** A bottom turn and a top turn never occur in the same evaluation,
    whatever their windows: an evaluation that gives a bottom turn of one
    window gives no top turn of any window, because the two trend flags
    exclude each other. *)
Theorem bottom_and_top_never_together (self : SignalEngine)
  (data indicators : frame) (symbol : string) (results : list signal) (p : nat) :
  run_all_strategies self data indicators symbol = Some results ->
  In p ma_periods ->
  In (turn_name p "bottom") (map signal_name results) ->
  forall p', In p' ma_periods ->
    ~ In (turn_name p' "top") (map signal_name results).
Proof.
  intros Hrun Hp Hb p' Hp' Ht.
  apply run_all_strategies_inv in Hrun
    as [[_ ->] | (close & bull & bear & r2 & r3 & _ & Hbull & Hbear & H2 & H3 & ->)];
    [destruct Hb |].
  assert (Hma : forall q d, In q ma_periods -> In d ["bottom"; "top"] ->
            In (turn_name q d)
               (map signal_name
                  (_detect_ma_signals self indicators bull bear symbol ++ r2 ++ r3)) ->
            gate d bull bear = true).
  { intros q d Hq Hd Hin. rewrite map_app, in_app_iff in Hin.
    destruct Hin as [Hin | Hin].
    - apply (ma_signals_fire self indicators bull bear symbol q d Hq Hd) in Hin
        as (col & _ & Hg & _). exact Hg.
    - exfalso. apply in_map_iff in Hin as (sg & E & Hin).
      apply in_app_or in Hin as [Hin | Hin].
      + destruct (macd_signals_names _ _ _ _ H2 sg Hin) as [Hn | Hn];
          rewrite Hn in E; symmetry in E; revert E;
          apply turn_names_are_not; auto; simpl; tauto.
      + destruct (rsi_signals_total self indicators symbol) as (r3' & Hr3eq & Hnames).
        rewrite H3 in Hr3eq. injection Hr3eq as <-.
        destruct (Hnames sg Hin) as [Hn | Hn];
          rewrite Hn in E; symmetry in E; revert E;
          apply turn_names_are_not; auto; simpl; tauto. }
  pose proof (Hma p "bottom" Hp ltac:(simpl; tauto) Hb) as Hg1.
  pose proof (Hma p' "top" Hp' ltac:(simpl; tauto) Ht) as Hg2.
  unfold gate in Hg1, Hg2. simpl in Hg1, Hg2.
  assert (bull = true) by (destruct bull; [reflexivity | destruct bear; discriminate Hg1]).
  assert (bear = true) by (destruct bear; [reflexivity | destruct bull; discriminate Hg2]).
  subst. exact (trend_flags_exclusive _ _ Hbull Hbear).
Qed.

(** [bottom_and_top_never_together] on the example evaluation, which gives
    the bottom turn of MA5. *)
Lemma bottom_and_top_never_together_witness :
  exists results,
    run_all_strategies default_engine demo_data demo_indicators "000001" = Some results
    /\ In (turn_name 5 "bottom") (map signal_name results)
    /\ forall p', In p' ma_periods ->
         ~ In (turn_name p' "top") (map signal_name results).
Proof.
  eexists. split; [exact demo_run |]. split; [now left |].
  apply (bottom_and_top_never_together default_engine demo_data demo_indicators
           "000001" _ 5%nat demo_run).
  - now left.
  - now left.
Defined.

(** An evaluation gives at most six signals: at most one turn per window,
    one MACD cross and one RSI extreme. *)
Theorem at_most_six_signals (self : SignalEngine) (data indicators : frame)
  (symbol : string) (results : list signal) :
  run_all_strategies self data indicators symbol = Some results ->
  (length results <= 6)%nat.
Proof.
  intros Hrun.
  apply run_all_strategies_inv in Hrun
    as [[_ ->] | (close & bull & bear & r2 & r3 & _ & Hbull & Hbear & H2 & H3 & ->)];
    [simpl; lia |].
  assert (Hex : bull = false \/ bear = false).
  { destruct bull, bear; auto. exfalso. exact (trend_flags_exclusive _ _ Hbull Hbear). }
  assert (Hper : forall p,
            (length (ma_period_signals self indicators bull bear symbol p) <= 1)%nat).
  { intros p. unfold ma_period_signals.
    destruct (indicators !! ma_col p) as [col |]; [| simpl; lia].
    destruct (6 <=? length (dropna col))%nat; [| simpl; lia].
    simpl. rewrite app_nil_r, length_app. unfold ma_direction_signals, gate. simpl.
    destruct Hex as [-> | ->]; simpl;
      repeat match goal with
             | |- context [if ?b then _ else _] => destruct b; simpl
             | |- context [let '(_, _) := ?x in _] => destruct x as [[|] ?]; simpl
             end; lia. }
  assert (H1 : (length (_detect_ma_signals self indicators bull bear symbol) <= 4)%nat).
  { unfold _detect_ma_signals, ma_periods. simpl. rewrite !length_app. simpl.
    pose proof (Hper 5%nat). pose proof (Hper 10%nat).
    pose proof (Hper 20%nat). pose proof (Hper 60%nat). lia. }
  assert (H2' : (length r2 <= 1)%nat).
  { revert H2. unfold _detect_macd_signals.
    destruct (indicators !! "MACD") as [macd |]; [| intros [= <-]; simpl; lia].
    destruct (indicators !! "MACD_Signal") as [sig |]; [| intros [= <-]; simpl; lia].
    destruct (length macd <? 3)%nat; [intros [= <-]; simpl; lia |].
    destruct (neg1 macd) as [m1 |]; bind_step; [| discriminate].
    destruct (neg1 sig) as [s1 |]; bind_step; [| discriminate].
    destruct (neg2 macd) as [m2 |]; bind_step; [| discriminate].
    destruct (neg2 sig) as [s2 |]; bind_step; [| discriminate].
    destruct (fle (fsub m2 s2) (Some 0%Q) && fgt (fsub m1 s1) (Some 0%Q));
      [intros [= <-]; simpl; lia |].
    destruct (fge (fsub m2 s2) (Some 0%Q) && flt (fsub m1 s1) (Some 0%Q));
      intros [= <-]; simpl; lia. }
  assert (H3' : (length r3 <= 1)%nat).
  { revert H3. unfold _detect_rsi_signals.
    destruct (indicators !! "RSI") as [rsi |]; [| intros [= <-]; simpl; lia].
    destruct (length rsi <? 3)%nat; [intros [= <-]; simpl; lia |].
    destruct (neg1 rsi) as [x |]; bind_step; [| discriminate].
    destruct (fgt x (Some 70%Q)); [intros [= <-]; simpl; lia |].
    destruct (flt x (Some 30%Q)); intros [= <-]; simpl; lia. }
  rewrite !length_app. lia.
Qed.

(** [at_most_six_signals] on the example evaluation. *)
Lemma at_most_six_signals_witness :
  exists results,
    run_all_strategies default_engine demo_data demo_indicators "000001" = Some results
    /\ (length results <= 6)%nat.
Proof.
  eexists. split; [exact demo_run |].
  exact (at_most_six_signals default_engine demo_data demo_indicators "000001" _ demo_run).
Defined.

End SignalMore.

Section RsiAndAlignment.
Import Py Num Signals Examples.

(** What [_detect_rsi_signals] appends on a series of at least three bars. *)
Lemma rsi_signals_eq (self : SignalEngine) (indicators : frame) (symbol : string)
  (older : series) (x : option Q) :
  indicators !! "RSI" = Some (older ++ [x]) -> (2 <= length older)%nat ->
  _detect_rsi_signals self indicators symbol
  = Some
      (let idx := Z.of_nat (length (older ++ [x])) - 1 in
       if fgt x (Some 70%Q)
       then [(symbol, "rsi_overbought", idx, score_of "rsi_overbought")]
       else if flt x (Some 30%Q)
       then [(symbol, "rsi_oversold", idx, score_of "rsi_oversold")]
       else []).
Proof.
  intros Hr Hlen. unfold _detect_rsi_signals. rewrite Hr.
  assert (Hl : (length (older ++ [x]) <? 3)%nat = false).
  { apply Nat.ltb_ge. rewrite length_app. simpl. lia. }
  rewrite Hl, neg1_snoc. bind_step. cbv zeta.
  destruct (fgt x (Some 70%Q)); [reflexivity |].
  destruct (flt x (Some 30%Q)); reflexivity.
Qed.

(** RSI extremes. On aligned frames whose RSI series has at least three
    bars, the evaluation returns and gives exactly one [rsi_overbought]
    signal, at the last index, when the last RSI is above 70; exactly one
    [rsi_oversold], at the last index, when it is below 30; and neither when
    it lies in between or is undefined. The two never occur together. *)
Theorem rsi_extreme_rule (self : SignalEngine)
  (data indicators : gmap string (list (option Q))) (symbol : string)
  (older : list (option Q)) (x : option Q) :
  aligned data indicators ->
  indicators !! "RSI" = Some (older ++ [x]) ->
  (2 <= length older)%nat ->
  exists results,
    run_all_strategies self data indicators symbol = Some results
    /\ let last_idx := Z.of_nat (length (older ++ [x])) - 1 in
       let n_over := count_name "rsi_overbought" results in
       let n_under := count_name "rsi_oversold" results in
       (forall r, x = Some r -> (70 < r)%Q ->
          n_over = 1%nat /\ n_under = 0%nat
          /\ In (symbol, "rsi_overbought", last_idx, 0.7%Q) results)
       /\ (forall r, x = Some r -> (r < 30)%Q ->
             n_under = 1%nat /\ n_over = 0%nat
             /\ In (symbol, "rsi_oversold", last_idx, 0.7%Q) results)
       /\ ((forall r, x = Some r -> (30 <= r)%Q /\ (r <= 70)%Q) ->
             n_over = 0%nat /\ n_under = 0%nat).
Proof.
  intros Hal Hr Hlen.
  destruct (run_all_strategies_returns self data indicators symbol Hal)
    as (close & bull & bear & r2 & r3 & _ & _ & _ & Hr2 & Hr3 & Hrun).
  rewrite (rsi_signals_eq self indicators symbol older x Hr Hlen) in Hr3.
  apply (inj Some) in Hr3. cbv zeta in Hr3.
  eexists. split; [exact Hrun |]. cbv zeta.
  set (last_idx := Z.of_nat (length (older ++ [x])) - 1) in *.
  assert (Hcount : forall name, In name ["rsi_overbought"; "rsi_oversold"] ->
            count_name name
              (_detect_ma_signals self indicators bull bear symbol ++ r2 ++ r3)
            = count_name name r3).
  { intros name Hn. rewrite !count_name_app.
    rewrite (count_name_absent name (_detect_ma_signals self indicators bull bear symbol)).
    - rewrite (count_name_absent name r2); [lia |].
      intros sg Hin. destruct (macd_signals_names _ _ _ _ Hr2 sg Hin) as [E | E];
        rewrite E; simpl in Hn; destruct Hn as [<- | [<- | []]]; discriminate.
    - intros sg Hin. apply ma_signals_names in Hin as (p & d & Hp & Hd & ->).
      apply turn_names_are_not; auto. simpl in *. tauto. }
  rewrite !Hcount by (simpl; tauto).
  assert (Hin3 : forall sg, In sg r3 ->
            In sg (_detect_ma_signals self indicators bull bear symbol ++ r2 ++ r3)).
  { intros sg H. apply in_or_app. right. apply in_or_app. now right. }
  clear Hcount. subst r3. revert Hin3.
  destruct (fgt x (Some 70%Q)) eqn:Hover;
    [| destruct (flt x (Some 30%Q)) eqn:Hunder]; intros Hin3.
  - apply fgt_true in Hover as (r0 & s0 & -> & Hs0 & H70).
    injection Hs0 as Hs0. subst s0.
    split; [| split].
    + intros r _ _. split; [reflexivity |]. split; [reflexivity |].
      apply Hin3. now left.
    + intros r Hx H30. injection Hx as Hx. subst r. exfalso. lra.
    + intros Hmid. destruct (Hmid r0 eq_refl) as [_ Hle]. exfalso. lra.
  - unfold flt in Hunder. apply fgt_true in Hunder as (s0 & r0 & Hs0 & -> & H30).
    injection Hs0 as Hs0. subst s0. split; [| split].
    + intros r Hx H70. injection Hx as Hx. subst r. exfalso. lra.
    + intros r _ _. split; [reflexivity |]. split; [reflexivity |].
      apply Hin3. now left.
    + intros Hmid. destruct (Hmid r0 eq_refl) as [Hge _]. exfalso. lra.
  - split; [| split].
    + intros r -> H70. exfalso.
      assert (fgt (Some r) (Some 70%Q) = true) by (apply fgt_true; eauto).
      congruence.
    + intros r -> H30. exfalso.
      assert (flt (Some r) (Some 30%Q) = true)
        by (unfold flt; apply fgt_true; eauto).
      congruence.
    + intros _. split; reflexivity.
Qed.

(** [rsi_extreme_rule] on the example frames, whose RSI ends at 75. *)
Lemma rsi_extreme_rule_witness :
  exists results,
    run_all_strategies default_engine demo_data demo_indicators "000001" = Some results
    /\ count_name "rsi_overbought" results = 1%nat
    /\ count_name "rsi_oversold" results = 0%nat
    /\ In ("000001", "rsi_overbought", 5, 0.7%Q) results.
Proof.
  destruct (rsi_extreme_rule default_engine demo_data demo_indicators "000001"
              [Some 50%Q; Some 50%Q; Some 50%Q; Some 60%Q; Some 70%Q] (Some 75%Q)
              demo_aligned)
    as (results & Hrun & Hover & _); [reflexivity | simpl; lia |].
  exists results. split; [exact Hrun |].
  cbv zeta in Hover. apply (Hover 75%Q); [reflexivity | reflexivity].
Defined.

(** [detect_ma_alignment] on three series with a last bar, [a], [b], [c]
    being the last MA5, MA10, MA20: bullish at the last index of MA5 when
    [a > b > c], bearish there when [a < b < c], nothing otherwise, an
    undefined value making both comparisons fail. *)
Theorem detect_ma_alignment_rule (self : SignalEngine)
  (indicators : gmap string (list (option Q)))
  (o5 o10 o20 : list (option Q)) (a b c : option Q) :
  indicators !! "MA5" = Some (o5 ++ [a]) ->
  indicators !! "MA10" = Some (o10 ++ [b]) ->
  indicators !! "MA20" = Some (o20 ++ [c]) ->
  let idx := Z.of_nat (length (o5 ++ [a])) - 1 in
  (forall x y z, a = Some x -> b = Some y -> c = Some z -> (y < x)%Q -> (z < y)%Q ->
     detect_ma_alignment self indicators = Some (true, "ma_multi_bull", idx))
  /\ (forall x y z, a = Some x -> b = Some y -> c = Some z -> (x < y)%Q -> (y < z)%Q ->
        detect_ma_alignment self indicators = Some (true, "ma_multi_bear", idx))
  /\ (~ (exists x y z, a = Some x /\ b = Some y /\ c = Some z
                       /\ ((y < x)%Q /\ (z < y)%Q \/ (x < y)%Q /\ (y < z)%Q)) ->
        detect_ma_alignment self indicators = Some (false, "", -1)).
Proof.
  intros H5 H10 H20. cbv zeta.
  assert (Heq : detect_ma_alignment self indicators
                = Some (if fgt a b && fgt b c
                        then (true, "ma_multi_bull", Z.of_nat (length (o5 ++ [a])) - 1)
                        else if flt a b && flt b c
                        then (true, "ma_multi_bear", Z.of_nat (length (o5 ++ [a])) - 1)
                        else (false, "", -1))).
  { unfold detect_ma_alignment. rewrite H5, H10, H20.
    assert (Hl : (length (o5 ++ [a]) <? 1)%nat = false).
    { apply Nat.ltb_ge. rewrite length_app. simpl. lia. }
    rewrite Hl, !neg1_snoc. bind_step. unfold chained. rewrite !neg1_snoc.
    destruct (fgt a b); bind_step; [destruct (fgt b c); [reflexivity |] |];
      simpl; destruct (flt a b); bind_step; try reflexivity;
      destruct (flt b c); reflexivity. }
  rewrite Heq. split; [| split].
  - intros x y z -> -> -> Hxy Hyz.
    assert (E1 : fgt (Some x) (Some y) = true) by (apply fgt_true; eauto).
    assert (E2 : fgt (Some y) (Some z) = true) by (apply fgt_true; eauto).
    now rewrite E1, E2.
  - intros x y z -> -> -> Hxy Hyz.
    assert (E1 : flt (Some x) (Some y) = true) by (unfold flt; apply fgt_true; eauto).
    assert (E2 : flt (Some y) (Some z) = true) by (unfold flt; apply fgt_true; eauto).
    assert (E3 : fgt (Some x) (Some y) = false).
    { apply not_true_is_false. intros E. apply fgt_true in E as (u & v & [= <-] & [= <-] & H).
      exact (Qlt_irrefl _ (Qlt_trans _ _ _ H Hxy)). }
    now rewrite E1, E2, E3.
  - intros Hnot.
    destruct (fgt a b && fgt b c) eqn:E1.
    + exfalso. apply Hnot. apply andb_true_iff in E1 as [E1 E2].
      apply fgt_true in E1 as (x & y & -> & -> & H1).
      apply fgt_true in E2 as (y' & z & [= <-] & -> & H2).
      exists x, y, z. auto 8.
    + destruct (flt a b && flt b c) eqn:E2; [| reflexivity].
      exfalso. apply Hnot. apply andb_true_iff in E2 as [E2 E3].
      unfold flt in E2, E3.
      apply fgt_true in E2 as (y & x & -> & -> & H1).
      apply fgt_true in E3 as (z & y' & -> & [= <-] & H2).
      exists x, y, z. auto 8.
Qed.

(** [detect_ma_alignment_rule] on MA5 = 3 > MA10 = 2 > MA20 = 1 at the
    last of two bars. *)
Lemma detect_ma_alignment_rule_witness :
  detect_ma_alignment default_engine
    (Fixtures.alignment_frame [Some 1%Q; Some 3%Q] [Some 1%Q; Some 2%Q]
       [Some 1%Q; Some 1%Q])
  = Some (true, "ma_multi_bull", 1).
Proof.
  destruct (detect_ma_alignment_rule default_engine
              (Fixtures.alignment_frame [Some 1%Q; Some 3%Q] [Some 1%Q; Some 2%Q]
                 [Some 1%Q; Some 1%Q])
              [Some 1%Q] [Some 1%Q] [Some 1%Q] (Some 3%Q) (Some 2%Q) (Some 1%Q))
    as (Hbull & _); [reflexivity | reflexivity | reflexivity |].
  apply (Hbull 3%Q 2%Q 1%Q); reflexivity.
Defined.

(** [detect_ma_alignment] only guards the length of MA5: without one of the
    three series, or with an empty MA5, it reports nothing; with a non-empty
    MA5 and an empty MA10 the read of the last MA10 raises. *)
Theorem detect_ma_alignment_edges (self : SignalEngine)
  (indicators : gmap string (list (option Q))) :
  ((indicators !! "MA5" = None \/ indicators !! "MA10" = None
    \/ indicators !! "MA20" = None \/ indicators !! "MA5" = Some []) ->
   detect_ma_alignment self indicators = Some (false, "", -1))
  /\ (forall ma5 ma20, ma5 <> [] ->
        indicators !! "MA5" = Some ma5 -> indicators !! "MA10" = Some [] ->
        indicators !! "MA20" = Some ma20 ->
        detect_ma_alignment self indicators = None).
Proof.
  split.
  - unfold detect_ma_alignment. intros [H | [H | [H | H]]]; rewrite H.
    + reflexivity.
    + now destruct (indicators !! "MA5").
    + now destruct (indicators !! "MA5"), (indicators !! "MA10").
    + now destruct (indicators !! "MA10"), (indicators !! "MA20").
  - intros ma5 ma20 Hne H5 H10 H20. unfold detect_ma_alignment.
    rewrite H5, H10, H20.
    destruct ma5 as [| v ma5]; [congruence |].
    change (length (v :: ma5) <? 1)%nat with false. cbv iota.
    destruct (neg1_is_Some (v :: ma5) Hne) as [x ->]. reflexivity.
Qed.

End RsiAndAlignment.

(** * The settings tree *)
Section SettingsFacts.
Import Py PyMore Settings Examples.

Lemma split_dot_nonempty (s : string) : split_dot s <> [].
Proof.
  induction s as [| c rest IH]; simpl; [discriminate |].
  destruct (Ascii.eqb c "."%char); [discriminate |].
  destruct (split_dot rest); discriminate.
Qed.

(** [split_dot_head] is the first element of the full split. *)
Lemma split_dot_first (s : string) : head (split_dot s) = Some (split_dot_head s).
Proof.
  induction s as [| c rest IH]; simpl; [reflexivity |].
  destruct (Ascii.eqb c "."%char); [reflexivity |].
  destruct (split_dot rest) as [| h t]; [discriminate IH |].
  simpl in *. congruence.
Qed.

Lemma split_dot_parts (key : string) :
  removelast (split_dot key) ++ [List.last (split_dot key) EmptyString] = split_dot key.
Proof. symmetry. apply app_removelast_last, split_dot_nonempty. Qed.

(** Below a dict that [set] has just created nothing raises. *)
Lemma set_path_fresh (keys : list string) (last_key : string) (value : json) :
  (set_path keys last_key value (JDict ∅)).2 = false.
Proof.
  induction keys as [| k keys IH]; simpl; [reflexivity |].
  rewrite lookup_empty, lookup_insert_eq.
  destruct (set_path keys last_key value (JDict ∅)) as [child' raised].
  exact IH.
Qed.

(** One step of [set_path] below a dict. *)
Lemma set_path_step (k : string) (keys : list string) (last_key : string)
  (value : json) (d : gmap string json) :
  set_path (k :: keys) last_key value (JDict d)
  = let child := default (JDict ∅) (d !! k) in
    (JDict (<[k := (set_path keys last_key value child).1]> d),
     (set_path keys last_key value child).2).
Proof.
  simpl. destruct (d !! k) as [child |] eqn:Hk; simpl.
  - rewrite Hk. now destruct (set_path keys last_key value child).
  - rewrite lookup_insert_eq.
    destruct (set_path keys last_key value (JDict ∅)) as [child' raised].
    now rewrite insert_insert_eq.
Qed.

Lemma set_path_raise_unchanged (keys : list string) (last_key : string)
  (value data : json) :
  (set_path keys last_key value data).2 = true ->
  (set_path keys last_key value data).1 = data.
Proof.
  revert data. induction keys as [| k keys IH]; intros data.
  - destruct data; simpl; congruence.
  - destruct data as [| | | | | d]; try reflexivity.
    rewrite set_path_step. cbv zeta. simpl.
    destruct (d !! k) as [child |] eqn:Hk; simpl.
    + intros H. rewrite (IH _ H). now rewrite insert_id.
    + now rewrite set_path_fresh.
Qed.

Lemma get_set_path (keys : list string) (last_key : string) (value data : json) :
  (set_path keys last_key value data).2 = false ->
  get_path (keys ++ [last_key]) (set_path keys last_key value data).1 = Some value.
Proof.
  revert data. induction keys as [| k keys IH]; intros data.
  - destruct data; simpl; try discriminate. intros _. now rewrite lookup_insert_eq.
  - destruct data as [| | | | | d]; try discriminate.
    rewrite set_path_step. cbv zeta. simpl. rewrite lookup_insert_eq. apply IH.
Qed.

Lemma set_path_raises_iff (keys : list string) (last_key : string) (value data : json) :
  (set_path keys last_key value data).2 = true
  <-> exists p x, p `prefix_of` keys /\ get_path p data = Some x /\ is_dict x = false.
Proof.
  revert data. induction keys as [| k keys IH]; intros data.
  - split.
    + intros H. exists [], data. split; [apply prefix_nil |]. split; [reflexivity |].
      destruct data; simpl in *; congruence.
    + intros (p & x & Hp & Hg & Hx). apply prefix_nil_inv in Hp. subst p.
      simpl in Hg. injection Hg as <-. destruct data; simpl in *; congruence.
  - destruct data as [| | | | | d];
      try (split; [intros _; eexists [], _; split; [apply prefix_nil |];
                   split; reflexivity | reflexivity]).
    rewrite set_path_step. cbv zeta. simpl. rewrite IH. split.
    + intros (p & x & Hp & Hg & Hx).
      destruct (d !! k) as [child |] eqn:Hk; simpl in Hg.
      * exists (k :: p), x. split; [now apply prefix_cons |].
        simpl. rewrite Hk. auto.
      * exfalso. destruct p as [| k' p]; simpl in Hg.
        -- injection Hg as <-. discriminate.
        -- rewrite lookup_empty in Hg. discriminate.
    + intros (p & x & Hp & Hg & Hx).
      destruct p as [| k' p]; simpl in Hg.
      * injection Hg as <-. discriminate.
      * assert (k' = k) as -> by (destruct Hp as [r Hr]; simpl in Hr; congruence).
        apply prefix_cons_inv_2 in Hp.
        destruct (d !! k) as [child |]; [| discriminate].
        exists p, x. auto.
Qed.

Lemma get_path_set_other (keys : list string) (last_key : string) (value data : json)
  (keys' : list string) :
  ~ (keys ++ [last_key]) `prefix_of` keys' ->
  ~ keys' `prefix_of` (keys ++ [last_key]) ->
  get_path keys' (set_path keys last_key value data).1 = get_path keys' data.
Proof.
  revert data keys'. induction keys as [| k keys IH]; intros data keys' H1 H2.
  - destruct keys' as [| k' r']; [exfalso; apply H2, prefix_nil |].
    destruct data as [| | | | | d]; try reflexivity. simpl.
    rewrite lookup_insert_ne; [reflexivity |].
    intros ->. apply H1. apply prefix_cons, prefix_nil.
  - destruct keys' as [| k' r']; [exfalso; apply H2, prefix_nil |].
    destruct data as [| | | | | d]; try reflexivity.
    rewrite set_path_step. cbv zeta. simpl.
    destruct (decide (k = k')) as [<- | Hne].
    + rewrite lookup_insert_eq.
      assert (H1' : ~ (keys ++ [last_key]) `prefix_of` r').
      { intros H. apply H1. simpl. now apply prefix_cons. }
      assert (H2' : ~ r' `prefix_of` (keys ++ [last_key])).
      { intros H. apply H2. simpl. now apply prefix_cons. }
      rewrite (IH _ _ H1' H2').
      destruct (d !! k) as [child |]; [reflexivity |]. simpl.
      destruct r' as [| k'' r'']; [exfalso; apply H2', prefix_nil |].
      simpl. now rewrite lookup_empty.
    + now rewrite lookup_insert_ne.
Qed.

(** [set] then [get]. A [set] that returns leaves the value where [get]
    finds it under the same key, whatever the default; a [set] that raises
    has changed nothing. *)
Theorem config_set_then_get (data : json) (key : string) (value : json) :
  let out := set data key value in
  (out.2 = false -> forall default, get out.1 key default = value)
  /\ (out.2 = true -> out.1 = data).
Proof.
  cbv zeta. unfold set, get. split.
  - intros H default. pose proof (get_set_path _ _ _ _ H) as Hg.
    rewrite split_dot_parts in Hg. now rewrite Hg.
  - apply set_path_raise_unchanged.
Qed.

(** [set] raises exactly when a proper prefix of the dotted key, the empty
    one included, leads to a value that is not a dict; a key without dots
    on a dict never raises, and missing intermediate dicts are created. *)
Theorem config_set_raises_iff (data : json) (key : string) (value : json) :
  (set data key value).2 = true
  <-> exists p x, p `prefix_of` removelast (split_dot key)
                  /\ get_path p data = Some x /\ is_dict x = false.
Proof. unfold set. apply set_path_raises_iff. Qed.

(** [set] changes nothing that [get] can read under another key, as long as
    neither dotted key is a prefix of the other. *)
Theorem config_set_keeps_other_keys (data : json) (key key' : string)
  (value default : json) :
  ~ split_dot key `prefix_of` split_dot key' ->
  ~ split_dot key' `prefix_of` split_dot key ->
  get (set data key value).1 key' default = get data key' default.
Proof.
  intros H1 H2. unfold set, get.
  rewrite <- (split_dot_parts key) in H1, H2.
  now rewrite (get_path_set_other _ _ _ _ _ H1 H2).
Qed.

(** [config_set_keeps_other_keys]: setting [myquant.token] leaves
    [myquant.account_id] as it was. *)
Lemma config_set_keeps_other_keys_witness :
  get (set demo_config "myquant.token" (JStr "abc")).1 "myquant.account_id" JNull
  = JStr EmptyString
  /\ get (set demo_config "myquant.token" (JStr "abc")).1 "myquant.token" JNull
     = JStr "abc".
Proof.
  split; [| vm_compute; reflexivity].
  rewrite (config_set_keeps_other_keys demo_config "myquant.token" "myquant.account_id"
             (JStr "abc") JNull).
  - vm_compute. reflexivity.
  - vm_compute. intros [k Hk]. discriminate Hk.
  - vm_compute. intros [k Hk]. discriminate Hk.
Defined.

End SettingsFacts.

(** * The trade recorder *)
Section RecorderFacts.
Import PyMore Recorder Examples.

Lemma slice_from_neg {A} (l : list A) (n : Z) :
  0 < n -> slice_from l (- n) = drop (length l - Z.to_nat n) l.
Proof.
  intros Hn. unfold slice_from.
  destruct (Z.ltb_spec (- n) 0) as [_ | H]; [| lia].
  f_equal. lia.
Qed.

Lemma slice_from_nonneg {A} (l : list A) (n : Z) :
  0 <= n -> slice_from l n = drop (Z.to_nat n) l.
Proof.
  intros Hn. unfold slice_from.
  destruct (Z.ltb_spec n 0) as [H | _]; [lia |].
  destruct (Z.le_gt_cases n (Z.of_nat (length l))) as [Hle | Hgt].
  - now rewrite Z.min_l.
  - rewrite Z.min_r, Nat2Z.id by lia.
    rewrite !drop_ge; [reflexivity | lia | lia].
Qed.

Lemma get_records_slice (records : list trade_record) (limit : Z) :
  get_records records limit = slice_from records (- limit).
Proof. destruct records; [| reflexivity]. unfold slice_from. simpl. now rewrite drop_nil. Qed.

(** With a positive limit [get_records] returns the last [limit] records,
    oldest first, or all of them when there are fewer. *)
Theorem get_records_recent (records : list trade_record) (limit : Z) :
  0 < limit ->
  get_records records limit = drop (length records - Z.to_nat limit) records
  /\ length (get_records records limit) = Nat.min (Z.to_nat limit) (length records)
  /\ exists older, records = older ++ get_records records limit.
Proof.
  intros Hl. rewrite get_records_slice, slice_from_neg by exact Hl.
  split; [reflexivity |]. split; [rewrite length_drop; lia |].
  exists (take (length records - Z.to_nat limit) records).
  now rewrite take_drop.
Qed.

(** [get_records_recent] on three records and a limit of 2. *)
Lemma get_records_recent_witness :
  get_records demo_records 2 = [demo_record "600000" 200; demo_record "300750" 300]
  /\ length (get_records demo_records 2) = 2%nat.
Proof.
  destruct (get_records_recent demo_records 2) as (Heq & Hlen & _); [lia |].
  split; [rewrite Heq; reflexivity | rewrite Hlen; reflexivity].
Defined.

(** A limit of zero returns every record, not none, and a negative limit
    [-n] returns all but the oldest [n]. *)
Theorem get_records_without_positive_limit (records : list trade_record) :
  get_records records 0 = records
  /\ forall n, 0 < n -> get_records records (- n) = drop (Z.to_nat n) records.
Proof.
  split.
  - rewrite get_records_slice. simpl. now rewrite slice_from_nonneg.
  - intros n Hn. rewrite get_records_slice, Z.opp_involutive.
    apply slice_from_nonneg. lia.
Qed.

(** A record just added is the most recent one: it is what a limit of 1
    returns, and with a limit of [n + 1] it follows what a limit of [n]
    returned before. *)
Theorem added_record_is_most_recent (records : list trade_record) (now : Z)
  (code name action : string) (price : Q) (quantity : Z) (amount : Q)
  (is_simulation : bool) :
  let records' := add_record records now code name action price quantity amount
                    is_simulation in
  exists record,
    records' = records ++ [record]
    /\ rec_code record = code /\ rec_quantity record = quantity
    /\ get_records records' 1 = [record]
    /\ forall n, 0 < n ->
         get_records records' (n + 1) = get_records records n ++ [record].
Proof.
  cbv zeta. unfold add_record. eexists. split; [reflexivity |].
  split; [reflexivity |]. split; [reflexivity |]. split.
  - rewrite get_records_slice, slice_from_neg by lia.
    rewrite length_app. simpl.
    replace (length records + 1 - Z.to_nat 1)%nat with (length records) by lia.
    now rewrite drop_app_length.
  - intros n Hn. rewrite !get_records_slice, !slice_from_neg by lia.
    rewrite length_app. simpl.
    replace (length records + 1 - Z.to_nat (n + 1))%nat
      with (length records - Z.to_nat n)%nat by lia.
    rewrite drop_app_le by lia. reflexivity.
Qed.

End RecorderFacts.

(** * The stock pool *)
Section PoolFacts.
Import Pool Examples.

Lemma has_code_elem (stocks : list (string * string)) (code : string) :
  has_code stocks code = true <-> code ∈ stocks.*1.
Proof.
  unfold has_code. rewrite existsb_exists, list_elem_of_fmap. split.
  - intros (kv & Hin & Heq). apply String.eqb_eq in Heq.
    exists kv. split; [now symmetry | now apply list_elem_of_In].
  - intros (kv & Heq & Hin). exists kv.
    split; [now apply list_elem_of_In | apply String.eqb_eq; now symmetry].
Qed.

Lemma has_code_false (stocks : list (string * string)) (code : string) :
  has_code stocks code = false <-> code ∉ stocks.*1.
Proof.
  rewrite <- has_code_elem. destruct (has_code stocks code); split; auto; congruence.
Qed.

Lemma has_code_snoc (stocks : list (string * string)) (code name c : string) :
  has_code (stocks ++ [(code, name)]) c = has_code stocks c || String.eqb code c.
Proof. unfold has_code. rewrite existsb_app. simpl. now rewrite orb_false_r. Qed.

Lemma name_of_snoc (stocks : list (string * string)) (code name c n : string) :
  name_of stocks c = Some n -> name_of (stocks ++ [(code, name)]) c = Some n.
Proof.
  unfold name_of. induction stocks as [| kv stocks IH]; simpl; [discriminate |].
  destruct (String.eqb kv.1 c); [auto | exact IH].
Qed.

Lemma name_of_snoc_new (stocks : list (string * string)) (code name : string) :
  code ∉ stocks.*1 -> name_of (stocks ++ [(code, name)]) code = Some name.
Proof.
  unfold name_of. induction stocks as [| kv stocks IH]; intros Hn; simpl.
  - now rewrite String.eqb_refl.
  - rewrite fmap_cons, not_elem_of_cons in Hn. destruct Hn as [Hne Hn].
    assert (E : String.eqb kv.1 code = false) by (apply String.eqb_neq; congruence).
    rewrite E. now apply IH.
Qed.

(** Removing a code that is not there changes nothing. *)
Lemma filter_absent (stocks : list (string * string)) (code : string) :
  code ∉ stocks.*1 -> filter (fun kv => kv.1 <> code) stocks = stocks.
Proof.
  induction stocks as [| kv stocks IH]; intros Hn; [reflexivity |].
  rewrite fmap_cons, not_elem_of_cons in Hn. destruct Hn as [Hne Hn].
  rewrite filter_cons_True by (intros E; apply Hne; now symmetry).
  now rewrite IH.
Qed.

Lemma NoDup_filter_keys (P : string * string -> Prop) `{!forall kv, Decision (P kv)}
  (stocks : list (string * string)) :
  NoDup stocks.*1 -> NoDup (filter P stocks).*1.
Proof.
  induction stocks as [| kv stocks IH]; intros Hnd; [constructor |].
  rewrite fmap_cons in Hnd. apply NoDup_cons in Hnd as [Hn Hnd].
  rewrite filter_cons. destruct (decide (P kv)); [| now apply IH].
  rewrite fmap_cons. apply NoDup_cons. split; [| now apply IH].
  intros Hin. apply Hn. apply list_elem_of_fmap in Hin as (kv' & E & Hin).
  apply list_elem_of_filter in Hin as [_ Hin].
  apply list_elem_of_fmap. eauto.
Qed.

Lemma NoDup_snoc_key (stocks : list (string * string)) (code name : string) :
  NoDup stocks.*1 -> code ∉ stocks.*1 -> NoDup (stocks ++ [(code, name)]).*1.
Proof.
  intros Hnd Hn. rewrite fmap_app. apply NoDup_app. split; [exact Hnd |].
  split; [| apply NoDup_singleton].
  intros x Hx Hx'. apply list_elem_of_singleton in Hx'. simpl in Hx'. now subst.
Qed.

Lemma add_position_ok (self : StockPool) (pos : pos_dict) :
  pool_ok self -> pool_ok (add_position self pos).
Proof.
  intros [Hnd Hpos]. unfold add_position, pool_ok. cbv zeta. simpl.
  set (code := default EmptyString (pos_code pos)).
  set (name := default code (pos_name pos)).
  destruct (String.eqb_spec code EmptyString) as [He | He]; simpl.
  - split; [exact Hnd |]. intros c Hc Hne.
    apply elem_of_union in Hc as [Hc | Hc]; [| now apply Hpos].
    apply elem_of_singleton in Hc. congruence.
  - destruct (has_code (stocks self) code) eqn:Hh; simpl.
    + split; [exact Hnd |]. intros c Hc Hne.
      apply elem_of_union in Hc as [Hc | Hc]; [| now apply Hpos].
      apply elem_of_singleton in Hc. now subst.
    + split; [apply NoDup_snoc_key; [exact Hnd | now apply has_code_false] |].
      intros c Hc Hne. rewrite has_code_snoc.
      apply elem_of_union in Hc as [Hc | Hc].
      * apply elem_of_singleton in Hc. subst c.
        rewrite String.eqb_refl. apply orb_true_r.
      * now rewrite (Hpos c Hc Hne).
Qed.

Lemma add_position_stocks_ok (self : StockPool) (positions : list pos_dict) :
  pool_ok self -> pool_ok (add_position_stocks self positions).
Proof.
  unfold add_position_stocks. revert self.
  induction positions as [| pos positions IH]; intros self H; [exact H |].
  simpl. apply IH. now apply add_position_ok.
Qed.

Lemma add_stock_ok (self : StockPool) (code name : string) :
  pool_ok self -> pool_ok (add_stock self code name).2.
Proof.
  intros [Hnd Hpos]. unfold add_stock.
  destruct (has_code (stocks self) code) eqn:Hh; simpl; [now split |].
  split; simpl; [apply NoDup_snoc_key; [exact Hnd | now apply has_code_false] |].
  intros c Hc Hne. rewrite has_code_snoc. now rewrite (Hpos c Hc Hne).
Qed.

Lemma remove_stock_ok (self : StockPool) (code : string) :
  pool_ok self -> pool_ok (remove_stock self code).2.
Proof.
  intros [Hnd Hpos]. unfold remove_stock.
  destruct (has_code (stocks self) code) eqn:Hh; simpl; [| now split].
  split; simpl; [now apply NoDup_filter_keys |].
  intros c Hc Hne. apply elem_of_difference in Hc as [Hc Hnot].
  rewrite elem_of_singleton in Hnot.
  apply has_code_elem. specialize (Hpos c Hc Hne). apply has_code_elem in Hpos.
  apply list_elem_of_fmap in Hpos as (kv & -> & Hin).
  apply list_elem_of_fmap. exists kv. split; [reflexivity |].
  apply list_elem_of_filter. auto.
Qed.

(** What a position dict leaves in the pool. *)
Lemma add_position_effect (self : StockPool) (pos : pos_dict) :
  let code := default EmptyString (pos_code pos) in
  let self' := add_position self pos in
  code ∈ positions self'
  /\ (code <> EmptyString -> has_code (stocks self') code = true)
  /\ (forall c, c ∈ positions self -> c ∈ positions self')
  /\ (forall c, has_code (stocks self) c = true -> has_code (stocks self') c = true)
  /\ (forall c n, name_of (stocks self) c = Some n -> name_of (stocks self') c = Some n).
Proof.
  cbv zeta. unfold add_position. cbv zeta. simpl.
  set (code := default EmptyString (pos_code pos)).
  set (name := default code (pos_name pos)).
  split; [apply elem_of_union_l, elem_of_singleton; reflexivity |].
  split; [| split; [intros c Hc; now apply elem_of_union_r |]].
  - intros Hne. apply String.eqb_neq in Hne. rewrite Hne. simpl.
    destruct (has_code (stocks self) code) eqn:Hh; simpl; [exact Hh |].
    rewrite has_code_snoc, String.eqb_refl. apply orb_true_r.
  - destruct (negb (String.eqb code EmptyString) && negb (has_code (stocks self) code)).
    + split; [intros c Hc; rewrite has_code_snoc, Hc; reflexivity |].
      intros c n. apply name_of_snoc.
    + auto.
Qed.

Lemma add_position_stocks_effect (self : StockPool) (positions0 : list pos_dict) :
  let self' := add_position_stocks self positions0 in
  (forall pos, In pos positions0 ->
     let code := default EmptyString (pos_code pos) in
     code ∈ positions self'
     /\ (code <> EmptyString -> has_code (stocks self') code = true))
  /\ (forall c, c ∈ positions self -> c ∈ positions self')
  /\ (forall c, has_code (stocks self) c = true -> has_code (stocks self') c = true)
  /\ (forall c n, name_of (stocks self) c = Some n -> name_of (stocks self') c = Some n).
Proof.
  cbv zeta. unfold add_position_stocks. revert self.
  induction positions0 as [| p ps IH]; intros self; simpl.
  - split; [intros pos [] | auto].
  - destruct (IH (add_position self p)) as (H1 & H2 & H3 & H4).
    destruct (add_position_effect self p) as (E1 & E2 & E3 & E4 & E5).
    cbv zeta in E1, E2, E3, E4, E5.
    split; [| split; [| split]]; auto.
    intros pos [<- | Hin]; [| now apply H1].
    split; [now apply H2 | intros Hne; apply H3; now apply E2].
Qed.

(** The example pool is consistent. *)
Lemma demo_pool_ok : pool_ok demo_pool.
Proof.
  split.
  - compute_done.
  - intros code Hc _. simpl in Hc. apply elem_of_singleton in Hc. now subst.
Qed.

(** The three operations that change the pool keep one entry per code and
    keep every held code, the empty one apart, in the pool. *)
Theorem pool_operations_keep_it_consistent (self : StockPool)
  (positions0 : list pos_dict) (code name : string) :
  pool_ok self ->
  pool_ok (add_position_stocks self positions0)
  /\ pool_ok (add_stock self code name).2
  /\ pool_ok (remove_stock self code).2.
Proof.
  intros H. split; [now apply add_position_stocks_ok |].
  split; [now apply add_stock_ok | now apply remove_stock_ok].
Qed.

(** [pool_operations_keep_it_consistent] on the two-stock pool. *)
Lemma pool_operations_keep_it_consistent_witness :
  pool_ok demo_pool
  /\ pool_ok (add_position_stocks demo_pool [mk_pos (Some "300750") None])
  /\ pool_ok (add_stock demo_pool "300750" "CATL").2
  /\ pool_ok (remove_stock demo_pool "600000").2.
Proof.
  split; [exact demo_pool_ok |].
  destruct (pool_operations_keep_it_consistent demo_pool
              [mk_pos (Some "300750") None] "300750" "CATL" demo_pool_ok)
    as (H1 & H2 & _).
  destruct (pool_operations_keep_it_consistent demo_pool [] "600000" "" demo_pool_ok)
    as (_ & _ & H3).
  auto.
Defined.

(** [get_sorted_stocks] lists every stock of the pool exactly once, and
    every held stock before every stock that is not held. *)
Theorem sorted_stocks_put_positions_first (self : StockPool) :
  get_sorted_stocks self ≡ₚ stocks self
  /\ forall i j held other,
       get_sorted_stocks self !! i = Some held ->
       get_sorted_stocks self !! j = Some other ->
       is_position_stock self held.1 = true ->
       is_position_stock self other.1 = false ->
       (i < j)%nat.
Proof.
  unfold get_sorted_stocks. split.
  - apply (filter_app_complement (fun kv => kv.1 ∈ positions self)).
  - intros i j held other Hi Hj Hheld Hother.
    unfold is_position_stock in *.
    apply bool_decide_eq_true in Hheld. apply bool_decide_eq_false in Hother.
    apply lookup_app_Some in Hi as [Hi | [_ Hi]].
    + apply lookup_app_Some in Hj as [Hj | [Hj _]].
      * exfalso. apply list_elem_of_lookup_2, list_elem_of_filter in Hj as [Hj _].
        exact (Hother Hj).
      * apply lookup_lt_Some in Hi. lia.
    + exfalso. apply list_elem_of_lookup_2, list_elem_of_filter in Hi as [Hi _].
      exact (Hi Hheld).
Qed.

(** Adding a code that is not in the pool succeeds and lists it last under
    the given name; adding it again is refused and changes nothing; removing
    it succeeds and gives back the stocks there were before. *)
Theorem add_then_remove_stock (self : StockPool) (code name name' : string) :
  has_code (stocks self) code = false ->
  let added := add_stock self code name in
  added.1 = true
  /\ stocks added.2 = stocks self ++ [(code, name)]
  /\ name_of (stocks added.2) code = Some name
  /\ add_stock added.2 code name' = (false, added.2)
  /\ (remove_stock added.2 code).1 = true
  /\ stocks (remove_stock added.2 code).2 = stocks self
  /\ is_position_stock (remove_stock added.2 code).2 code = false.
Proof.
  intros Hh. cbv zeta. unfold add_stock. rewrite Hh. simpl.
  split; [reflexivity |]. split; [reflexivity |].
  assert (Hhas : has_code (stocks self ++ [(code, name)]) code = true).
  { rewrite has_code_snoc, String.eqb_refl. apply orb_true_r. }
  split; [apply name_of_snoc_new; now apply has_code_false |].
  rewrite Hhas. split; [reflexivity |].
  unfold remove_stock. simpl. rewrite Hhas. simpl.
  split; [reflexivity |]. split.
  - rewrite filter_app, filter_absent by now apply has_code_false.
    rewrite filter_cons_False by (simpl; intros H; now apply H).
    now rewrite app_nil_r.
  - unfold is_position_stock. simpl. apply bool_decide_eq_false.
    intros H. apply elem_of_difference in H as [_ H].
    apply H, elem_of_singleton. reflexivity.
Qed.

(** [add_then_remove_stock]: 300750 enters the two-stock pool and leaves it. *)
Lemma add_then_remove_stock_witness :
  has_code (stocks demo_pool) "300750" = false
  /\ (add_stock demo_pool "300750" "CATL").1 = true
  /\ stocks (remove_stock (add_stock demo_pool "300750" "CATL").2 "300750").2
     = stocks demo_pool.
Proof.
  split; [reflexivity |].
  destruct (add_then_remove_stock demo_pool "300750" "CATL" "other")
    as (H1 & _ & _ & _ & _ & H6 & _); [reflexivity |].
  split; [exact H1 | exact H6].
Defined.

(** After [add_position_stocks] every code of the given dicts is held, the
    empty code included; every non-empty one is in the pool; and a stock
    that was in the pool keeps its name, whatever name the dict gives. *)
Theorem position_stocks_are_held_and_listed (self : StockPool)
  (positions0 : list pos_dict) (pos : pos_dict) :
  In pos positions0 ->
  let code := default EmptyString (pos_code pos) in
  let self' := add_position_stocks self positions0 in
  is_position_stock self' code = true
  /\ (code <> EmptyString -> has_code (stocks self') code = true)
  /\ (forall c n, name_of (stocks self) c = Some n -> name_of (stocks self') c = Some n).
Proof.
  intros Hin. cbv zeta.
  destruct (add_position_stocks_effect self positions0) as (H1 & _ & _ & H4).
  cbv zeta in H1, H4. destruct (H1 pos Hin) as [Ha Hb].
  split; [now apply bool_decide_eq_true |]. split; [exact Hb | exact H4].
Qed.

(** [position_stocks_are_held_and_listed]: a held 300750 enters the pool,
    and the held 000001 keeps the name it has there. *)
Lemma position_stocks_are_held_and_listed_witness :
  let pool' := add_position_stocks demo_pool
                 [mk_pos (Some "300750") None; mk_pos (Some "000001") (Some "000001")] in
  is_position_stock pool' "300750" = true
  /\ has_code (stocks pool') "300750" = true
  /\ name_of (stocks pool') "000001" = Some "PAB".
Proof.
  cbv zeta.
  destruct (position_stocks_are_held_and_listed demo_pool
              [mk_pos (Some "300750") None; mk_pos (Some "000001") (Some "000001")]
              (mk_pos (Some "300750") None))
    as (H1 & H2 & H3); [now left |].
  cbv zeta in H1, H2, H3. simpl default in H1, H2.
  split; [exact H1 |]. split; [apply H2; discriminate | apply H3; reflexivity].
Defined.

End PoolFacts.

(** * Positions and orders *)
Section OrderFacts.
Import Py PyMore Client Quotes Orders Examples.

(** [replace] leaves a string of digits alone when the pattern starts with
    a character that is not a digit. *)
Lemma replace_from_digits (o : ascii) (old new s : string) :
  is_digit_char o = false -> all_digits s = true ->
  replace_from (String o old) new 0 s = s.
Proof.
  intros Ho. induction s as [| a s IH]; intros Hs; [reflexivity |].
  simpl in Hs. apply andb_true_iff in Hs as [Ha Hs].
  cbn [replace_from]. unfold startswith. cbn [String.prefix].
  destruct (ascii_dec o a) as [-> | _]; [congruence |].
  now rewrite IH.
Qed.

Lemma isdigit_all_digits (s : string) : isdigit s = true -> all_digits s = true.
Proof. destruct s; [discriminate | auto]. Qed.

Lemma replace_from_miss (old new : string) (a : ascii) (s : string) :
  startswith (String a s) old = false ->
  replace_from old new 0 (String a s) = String a (replace_from old new 0 s).
Proof. intros H. cbn [replace_from]. now rewrite H. Qed.

Lemma replace_from_hit (old new : string) (a : ascii) (s : string) :
  startswith (String a s) old = true ->
  replace_from old new 0 (String a s)
  = String.append new (replace_from old new (String.length old - 1) s).
Proof. intros H. cbn [replace_from]. now rewrite H. Qed.

Lemma replace_from_skip (old new : string) (a : ascii) (n : nat) (s : string) :
  replace_from old new (S n) (String a s) = replace_from old new n s.
Proof. reflexivity. Qed.

Lemma prefix_append (p s : string) : String.prefix p (String.append p s) = true.
Proof.
  induction p as [| a p IH]; [now destruct s |].
  change (String.append (String a p) s) with (String a (String.append p s)).
  cbn [String.prefix]. destruct (ascii_dec a a); [exact IH | congruence].
Qed.

(** Cleaning an exchange-qualified six-digit code gives the code back. *)
Lemma clean_symbol_qualified (c : string) :
  all_digits c = true ->
  clean_symbol (String.append "SHSE." c) = c
  /\ clean_symbol (String.append "SZSE." c) = c.
Proof.
  intros Hc. unfold clean_symbol, replace. split.
  - change (String.append "SHSE." c)
      with (String "S" (String "H" (String "S" (String "E" (String "." c))))).
    rewrite replace_from_hit by (apply (prefix_append "SHSE." c)).
    change (String.length "SHSE." - 1)%nat with 4%nat.
    rewrite !replace_from_skip.
    change (String.append EmptyString ?x) with x.
    rewrite (replace_from_digits "S" "HSE." EmptyString c) by (reflexivity || exact Hc).
    now rewrite replace_from_digits by (reflexivity || exact Hc).
  - change (String.append "SZSE." c)
      with (String "S" (String "Z" (String "S" (String "E" (String "." c))))).
    do 5 (rewrite (replace_from_miss "SHSE.") by reflexivity).
    rewrite (replace_from_digits "S" "HSE." EmptyString c) by (reflexivity || exact Hc).
    rewrite replace_from_hit by (apply (prefix_append "SZSE." c)).
    change (String.length "SZSE." - 1)%nat with 4%nat.
    rewrite !replace_from_skip.
    change (String.append EmptyString ?x) with x.
    now rewrite replace_from_digits by (reflexivity || exact Hc).
Qed.

Lemma clean_symbol_of_gm_symbol (c g : string) :
  gm_symbol_of c = Some g -> clean_symbol g = c.
Proof.
  intros H. apply gm_symbol_of_Some in H as (_ & Hd & [[-> _] | [-> _]]);
    apply isdigit_all_digits in Hd; now apply clean_symbol_qualified.
Qed.

Lemma gm_symbol_nonempty (c g : string) : gm_symbol_of c = Some g -> g <> EmptyString.
Proof.
  intros H. apply gm_symbol_of_Some in H as (_ & _ & [[-> _] | [-> _]]); discriminate.
Qed.

(** A row with a positive volume under the qualified symbol of a code is
    listed under that code. *)
Lemma position_of_row (d : position_dict) (c g : string) (v : Q) :
  gm_symbol_of c = Some g ->
  f_symbol d = Val g -> f_volume d = Val v -> (0 < v)%Q ->
  exists p, position_of (RowDict d) = Some p
            /\ p_code p = c /\ p_name p = c /\ p_quantity p = v.
Proof.
  intros Hg Hs Hv Hpos. unfold position_of. rewrite Hs, Hv. simpl.
  rewrite (proj2 (Qltb_true 0 v) Hpos).
  pose proof (gm_symbol_nonempty c g Hg) as Hne.
  destruct g as [| a g]; [congruence |].
  rewrite (clean_symbol_of_gm_symbol c _ Hg).
  eexists. split; [reflexivity |]. auto.
Qed.

Lemma get_positions_lists_row (avail : bool) (self : MyQuantClient)
  (rows : list pos_row) (d : position_dict) (c g : string) (v : Q) :
  Gateway.is_connected avail self = true ->
  In (RowDict d) rows ->
  gm_symbol_of c = Some g ->
  f_symbol d = Val g -> f_volume d = Val v -> (0 < v)%Q ->
  exists p, In p (get_positions avail self (ReplyList rows))
            /\ p_code p = c /\ p_name p = c /\ p_quantity p = v.
Proof.
  intros Hconn Hin Hg Hs Hv Hpos.
  destruct (position_of_row d c g v Hg Hs Hv Hpos) as (p & Hp & Hrest).
  exists p. split; [| exact Hrest].
  unfold get_positions. rewrite Hconn. simpl.
  apply list_elem_of_In, list_elem_of_omap. exists (RowDict d).
  split; [now apply list_elem_of_In | exact Hp].
Qed.

(** Every returned position stands for a row with a positive volume, in
    the order of the rows, under the same text as code and as name. *)
Lemma get_positions_sound (avail : bool) (self : MyQuantClient)
  (reply : positions_reply) (p : position) :
  In p (get_positions avail self reply) ->
  Gateway.is_connected avail self = true
  /\ (0 < p_quantity p)%Q /\ p_name p = p_code p
  /\ exists rows d, reply = ReplyList rows /\ In (RowDict d) rows
                    /\ position_of (RowDict d) = Some p.
Proof.
  unfold get_positions.
  destruct (Gateway.is_connected avail self); simpl; [| intros []].
  destruct reply as [| rows |]; try (intros []).
  intros Hin. apply list_elem_of_In, list_elem_of_omap in Hin as (row & Hrow & Hp).
  split; [reflexivity |].
  destruct row as [d |]; [| discriminate].
  assert (Hq : (0 < p_quantity p)%Q /\ p_name p = p_code p).
  { unfold position_of in Hp.
    destruct (get2 (f_volume d) (f_position d) 0%Q) as [volume |]; [| discriminate].
    destruct (Num.Qltb 0 volume) eqn:Hv; [| discriminate].
    destruct (get2 (f_symbol d) (f_code d) EmptyString) as [[| a s] |];
      try discriminate.
    injection Hp as <-. simpl. split; [now apply Qltb_true | reflexivity]. }
  destruct Hq as [Hq Hn]. split; [exact Hq |]. split; [exact Hn |].
  exists rows, d. split; [reflexivity |]. split; [now apply list_elem_of_In | exact Hp].
Qed.

(** [get_positions] gives the code the quote service uses. When the
    gateway is connected and [gm.get_position()] returns a list, a row with
    a positive volume under the exchange-qualified symbol that the fallback
    builds for a code is listed under that code, with the code as its name
    and the volume as its quantity; and every listed position has a positive
    quantity. *)
Theorem positions_are_listed_under_clean_codes (avail : bool) (self : MyQuantClient)
  (rows : list pos_row) (d : position_dict) (c g : string) (v : Q) :
  Gateway.is_connected avail self = true ->
  In (RowDict d) rows ->
  gm_symbol_of c = Some g ->
  f_symbol d = Val g -> f_volume d = Val v -> (0 < v)%Q ->
  (exists p, In p (get_positions avail self (ReplyList rows))
             /\ p_code p = c /\ p_name p = c /\ p_quantity p = v)
  /\ forall p, In p (get_positions avail self (ReplyList rows)) ->
       (0 < p_quantity p)%Q /\ p_name p = p_code p.
Proof.
  intros Hconn Hin Hg Hs Hv Hpos.
  split; [exact (get_positions_lists_row _ _ _ _ _ _ _ Hconn Hin Hg Hs Hv Hpos) |].
  intros p Hp. apply get_positions_sound in Hp as (_ & Hq & Hn & _). auto.
Qed.

(** [positions_are_listed_under_clean_codes]: 100 shares of SHSE.600000
    are listed under 600000. *)
Lemma positions_are_listed_under_clean_codes_witness :
  exists p,
    In p (get_positions true Fixtures.connected_client
            (ReplyList [RowOther; demo_row "SHSE.600000"]))
    /\ p_code p = "600000" /\ p_name p = "600000" /\ p_quantity p = 100%Q.
Proof.
  destruct (positions_are_listed_under_clean_codes true Fixtures.connected_client
              [RowOther; demo_row "SHSE.600000"] _ "600000" "SHSE.600000" 100%Q
              eq_refl (or_intror (or_introl eq_refl)) eq_refl eq_refl eq_refl eq_refl)
    as ((p & Hin & Hc & Hn & Hq) & _).
  exists p. auto.
Defined.

(** Syncing the pool with the positions: a row with a positive volume
    under the qualified symbol of a code makes that code a held stock of the
    pool and puts it in the pool, and the pool stays consistent. *)
Theorem held_rows_enter_the_pool (avail : bool) (self : MyQuantClient)
  (pool : Pool.StockPool) (rows : list pos_row) (d : position_dict)
  (c g : string) (v : Q) :
  Gateway.is_connected avail self = true ->
  In (RowDict d) rows ->
  gm_symbol_of c = Some g ->
  f_symbol d = Val g -> f_volume d = Val v -> (0 < v)%Q ->
  let pool' :=
    Pool.add_position_stocks pool
      (map as_pos_dict (get_positions avail self (ReplyList rows))) in
  Pool.is_position_stock pool' c = true
  /\ Pool.has_code (Pool.stocks pool') c = true
  /\ (Pool.pool_ok pool -> Pool.pool_ok pool').
Proof.
  intros Hconn Hin Hg Hs Hv Hpos. cbv zeta.
  destruct (get_positions_lists_row _ _ _ _ _ _ _ Hconn Hin Hg Hs Hv Hpos)
    as (p & Hp & Hcode & _).
  destruct (add_position_stocks_effect pool
              (map as_pos_dict (get_positions avail self (ReplyList rows))))
    as (H1 & _).
  cbv zeta in H1.
  destruct (H1 (as_pos_dict p)) as [Ha Hb]; [now apply in_map |].
  simpl in Ha, Hb. rewrite Hcode in Ha, Hb.
  split; [now apply bool_decide_eq_true |]. split.
  - apply Hb. apply gm_symbol_of_Some in Hg as (Hlen & _).
    intros E. rewrite E in Hlen. discriminate.
  - apply add_position_stocks_ok.
Qed.

(** [held_rows_enter_the_pool]: 100 shares of SZSE.300750 make 300750 a
    held stock of the two-stock pool. *)
Lemma held_rows_enter_the_pool_witness :
  let pool' :=
    Pool.add_position_stocks demo_pool
      (map as_pos_dict
         (get_positions true Fixtures.connected_client
            (ReplyList [demo_row "SZSE.300750"]))) in
  Pool.is_position_stock pool' "300750" = true
  /\ Pool.has_code (Pool.stocks pool') "300750" = true.
Proof.
  cbv zeta.
  destruct (held_rows_enter_the_pool true Fixtures.connected_client demo_pool
              [demo_row "SZSE.300750"] _ "300750" "SZSE.300750" 100%Q
              eq_refl (or_introl eq_refl) eq_refl eq_refl eq_refl eq_refl)
    as (H1 & H2 & _).
  split; [exact H1 | exact H2].
Defined.

(** Where the order path and the quote fallback put a code. *)
Lemma exchange_symbol_agrees (c g : string) :
  gm_symbol_of c = Some g ->
  (exchange_symbol c = g <-> startswith_any c ["11"; "12"; "13"] = false)
  /\ (startswith_any c ["11"; "12"; "13"] = true ->
        g = String.append "SHSE." c /\ exchange_symbol c = String.append "SZSE." c).
Proof.
  intros H. apply gm_symbol_of_Some in H as (Hlen & _ & Hcase).
  destruct c as [| a [| b r]]; try discriminate Hlen.
  unfold exchange_symbol, startswith_any, sh_prefixes, sz_prefixes, startswith in *.
  cbn [existsb String.prefix] in *.
  assert (Hr : String.prefix EmptyString r = true) by now destruct r.
  rewrite !Hr in *.
  destruct Hcase as [[-> Hsh] | [-> [Hsh Hsz]]];
    repeat match goal with
           | H : context [ascii_dec ?x ?y] |- _ => destruct (ascii_dec x y); subst
           | |- context [ascii_dec ?x ?y] => destruct (ascii_dec x y); subst
           end;
    simpl in *; try discriminate; try congruence;
    (split; [split; [reflexivity || discriminate | reflexivity || discriminate]
            | try discriminate; auto]).
Qed.

(** The order path and the quote path disagree on three prefixes.
    [place_order] and [get_historical_data] send a code to Shanghai exactly
    when it starts with 6, so for a six-digit code that the quote fallback
    qualifies, a connected client sends one order, under the symbol the
    historical query uses too, and that symbol is the fallback's unless the
    code starts with 11, 12 or 13: those the fallback quotes on SHSE and the
    order goes to SZSE. *)
Theorem order_symbol_and_quote_symbol (avail : bool) (self : MyQuantClient)
  (order_volume : order_request -> outcome (list order_ack))
  (c g action : string) (quantity : Z) (price : Q) (trade_type period : string)
  (count : Z) :
  Gateway.is_connected avail self = true ->
  gm_symbol_of c = Some g ->
  exists request,
    (place_order avail self order_volume c action quantity price trade_type).2
    = [request]
    /\ get_historical_data_request avail self c period count
       = Some (rq_symbol request, period_map period, count)
    /\ (rq_symbol request = g <-> startswith_any c ["11"; "12"; "13"] = false)
    /\ (startswith_any c ["11"; "12"; "13"] = true ->
          g = String.append "SHSE." c
          /\ rq_symbol request = String.append "SZSE." c).
Proof.
  intros Hconn Hg.
  unfold place_order, get_historical_data_request. rewrite Hconn. simpl.
  eexists. split; [reflexivity |].
  assert (Hsym : rq_symbol (request_of self c action quantity price trade_type)
                 = exchange_symbol c).
  { unfold request_of.
    destruct (String.eqb action "buy");
      destruct (contains trade_type "市价"); [reflexivity | | reflexivity |];
      destruct (contains trade_type "对手价"); try reflexivity;
      destruct (contains trade_type "本方价"); try reflexivity;
      destruct (contains trade_type "最优五档"); reflexivity. }
  rewrite Hsym. split; [reflexivity |]. now apply exchange_symbol_agrees.
Qed.

(** [order_symbol_and_quote_symbol] on 113001: the quote fallback asks for
    SHSE.113001, the order goes out for SZSE.113001. *)
Lemma order_symbol_and_quote_symbol_witness :
  gm_symbol_of "113001" = Some "SHSE.113001"
  /\ exists request,
       (place_order true Fixtures.connected_client no_orders "113001" "buy" 100 10%Q
          "limit").2 = [request]
       /\ rq_symbol request = "SZSE.113001".
Proof.
  split; [reflexivity |].
  destruct (order_symbol_and_quote_symbol true Fixtures.connected_client no_orders
              "113001" "SHSE.113001" "buy" 100 10%Q "limit" "1d" 250
              eq_refl eq_refl)
    as (request & Hcalls & _ & _ & Hdiff).
  exists request. split; [exact Hcalls |].
  apply Hdiff. reflexivity.
Defined.

End OrderFacts.
